(** * OLWP-POC-PFE integration service: a shallow embedding

    The integration service receives a contact form, turns it into a CDM
    record, commits it to a Gitea repository through a pull request,
    indexes it in OpenSearch and, when Gitea reports the merge through a
    webhook, creates the contact in Moqui.

    The JavaScript sources are embedded function by function.  Every
    [async] function becomes a computation in the monad [M]: it reads the
    environment (the remote hosts and the platform), threads the state of
    the process and of the index store, and either returns a value or
    throws a JavaScript exception.  [try]/[catch] is [try_catch]. *)

From Stdlib Require Import ZArith NArith List String Ascii Bool Lia.
From stdpp Require Import base option list strings gmap.

Set Warnings "-register-all".
Local Open Scope Z_scope.
Local Open Scope string_scope.

(** ** JavaScript values *)

(** JSON data as the HTTP clients carry it.  Numbers are integers: no
    request or reply inspected by the service holds a fraction. *)
Inductive json : Type :=
  | JNull
  | JBool (b : bool)
  | JNum (z : Z)
  | JStr (s : string)
  | JArr (l : list json)
  | JObj (kv : list (string * json)).

(** A JavaScript value that may be [undefined]. *)
Abbreviation jsv := (option json).

Module Js.

Fixpoint assoc {A} (k : string) (kv : list (string * A)) : option A :=
  match kv with
  | [] => None
  | (k', v) :: kv' => if String.eqb k k' then Some v else assoc k kv'
  end.

(** [{...kv, k: v}]: an own key keeps its position, a new key goes last. *)
Fixpoint set_key {A} (k : string) (v : A) (kv : list (string * A))
  : list (string * A) :=
  match kv with
  | [] => [(k, v)]
  | (k', v') :: kv' =>
      if String.eqb k k' then (k, v) :: kv' else (k', v') :: set_key k v kv'
  end.

(** [{...a, ...b}] *)
Definition spread {A} (a b : list (string * A)) : list (string * A) :=
  fold_left (fun acc p => set_key (fst p) (snd p) acc) b a.

(** Truthiness of a value in a condition or on the left of [||]. *)
Definition truthy (v : jsv) : bool :=
  match v with
  | None | Some JNull => false
  | Some (JBool b) => b
  | Some (JNum z) => negb (z =? 0)%Z
  | Some (JStr s) => negb (String.eqb s "")
  | Some (JArr _) | Some (JObj _) => true
  end.

(** Truthiness of a string that may be [null] or [undefined]. *)
Definition truthy_str (s : option string) : bool :=
  match s with
  | Some s => negb (String.eqb s "")
  | None => false
  end.

(** [s || d] on such a string. *)
Definition or_str (s : option string) (d : string) : string :=
  match s with
  | Some s => if String.eqb s "" then d else s
  | None => d
  end.

Definition digit_char (d : Z) : ascii := ascii_of_nat (48 + Z.to_nat d).

Fixpoint digits_fuel (fuel : nat) (z : Z) (acc : string) : string :=
  match fuel with
  | O => acc
  | S fuel' =>
      let acc' := String (digit_char (z mod 10)) acc in
      if (z <? 10)%Z then acc' else digits_fuel fuel' (z / 10) acc'
  end.

(** Decimal rendering of an integer, as [String(n)] gives it. *)
Definition show_Z (z : Z) : string :=
  if (z <? 0)%Z then "-" +:+ digits_fuel (S (Z.to_nat (Z.log2 (- z)))) (- z) ""
  else digits_fuel (S (Z.to_nat (Z.log2 z))) z "".

Fixpoint join (sep : string) (l : list string) : string :=
  match l with
  | [] => ""
  | [x] => x
  | x :: l' => x +:+ sep +:+ join sep l'
  end.

(** [String(v)], what a template literal does to an interpolated value. *)
Fixpoint to_string (j : json) : string :=
  match j with
  | JNull => "null"
  | JBool true => "true"
  | JBool false => "false"
  | JNum z => show_Z z
  | JStr s => s
  | JArr l =>
      join "," (map (fun x => match x with JNull => "" | _ => to_string x end) l)
  | JObj _ => "[object Object]"
  end.

Definition show (v : jsv) : string :=
  match v with
  | None => "undefined"
  | Some j => to_string j
  end.

(** An object literal whose [undefined] properties are dropped, as
    [JSON.stringify] does when the client serialises a request body. *)
Definition obj (fields : list (string * jsv)) : json :=
  JObj (omap (fun p => match snd p with
                       | Some j => Some (fst p, j)
                       | None => None
                       end) fields).

(** [v === n] and [v === s] *)
Definition is_num (v : jsv) (n : Z) : bool :=
  match v with Some (JNum z) => (z =? n)%Z | _ => false end.

Definition is_str (v : jsv) (s : string) : bool :=
  match v with Some (JStr s') => String.eqb s' s | _ => false end.

Definition str (s : string) : jsv := Some (JStr s).
Definition str_opt (s : option string) : jsv := JStr <$> s.

End Js.

(** ** Exceptions *)

(** A thrown JavaScript error.  [response_status] is
    [error.response?.status]: axios sets it when the host answered with a
    status outside 2xx and leaves [response] undefined when no answer came. *)
Record exn : Type := mkExn {
  name : string;
  message : string;
  response_status : option Z
}.

Definition Error (msg : string) : exn := mkExn "Error" msg None.
Definition TypeError (msg : string) : exn := mkExn "TypeError" msg None.
Definition RangeError (msg : string) : exn := mkExn "RangeError" msg None.

Inductive outcome (A : Type) : Type :=
  | Ret (a : A)
  | Throw (e : exn).
Arguments Ret {A} a.
Arguments Throw {A} e.

Module Prop_access.

(** [v[k]] for a named property.  Reading a property of [undefined] or
    [null] throws; arrays and primitives have none of the names the
    service reads. *)
Definition get (v : jsv) (k : string) : outcome jsv :=
  match v with
  | None =>
      Throw (TypeError ("Cannot read properties of undefined (reading '"
                          +:+ k +:+ "')"))
  | Some JNull =>
      Throw (TypeError ("Cannot read properties of null (reading '"
                          +:+ k +:+ "')"))
  | Some (JObj kv) => Ret (Js.assoc k kv)
  | Some _ => Ret None
  end.

(** [v[0]] *)
Definition first (v : jsv) : outcome jsv :=
  match v with
  | None => Throw (TypeError "Cannot read properties of undefined (reading '0')")
  | Some JNull => Throw (TypeError "Cannot read properties of null (reading '0')")
  | Some (JArr l) => Ret (head l)
  | Some (JObj kv) => Ret (Js.assoc "0" kv)
  | Some (JStr s) =>
      Ret (match s with
           | EmptyString => None
           | String c _ => Some (JStr (String c EmptyString))
           end)
  | Some _ => Ret None
  end.

(** [v?.[k]] *)
Definition get_opt (v : jsv) (k : string) : jsv :=
  match v with
  | Some (JObj kv) => Js.assoc k kv
  | _ => None
  end.

End Prop_access.

(** [o.k] on a truthy value [o], as every caller of the service passes. *)
Notation "o '.[' k ']'" := (Prop_access.get_opt (Some o) k)
  (at level 1, left associativity, format "o .[ k ]").

(** ** The world outside the process *)

Inductive level : Type := Debug | Info | Warn | Err.

Inductive method : Type := GET | POST | PUT | DELETE.

Inductive host : Type := Gitea | Moqui.

(** One call of an axios client.  [body] is the request body of a POST or
    PUT and the query parameters of a GET. *)
Record request : Type := mkRequest {
  target : host;
  verb : method;
  url : string;
  body : json
}.

(** The calls of the OpenSearch client the service makes.  A document is
    the list of its fields, in the order of the object literal. *)
Inductive os_op : Type :=
  | ClusterHealth
  | IndicesExists (index : string)
  | IndicesCreate (index : string) (mappings : json)
  | IndicesDelete (index : string)
  | IndexDoc (index : string) (id : option string) (doc : json)
  | UpdateDoc (index : string) (id : option string) (doc : json)
  | Bulk (index : string) (docs : list json).

Inductive event : Type :=
  | EHttp (rq : request) (reply : outcome json)
  | EOs (op : os_op) (reply : outcome json)
  | ELog (lvl : level) (msg : string)
  | ESleep (ms : Z).

(** Settings read from [process.env], with the defaults of the sources. *)
Record config : Type := mkConfig {
  repoOwner : string;
  repoName : string;
  contactsIndex : string;
  referenceIndex : string;
  notificationsIndex : string;
  WEBHOOK_SECRET : string;
  CDM_SCHEMA_VERSION : string;
  CDM_NAMESPACE : string;
  loadedAt : string (* [new Date().toISOString()] when cdmModels.js was loaded *)
}.

Definition default_config : config :=
  {| repoOwner := "gitea_admin";
     repoName := "cdm-data";
     contactsIndex := "contacts";
     referenceIndex := "reference-data";
     notificationsIndex := "notifications";
     WEBHOOK_SECRET := "your-webhook-secret";
     CDM_SCHEMA_VERSION := "1.0";
     CDM_NAMESPACE := "com.example.cdm";
     loadedAt := "2025-01-01T00:00:00.000Z" |}.

(** What the process cannot decide: how the Gitea and Moqui hosts answer
    a request, whether a call to the index store fails before reaching
    it, the health of the cluster, the clock and the random source.  Each
    is a function of everything that happened so far, so any
    deterministic behaviour of the hosts is an environment.  The last two
    fields are the platform's encoders, whose output the service only
    forwards. *)
Record Env : Type := mkEnv {
  cfg : config;
  respond : list event -> request -> outcome json;
  os_fault : list event -> os_op -> option exn;
  cluster_status : list event -> string;
  clock : list event -> Z;
  random36 : list event -> string;
  toISOString : Z -> string;
  stringify : json -> string;
  base64 : string -> string;
  base64_decode : string -> string;
  uuidv4 : list event -> string;
  is_email : string -> bool;   (* the address check of Joi's [email()] *)
  valid_date : string -> bool  (* the string parses as a date *)
}.

(** ** The index store *)

Module Store.

(** An index holds its mappings, the documents indexed under an id the
    caller chose, and the documents indexed without one, for which the
    store makes up ids that the service never reads. *)
Record index : Type := mkIndex {
  mappings : json;
  docs : gmap string json;
  auto_docs : list json
}.

Abbreviation t := (gmap string index).

Definition empty_index (m : json) : index := mkIndex m ∅ [].

(** A partial update merges objects recursively and replaces any other
    value. *)
Fixpoint merge_json (new old : json) {struct new} : json :=
  match new with
  | JObj n =>
      match old with
      | JObj o =>
          JObj ((fix go (n : list (string * json)) (acc : list (string * json))
                   : list (string * json) :=
                   match n with
                   | [] => acc
                   | (k, v) :: n' =>
                       go n' (Js.set_key k
                                (match Js.assoc k acc with
                                 | Some ov => merge_json v ov
                                 | None => v
                                 end) acc)
                   end) n o)
      | _ => new
      end
  | _ => new
  end.

(** The fields of a merged object: each field of the patch is set, in
    order, on what the fields before it have made of the document. *)
Fixpoint merge_fields (patch acc : list (string * json)) : list (string * json) :=
  match patch with
  | [] => acc
  | (k, v) :: patch' =>
      merge_fields patch'
        (Js.set_key k
           (match Js.assoc k acc with
            | Some ov => merge_json v ov
            | None => v
            end) acc)
  end.

(** The store once an index is created if it is absent. *)
Definition ensured (st : t) (name : string) (m : json) : t :=
  match st !! name with
  | Some _ => st
  | None => <[name := empty_index m]> st
  end.

Definition not_found (what : string) : exn :=
  mkExn "ResponseError" what (Some 404).

Definition missing_id : exn :=
  mkExn "ConfigurationError" "Missing required parameter: id" None.

(** The index a write goes to; writing a document creates a missing
    index with dynamic mappings. *)
Definition index_for_write (s : t) (i : string) : index :=
  default (empty_index (JObj [])) (s !! i).

(** One call that reached the store: the body of the answer, or the
    error of the client, and the store afterwards. *)
Definition step (status : string) (s : t) (op : os_op) : outcome json * t :=
  match op with
  | ClusterHealth => (Ret (JObj [("status", JStr status)]), s)
  | IndicesExists i => (Ret (JBool (bool_decide (is_Some (s !! i)))), s)
  | IndicesCreate i m =>
      match s !! i with
      | Some _ =>
          (Throw (mkExn "ResponseError" "resource_already_exists_exception"
                    (Some 400)), s)
      | None => (Ret (JObj [("acknowledged", JBool true)]),
                 <[i := empty_index m]> s)
      end
  | IndicesDelete i =>
      match s !! i with
      | Some _ => (Ret (JObj [("acknowledged", JBool true)]), delete i s)
      | None => (Throw (not_found "index_not_found_exception"), s)
      end
  | IndexDoc i id doc =>
      let ix := index_for_write s i in
      match id with
      | Some d =>
          (Ret (JObj [("_id", JStr d)]),
           <[i := mkIndex (mappings ix) (<[d := doc]> (docs ix)) (auto_docs ix)]> s)
      | None =>
          (Ret (JObj []),
           <[i := mkIndex (mappings ix) (docs ix) (auto_docs ix ++ [doc])]> s)
      end
  | UpdateDoc i id patch =>
      match id with
      | None => (Throw missing_id, s)
      | Some d =>
          match s !! i with
          | None => (Throw (not_found "index_not_found_exception"), s)
          | Some ix =>
              match docs ix !! d with
              | None => (Throw (not_found "document_missing_exception"), s)
              | Some old =>
                  (Ret (JObj [("_id", JStr d); ("result", JStr "updated")]),
                   <[i := mkIndex (mappings ix)
                            (<[d := merge_json patch old]> (docs ix))
                            (auto_docs ix)]> s)
              end
          end
      end
  | Bulk i ds =>
      let ix := index_for_write s i in
      (Ret (JObj [("errors", JBool false)]),
       <[i := mkIndex (mappings ix) (docs ix) (auto_docs ix ++ ds)]> s)
  end.

End Store.

(** ** The monad of the service *)

Record St : Type := mkSt {
  trace : list event;
  store : Store.t
}.

Definition M (A : Type) : Type := Env -> St -> outcome A * St.

Definition ret {A} (a : A) : M A := fun _ s => (Ret a, s).

Definition throw {A} (e : exn) : M A := fun _ s => (Throw e, s).

Definition bind {A B} (m : M A) (k : A -> M B) : M B :=
  fun E s =>
    match m E s with
    | (Ret a, s') => k a E s'
    | (Throw e, s') => (Throw e, s')
    end.

Definition try_catch {A} (m : M A) (h : exn -> M A) : M A :=
  fun E s =>
    match m E s with
    | (Ret a, s') => (Ret a, s')
    | (Throw e, s') => h e E s'
    end.

Definition lift {A} (o : outcome A) : M A := fun _ s => (o, s).

Notation "'let*' x ':=' m 'in' k" := (bind m (fun x => k))
  (at level 10, x name, m at level 100, k at level 200).
Notation "m ';;' k" := (bind m (fun _ => k))
  (at level 100, k at level 200, right associativity).

Definition emit (ev : event) : M unit :=
  fun _ s => (Ret tt, mkSt (trace s ++ [ev]) (store s)).

Definition ask {A} (f : Env -> A) : M A := fun E s => (Ret (f E), s).

(** A value the environment derives from the history: the clock, the
    random source. *)
Definition observe {A} (f : Env -> list event -> A) : M A :=
  fun E s => (Ret (f E (trace s)), s).

(** What a route answers: [res.status(status).json(payload)]. *)
Record response : Type := mkResponse {
  status : Z;
  payload : json
}.

Module logger.
Definition info (msg : string) : M unit := emit (ELog Info msg).
Definition warn (msg : string) : M unit := emit (ELog Warn msg).
Definition error (msg : string) : M unit := emit (ELog Err msg).
Definition debug (msg : string) : M unit := emit (ELog Debug msg).
End logger.

(** [Date.now()] and [new Date().toISOString()] *)
Definition Date_now : M Z := observe clock.
Definition now_iso : M string :=
  fun E s => (Ret (toISOString E (clock E (trace s))), s).

(** [await new Promise((resolve) => setTimeout(resolve, ms))] *)
Definition sleep (ms : Z) : M unit := emit (ESleep ms).

(** A call of an axios client, awaited: the interceptors log the request
    and its answer and pass the rejection on. *)
Definition settle (rq : request) : M (outcome json) :=
  fun E s =>
    let r := respond E (trace s) rq in
    (Ret r, mkSt (trace s ++ [EHttp rq r]) (store s)).

Definition http (rq : request) : M json :=
  let* r := settle rq in lift r.

(** [await Promise.all(promises)] on calls that were started in this
    order: every call has been sent; the join fulfils with all the
    answers or rejects with a rejection among them (here the first in the
    order of the array). *)
Fixpoint Promise_all (promises : list (outcome json)) : outcome (list json) :=
  match promises with
  | [] => Ret []
  | Throw e :: _ => Throw e
  | Ret d :: rest =>
      match Promise_all rest with
      | Ret ds => Ret (d :: ds)
      | Throw e => Throw e
      end
  end.

(** A call of the OpenSearch client. *)
Definition opensearch (op : os_op) : M json :=
  fun E s =>
    match os_fault E (trace s) op with
    | Some e => (Throw e, mkSt (trace s ++ [EOs op (Throw e)]) (store s))
    | None =>
        let '(r, st') := Store.step (cluster_status E (trace s)) (store s) op in
        (r, mkSt (trace s ++ [EOs op r]) st')
    end.

(** ** Strings *)

Module Str.

Definition map_chars (f : ascii -> ascii) : string -> string :=
  fix go (s : string) : string :=
    match s with
    | EmptyString => EmptyString
    | String c s' => String (f c) (go s')
    end.

Definition lower_char (c : ascii) : ascii :=
  let n := nat_of_ascii c in
  if (65 <=? n)%nat && (n <=? 90)%nat then ascii_of_nat (n + 32) else c.

(** [s.toLowerCase()], on the ASCII letters. *)
Definition toLowerCase : string -> string := map_chars lower_char.

(** [s.replace(/[:.]/g, "-")] *)
Definition dash_colons_dots : string -> string :=
  map_chars (fun c => if Ascii.eqb c ":" || Ascii.eqb c "." then "-"%char else c).

(** [s.substr(from, len)] and [s.slice(from, from + len)] within bounds. *)
Definition substr (from len : nat) (s : string) : string :=
  String.substring from len s.

Definition is_digit (c : ascii) : bool :=
  let n := nat_of_ascii c in (48 <=? n)%nat && (n <=? 57)%nat.

Definition is_space (c : ascii) : bool :=
  let n := nat_of_ascii c in
  (n =? 32)%nat || ((9 <=? n)%nat && (n <=? 13)%nat).

Fixpoint trim_start (s : string) : string :=
  match s with
  | String c s' => if is_space c then trim_start s' else s
  | EmptyString => EmptyString
  end.

Fixpoint trim_end (s : string) : string :=
  match s with
  | EmptyString => EmptyString
  | String c s' =>
      match trim_end s' with
      | EmptyString => if is_space c then EmptyString else String c EmptyString
      | t => String c t
      end
  end.

(** [s.trim()], on ASCII white space. *)
Definition trim (s : string) : string := trim_end (trim_start s).

(** [s.split(sep)] for a separator of one character. *)
Fixpoint split (sep : ascii) (s : string) : list string :=
  match s with
  | EmptyString => [EmptyString]
  | String c s' =>
      if Ascii.eqb c sep then EmptyString :: split sep s'
      else match split sep s' with
           | w :: ws => String c w :: ws
           | [] => [String c EmptyString]
           end
  end.

(** [s.length]: the UTF-16 code units of a string held in UTF-8. *)
Fixpoint length16 (s : string) : Z :=
  match s with
  | EmptyString => 0
  | String c s' =>
      let n := nat_of_ascii c in
      (if (128 <=? n)%nat && (n <? 192)%nat then 0
       else if (240 <=? n)%nat then 2 else 1) + length16 s'
  end.

(** The double quote, for messages that quote a name. *)
Definition dq : string := String (ascii_of_nat 34) EmptyString.

Definition nl : string := String (ascii_of_nat 10) EmptyString.

End Str.

(** ** Joi: the part of the validation library the schema uses *)

Module Joi.

Record prefs : Type := mkPrefs {
  abortEarly : bool;
  stripUnknown : bool;
  convert : bool
}.

Inductive rule : Type :=
  | min (limit : Z)
  | max (limit : Z)
  | email
  | pattern (source : string) (test : string -> bool).

Inductive kind : Type :=
  | string_ (rules : list rule)
  | boolean
  | date
  | object
  | alternatives (accepts : list (json -> bool)).

Inductive default_value : Type :=
  | no_default
  | default_const (j : json)
  | default_uuid
  | default_now.

(** A schema of one key: its type, [required()], [allow(null, "")] or
    [allow(null, {})], [valid(...)] and [default(...)]. *)
Record schema : Type := mkSchema {
  type : kind;
  required : bool;
  allow_null_empty : bool;
  valid : option (list string);
  default_ : default_value
}.

Definition label (key : string) : string := Str.dq +:+ key +:+ Str.dq.

Definition rule_error (E : Env) (key value : string) (r : rule) : list string :=
  match r with
  | min limit =>
      if (Str.length16 value <? limit)%Z then
        [label key +:+ " length must be at least " +:+ Js.show_Z limit
           +:+ " characters long"]
      else []
  | max limit =>
      if (limit <? Str.length16 value)%Z then
        [label key +:+ " length must be less than or equal to "
           +:+ Js.show_Z limit +:+ " characters long"]
      else []
  | email =>
      if is_email E value then [] else [label key +:+ " must be a valid email"]
  | pattern source test =>
      if test value then []
      else [label key +:+ " with value " +:+ Str.dq +:+ value +:+ Str.dq
              +:+ " fails to match the required pattern: " +:+ source]
  end.

(** The errors of the rules, in order: all of them, or the first one
    under [abortEarly]. *)
Fixpoint rules_errors (E : Env) (p : prefs) (key value : string)
    (rules : list rule) : list string :=
  match rules with
  | [] => []
  | r :: rest =>
      match rule_error E key value r with
      | [] => rules_errors E p key value rest
      | errs => if abortEarly p then errs
                else (errs ++ rules_errors E p key value rest)%list
      end
  end.

Definition is_bool_word (s : string) : bool :=
  let w := Str.toLowerCase s in String.eqb w "true" || String.eqb w "false".

(** The errors of the base type on a value that is present. *)
Definition base_errors (E : Env) (p : prefs) (key : string) (k : kind) (v : json)
  : list string :=
  match k with
  | string_ rules =>
      match v with
      | JStr "" => [label key +:+ " is not allowed to be empty"]
      | JStr s => rules_errors E p key s rules
      | _ => [label key +:+ " must be a string"]
      end
  | boolean =>
      match v with
      | JBool _ => []
      | JStr s =>
          if convert p && is_bool_word s then []
          else [label key +:+ " must be a boolean"]
      | _ => [label key +:+ " must be a boolean"]
      end
  | date =>
      match v with
      | JStr s =>
          if convert p && valid_date E s then []
          else [label key +:+ " must be a valid date"]
      | JNum _ => if convert p then [] else [label key +:+ " must be a valid date"]
      | _ => [label key +:+ " must be a valid date"]
      end
  | object =>
      match v with
      | JObj _ => []
      | _ => [label key +:+ " must be of type object"]
      end
  | alternatives accepts =>
      if existsb (fun f => f v) accepts then []
      else [label key +:+ " does not match any of the allowed types"]
  end.

Definition allowed (sch : schema) (v : json) : bool :=
  allow_null_empty sch
  && match v with
     | JNull | JStr "" | JObj [] => true
     | _ => false
     end.

Definition in_valid (valids : list string) (v : json) : bool :=
  match v with
  | JStr s => existsb (String.eqb s) valids
  | _ => false
  end.

(** The errors of the value [v] of the key under its schema. *)
Definition key_errors (E : Env) (p : prefs) (key : string) (sch : schema)
    (v : jsv) : list string :=
  match v with
  | None => if required sch then [label key +:+ " is required"] else []
  | Some j =>
      if allowed sch j then []
      else
        match valid sch with
        | Some valids =>
            if in_valid valids j then []
            else
              let only :=
                label key +:+ " must be one of [" +:+ Js.join ", " valids +:+ "]" in
              if abortEarly p then [only]
              else only :: base_errors E p key (type sch) j
        | None => base_errors E p key (type sch) j
        end
  end.

(** The value the validation returns for the key. *)
Definition key_value (uuid now : string) (p : prefs) (sch : schema) (v : jsv)
  : jsv :=
  match v with
  | None =>
      match default_ sch with
      | no_default => None
      | default_const j => Some j
      | default_uuid => Some (JStr uuid)
      | default_now => Some (JStr now)
      end
  | Some (JStr s) =>
      match type sch with
      | boolean =>
          if convert p && is_bool_word s
          then Some (JBool (String.eqb (Str.toLowerCase s) "true"))
          else v
      | _ => v
      end
  | _ => v
  end.

(** The keys of the object schema, in the order they were declared:
    every key is validated, unless [abortEarly] stops at the first key
    with an error. *)
Fixpoint keys_errors (E : Env) (p : prefs) (keys : list (string * schema))
    (data : list (string * jsv)) : list string :=
  match keys with
  | [] => []
  | (key, sch) :: rest =>
      match key_errors E p key sch (default None (Js.assoc key data)) with
      | [] => keys_errors E p rest data
      | errs => if abortEarly p then errs
                else (errs ++ keys_errors E p rest data)%list
      end
  end.

(** The keys of the data the schema does not know. *)
Definition unknown_errors (p : prefs) (keys : list (string * schema))
    (data : list (string * jsv)) : list string :=
  if stripUnknown p then []
  else
    omap (fun kv =>
            match snd kv, Js.assoc (fst kv) keys with
            | Some _, None => Some (label (fst kv) +:+ " is not allowed")
            | _, _ => None
            end) data.

(** [schema.validate(data, prefs)]: the messages of [error.details]
    (empty when there is no [error]) and the [value]. *)
Definition validate (E : Env) (uuid now : string) (keys : list (string * schema))
    (data : list (string * jsv)) (p : prefs) : list string * json :=
  let errs := keys_errors E p keys data in
  let details :=
    if abortEarly p then
      match errs with
      | [] => firstn 1 (unknown_errors p keys data)
      | _ => errs
      end
    else (errs ++ unknown_errors p keys data)%list in
  (details,
   Js.obj (map (fun ks => (fst ks,
                           key_value uuid now p (snd ks)
                             (default None (Js.assoc (fst ks) data)))) keys)).

End Joi.

(** ** cdmModels.js: the CDM file structure *)

Module cdmModels.

Definition attribute (name dataType description : string) (isRequired : bool)
    (more : list (string * json)) : json :=
  JObj ([("name", JStr name); ("dataType", JStr dataType);
         ("description", JStr description); ("isRequired", JBool isRequired)]
          ++ more).

Definition maxLength (n : Z) : list (string * json) := [("maxLength", JNum n)].

Definition cdmEntityMetadata (c : config) : list (string * jsv) :=
  [("entityName", Js.str "Contact");
   ("entityDescription",
    Js.str "Contact entity following Microsoft CDM standard");
   ("version", Js.str (CDM_SCHEMA_VERSION c));
   ("namespace", Js.str (CDM_NAMESPACE c));
   ("lastModified", Js.str (loadedAt c));
   ("attributes", Some (JArr [
      attribute "contactId" "string" "Unique identifier for the contact" true
        [("isPrimaryKey", JBool true)];
      attribute "fullName" "string" "Full name of the contact" true
        (maxLength 255);
      attribute "emailAddress" "string" "Email address of the contact" true
        [("format", JStr "email")];
      attribute "phoneNumber" "string" "Phone number of the contact" false
        [("format", JStr "phone")];
      attribute "company" "string" "Company name" false (maxLength 255);
      attribute "addressLine1" "string" "First line of address" false
        (maxLength 255);
      attribute "addressLine2" "string" "Second line of address" false
        (maxLength 255);
      attribute "city" "string" "City name" false (maxLength 100);
      attribute "stateProvince" "string" "State or province" false
        (maxLength 100);
      attribute "postalCode" "string" "Postal or ZIP code" false (maxLength 20);
      attribute "country" "string" "Country name" false (maxLength 100);
      attribute "jobTitle" "string" "Job title" false (maxLength 255);
      attribute "department" "string" "Department name" false (maxLength 255);
      attribute "preferredContactMethod" "string" "Preferred method of contact"
        false [("enum", JArr [JStr "email"; JStr "phone"; JStr "mail"])];
      attribute "isActive" "boolean" "Whether the contact is active" false
        [("default", JBool true)];
      attribute "notes" "string" "Additional notes" false (maxLength 1000);
      attribute "tags" "array" "Tags associated with the contact" false
        [("itemType", JStr "string")];
      attribute "customFields" "object" "Custom field values" false [];
      attribute "createdOn" "dateTime" "Creation timestamp" true [];
      attribute "modifiedOn" "dateTime" "Last modification timestamp" true [];
      attribute "createdBy" "string" "User who created the record" false [];
      attribute "modifiedBy" "string" "User who last modified the record"
        false []]))].

(** [generateCdmFileStructure]: the metadata and the [entities.Contact]
    array. *)
Definition generateCdmFileStructure (contactData : json)
  : M (list (string * jsv) * list json) :=
  let* c := ask cfg in
  let* generatedOn := now_iso in
  let metadata :=
    Js.spread (cdmEntityMetadata c)
      [("recordCount",
        Some (JNum (match contactData with
                    | JArr l => Z.of_nat (length l)
                    | _ => 1
                    end)));
       ("generatedOn", Js.str generatedOn)] in
  ret (metadata, match contactData with JArr l => l | _ => [contactData] end).

Import Joi.

Definition optional_string (limit : Z) : schema :=
  mkSchema (string_ [max limit]) false true None no_default.

Definition phone_char (c : ascii) : bool :=
  Str.is_digit c || Str.is_space c
  || Ascii.eqb c "-" || Ascii.eqb c "(" || Ascii.eqb c ")".

(** [/^[\+]?[0-9\s\-\(\)]+$/], with the ASCII white space for [\s]. *)
Definition phone_pattern (s : string) : bool :=
  let body := match s with String "+" rest => rest | _ => s end in
  negb (String.eqb body "")
  && forallb phone_char (list_ascii_of_string body).

Definition is_string_array (v : json) : bool :=
  match v with
  | JArr l => forallb (fun x => match x with
                                | JStr s => negb (String.eqb s "")
                                | _ => false
                                end) l
  | _ => false
  end.

(** [Joi.object({ ... })]: the CDM Contact Model Schema *)
Definition cdmContactSchema : list (string * schema) :=
  [("contactId", mkSchema (string_ []) false false None default_uuid);
   ("fullName", mkSchema (string_ [min 1; max 255]) true false None no_default);
   ("emailAddress", mkSchema (string_ [email]) true false None no_default);
   ("phoneNumber",
    mkSchema (string_ [pattern "/^[\+]?[0-9\s\-\(\)]+$/" phone_pattern])
      false true None no_default);
   ("company", optional_string 255);
   ("addressLine1", optional_string 255);
   ("addressLine2", optional_string 255);
   ("city", optional_string 100);
   ("stateProvince", optional_string 100);
   ("postalCode", optional_string 20);
   ("country", optional_string 100);
   ("jobTitle", optional_string 255);
   ("department", optional_string 255);
   ("preferredContactMethod",
    mkSchema (string_ []) false false (Some ["email"; "phone"; "mail"])
      (default_const (JStr "email")));
   ("isActive", mkSchema boolean false false None (default_const (JBool true)));
   ("notes", optional_string 1000);
   ("tags",
    mkSchema (alternatives
                [is_string_array;
                 (fun v => match v with JStr "" | JNull => true | _ => false end);
                 (fun _ => true)])
      false false None no_default);
   ("customFields", mkSchema object false true None no_default);
   ("createdOn", mkSchema date false false None default_now);
   ("modifiedOn", mkSchema date false false None default_now);
   ("createdBy", mkSchema (string_ []) false false None
                   (default_const (JStr "system")));
   ("modifiedBy", mkSchema (string_ []) false false None
                    (default_const (JStr "system")))].

Definition validation_prefs : prefs :=
  {| abortEarly := false; stripUnknown := true; convert := true |}.

(** Validation function for CDM Contact *)
Definition validateCdmContact (data : list (string * jsv)) : M json :=
  let* E := ask id in
  let* uuid := observe uuidv4 in
  let* now := now_iso in
  let '(details, value) := validate E uuid now cdmContactSchema data validation_prefs in
  match details with
  | [] => ret value
  | _ =>
      throw (Error ("CDM Contact validation failed: " +:+ Js.join ", " details))
  end.

(** [a || b] *)
Definition or_else (a b : jsv) : jsv := if Js.truthy a then a else b.

(** The object [transformToCdmContact] hands to the validation. *)
Definition cdmData (formData : json) (userId : jsv) (uuid now : string)
  : list (string * jsv) :=
  let userId := match userId with None => Js.str "system" | _ => userId end in
  [("contactId", or_else formData.["contactId"] (Js.str uuid));
   ("fullName",
    or_else formData.["fullName"]
      (Js.str (Str.trim
                 (Js.show (or_else formData.["firstName"] (Js.str "")) +:+ " "
                    +:+ Js.show (or_else formData.["lastName"] (Js.str ""))))));
   ("emailAddress", or_else formData.["emailAddress"] formData.["email"]);
   ("phoneNumber", or_else formData.["phoneNumber"] formData.["phone"]);
   ("company", or_else formData.["company"] formData.["organization"]);
   ("addressLine1", or_else formData.["addressLine1"] formData.["address1"]);
   ("addressLine2", or_else formData.["addressLine2"] formData.["address2"]);
   ("city", formData.["city"]);
   ("stateProvince", or_else formData.["stateProvince"] formData.["state"]);
   ("postalCode", or_else formData.["postalCode"] formData.["zipCode"]);
   ("country", formData.["country"]);
   ("jobTitle", or_else formData.["jobTitle"] formData.["title"]);
   ("department", formData.["department"]);
   ("preferredContactMethod",
    or_else formData.["preferredContactMethod"] (Js.str "email"));
   ("isActive",
    match formData.["isActive"] with
    | None => Some (JBool true)
    | v => v
    end);
   ("notes", or_else formData.["notes"] formData.["comments"]);
   ("tags", or_else formData.["tags"] (Some (JArr [])));
   ("customFields", or_else formData.["customFields"] (Some (JObj [])));
   ("createdOn", or_else formData.["createdOn"] (Js.str now));
   ("modifiedOn", Js.str now);
   ("createdBy", or_else formData.["createdBy"] userId);
   ("modifiedBy", userId)].

(** Transform raw form data to CDM format.  A [Date] is held as its ISO
    string. *)
Definition transformToCdmContact (formData : json) (userId : jsv) : M json :=
  let* now := now_iso in
  let* uuid := observe uuidv4 in
  validateCdmContact (cdmData formData userId uuid now).

End cdmModels.


(** ** giteaService.js *)

Module GiteaService.

Definition repo (c : config) : string :=
  "/repos/" +:+ repoOwner c +:+ "/" +:+ repoName c.

Definition ensureRepository : M bool :=
  let* c := ask cfg in
  try_catch
    ((* Check if repository exists *)
     http (mkRequest Gitea GET (repo c) JNull);;
     logger.info ("Repository " +:+ repoOwner c +:+ "/" +:+ repoName c
                    +:+ " exists");;
     ret true)
    (fun error =>
       if bool_decide (response_status error = Some 404) then
         (* Repository doesn't exist, create it *)
         logger.info ("Creating repository " +:+ repoOwner c +:+ "/"
                        +:+ repoName c);;
         try_catch
           (http (mkRequest Gitea POST "/user/repos"
                    (JObj [("name", JStr (repoName c));
                           ("description",
                            JStr "CDM Data Repository for Master Data Management");
                           ("private", JBool false);
                           ("auto_init", JBool true);
                           ("gitignores", JStr "Node");
                           ("license", JStr "MIT");
                           ("readme", JStr "Default")]));;
            logger.info ("Repository " +:+ repoOwner c +:+ "/" +:+ repoName c
                           +:+ " created successfully");;
            ret true)
           (fun createError =>
              logger.error "Failed to create repository:";;
              throw createError)
       else
         logger.error "Error checking repository:";;
         throw error).

Definition createBranch_try (branchName baseBranch : string) : M string :=
  let* c := ask cfg in
  (* Get base branch reference *)
  let* baseRef_data :=
    http (mkRequest Gitea GET
            (repo c +:+ "/git/refs/heads/" +:+ baseBranch) JNull) in
  logger.info ("Base branch " +:+ baseBranch +:+ " data:");;
  let* ref0 := lift (Prop_access.first (Some baseRef_data)) in
  let* object := lift (Prop_access.get ref0 "object") in
  let* baseSha := lift (Prop_access.get object "sha") in
  logger.info ("Base branch " +:+ baseBranch +:+ " SHA: " +:+ Js.show baseSha);;
  (* Create new branch *)
  http (mkRequest Gitea POST (repo c +:+ "/branches")
          (Js.obj [("new_branch_name", Js.str branchName);
                   ("old_ref_name", baseSha)]));;
  logger.info ("Branch " +:+ branchName +:+ " created successfully");;
  ret branchName.

Definition createBranch (branchName : string) (baseBranch : string) : M string :=
  try_catch (createBranch_try branchName baseBranch)
    (fun error =>
       if bool_decide (response_status error = Some 422) then
         logger.warn ("Branch " +:+ branchName +:+ " already exists");;
         ret branchName
       else
         logger.error ("Failed to create branch " +:+ branchName +:+ ":");;
         throw error).

Record file : Type := mkFile { content : string; sha : jsv; size : jsv }.

(** [Buffer.from(v, ...)] accepts a string and throws on [undefined],
    [null], a number or a boolean. *)
Definition Buffer_from (v : jsv) : outcome string :=
  match v with
  | Some (JStr s) => Ret s
  | Some (JArr _) | Some (JObj _) => Ret ""
  | _ =>
      Throw (mkExn "TypeError"
               ("The first argument must be of type string or an instance of Buffer, ArrayBuffer, or Array or an Array-like Object. Received "
                  +:+ Js.show v) None)
  end.

Definition getFileContent (filePath branch : string) : M (option file) :=
  let* c := ask cfg in
  try_catch
    (let* data :=
       http (mkRequest Gitea GET (repo c +:+ "/contents/" +:+ filePath)
               (JObj [("ref", JStr branch)])) in
     let* status := lift (Prop_access.get (Some data) "status") in
     if Js.is_num status 404 then
       logger.info ("File " +:+ filePath +:+ " not found in branch " +:+ branch);;
       ret None
     else
       (* Decode base64 content *)
       let* encoded := lift (Buffer_from (Prop_access.get_opt (Some data) "content")) in
       let* decode := ask base64_decode in
       ret (Some (mkFile (decode encoded)
                    (Prop_access.get_opt (Some data) "sha")
                    (Prop_access.get_opt (Some data) "size"))))
    (fun error =>
       if bool_decide (response_status error = Some 404) then
         ret None (* File doesn't exist *)
       else
         logger.error ("Failed to get file content for " +:+ filePath +:+ ":");;
         throw error).

Definition commitFile (filePath : string) (content : jsv) (message branch : string)
  : M json :=
  let* c := ask cfg in
  try_catch
    ((* Check if file exists to get SHA for update *)
     let* existingFile := getFileContent filePath branch in
     let* bytes := lift (Buffer_from content) in
     let* encode := ask base64 in
     let commitData :=
       [("message", Js.str message);
        ("content", Js.str (encode bytes));
        ("branch", Js.str branch)] in
     let* data :=
       match existingFile with
       | Some f =>
           let* data :=
             http (mkRequest Gitea PUT (repo c +:+ "/contents/" +:+ filePath)
                     (Js.obj (Js.set_key "sha" (sha f) commitData))) in
           logger.info ("File " +:+ filePath +:+ " updated successfully in branch "
                          +:+ branch);;
           ret data
       | None =>
           let* data :=
             http (mkRequest Gitea POST (repo c +:+ "/contents/" +:+ filePath)
                     (Js.obj (Js.set_key "branch" (Js.str branch) commitData))) in
           logger.info ("File " +:+ filePath +:+ " created successfully in branch "
                          +:+ branch);;
           ret data
       end in
     logger.info ("File " +:+ filePath +:+ " committed successfully to branch "
                    +:+ branch);;
     ret data)
    (fun error =>
       logger.error ("Failed to commit file " +:+ filePath +:+ ":");;
       throw error).

Definition createPullRequest (title head base body : string) : M json :=
  let* c := ask cfg in
  try_catch
    (let* data :=
       http (mkRequest Gitea POST (repo c +:+ "/pulls")
               (JObj [("title", JStr title); ("head", JStr head);
                      ("base", JStr base); ("body", JStr body)])) in
     logger.info ("Pull request created: "
                    +:+ Js.show (Prop_access.get_opt (Some data) "html_url"));;
     ret data)
    (fun error =>
       logger.error "Failed to create pull request:";;
       throw error).

Definition mergePullRequest (pullNumber : jsv) (mergeMethod : string) : M json :=
  let* c := ask cfg in
  try_catch
    (let* data :=
       http (mkRequest Gitea POST
               (repo c +:+ "/pulls/" +:+ Js.show pullNumber +:+ "/merge")
               (JObj [("Do", JStr mergeMethod)])) in
     logger.info ("Pull request #" +:+ Js.show pullNumber
                    +:+ " merged successfully");;
     ret data)
    (fun error =>
       logger.error ("Failed to merge pull request #" +:+ Js.show pullNumber
                       +:+ ":");;
       throw error).

Definition deleteBranch_request (c : config) (branchName : string) : request :=
  mkRequest Gitea DELETE (repo c +:+ "/branches/" +:+ branchName) JNull.

Definition deleteBranch (branchName : string) : M unit :=
  let* c := ask cfg in
  try_catch
    (http (deleteBranch_request c branchName);;
     logger.info ("Branch " +:+ branchName +:+ " deleted successfully"))
    (fun error =>
       logger.error ("Failed to delete branch " +:+ branchName +:+ ":");;
       throw error).

Definition generateBranchName (type : string) (identifier : option string)
  : M string :=
  let* iso := now_iso in
  let timestamp := Str.dash_colons_dots iso in
  let* rnd := observe random36 in
  let id :=
    if Js.truthy_str identifier then default "" identifier
    else Str.substr 2 9 rnd in
  ret (Str.toLowerCase (type +:+ "-" +:+ id +:+ "-" +:+ timestamp)).

End GiteaService.

Module GiteaCommit.
Import GiteaService.

Record commit_result : Type := mkCommitResult {
  branchName : string;
  pullRequest : json;
  submissionId : string;
  contactId : jsv;
  dataFilePath : string;
  metadataFilePath : string
}.

(** [contactData.contactId?.substr(0, 8)] *)
Definition short_id (contactId : jsv) : outcome (option string) :=
  match contactId with
  | None | Some JNull => Ret None
  | Some (JStr s) => Ret (Some (Str.substr 0 8 s))
  | Some _ =>
      Throw (TypeError "contactData.contactId?.substr is not a function")
  end.

Definition pull_request_body (contactData : json) (submissionId processedAt : string)
  : string :=
  "## Contact Information" +:+ Str.nl
  +:+ "**Contact ID:** " +:+ Js.show contactData.["contactId"] +:+ Str.nl
  +:+ "**Name:** " +:+ Js.show contactData.["fullName"] +:+ Str.nl
  +:+ "**Email:** " +:+ Js.show contactData.["emailAddress"] +:+ Str.nl
  +:+ "**Company:** "
  +:+ (if Js.truthy contactData.["company"]
       then Js.show contactData.["company"] else "N/A") +:+ Str.nl
  +:+ Str.nl
  +:+ "## CDM Compliance" +:+ Str.nl
  +:+ "- ✅ Schema validation passed" +:+ Str.nl
  +:+ "- ✅ Required fields present" +:+ Str.nl
  +:+ "- ✅ Data format validated" +:+ Str.nl
  +:+ Str.nl
  +:+ "## Submission Details" +:+ Str.nl
  +:+ "- **Submission ID:** " +:+ submissionId +:+ Str.nl
  +:+ "- **Processed At:** " +:+ processedAt +:+ Str.nl
  +:+ "- **Source:** Grafana Form Submission" +:+ Str.nl
  +:+ Str.nl
  +:+ "Please review and approve to merge this contact data into the main branch.".

(** The [try] block of [commitCdmData]. *)
Definition commitCdmData_try (branchName : string) (contactData : json)
    (metadata : list (string * jsv)) : M commit_result :=
  (* Ensure repository exists *)
  ensureRepository;;
  (* Create feature branch *)
  createBranch branchName "main";;
  (* Generate CDM file structure *)
  let* cdmStructure := cdmModels.generateCdmFileStructure contactData in
  (* Add metadata *)
  let* stamp := Date_now in
  let* rnd := observe random36 in
  let submissionId := Js.show_Z stamp +:+ "-" +:+ Str.substr 2 9 rnd in
  let* processedAt := now_iso in
  let gitCommitMessage := "Add contact data: " +:+ Js.show contactData.["fullName"] in
  let metadata' :=
    Js.spread (Js.spread (fst cdmStructure) metadata)
      [("submissionId", Js.str submissionId);
       ("gitBranch", Js.str branchName);
       ("contactId", contactData.["contactId"]);
       ("gitCommitMessage", Js.str gitCommitMessage);
       ("processedAt", Js.str processedAt)] in
  (* File paths *)
  let dataFilePath :=
    "data/contacts/" +:+ Js.show contactData.["contactId"] +:+ ".json" in
  let metadataFilePath := "metadata/submissions/" +:+ submissionId +:+ ".json" in
  let* json_text := ask stringify in
  (* Commit data file *)
  commitFile dataFilePath
    (Js.str_opt (json_text <$> head (snd cdmStructure)))
    gitCommitMessage branchName;;
  (* Commit metadata file *)
  commitFile metadataFilePath
    (Js.str (json_text (Js.obj metadata')))
    ("Add metadata for submission: " +:+ submissionId) branchName;;
  (* Create pull request *)
  let* pullRequest :=
    createPullRequest ("Add Contact: " +:+ Js.show contactData.["fullName"])
      branchName "main"
      (pull_request_body contactData submissionId processedAt) in
  ret (mkCommitResult branchName pullRequest submissionId
         contactData.["contactId"] dataFilePath metadataFilePath).

Definition commitCdmData (contactData : json) (metadata : list (string * jsv))
  : M commit_result :=
  let* identifier := lift (short_id contactData.["contactId"]) in
  let* branchName := generateBranchName "contact" identifier in
  try_catch (commitCdmData_try branchName contactData metadata)
    (fun error =>
       logger.error "Failed to commit CDM data:";;
       (* Cleanup: try to delete branch if it was created *)
       try_catch (deleteBranch branchName)
         (fun cleanupError => logger.error "Failed to cleanup branch:");;
       throw error).

End GiteaCommit.


(** ** openSearchService.js *)

Module OpenSearchService.

Definition keyword : json := JObj [("type", JStr "keyword")].
Definition typed (t : string) : json := JObj [("type", JStr t)].
Definition text_with_keyword : json :=
  JObj [("type", JStr "text");
        ("fields", JObj [("keyword", keyword)])].

Definition contacts_mappings : json :=
  JObj [("mappings", JObj [("properties", JObj [
    ("contactId", keyword);
    ("fullName", text_with_keyword);
    ("emailAddress", keyword);
    ("phoneNumber", keyword);
    ("company", text_with_keyword);
    ("city", keyword);
    ("stateProvince", keyword);
    ("country", keyword);
    ("jobTitle", keyword);
    ("department", keyword);
    ("preferredContactMethod", keyword);
    ("isActive", typed "boolean");
    ("tags", keyword);
    ("createdOn", typed "date");
    ("modifiedOn", typed "date");
    ("createdBy", keyword);
    ("modifiedBy", keyword)])])].

Definition reference_mappings : json :=
  JObj [("mappings", JObj [("properties", JObj [
    ("type", keyword);
    ("category", keyword);
    ("value", keyword);
    ("label",
     JObj [("type", JStr "text");
           ("fields",
            JObj [("keyword", keyword);
                  ("sort", JObj [("type", JStr "text");
                                 ("fielddata", JBool true)])])]);
    ("description", typed "text");
    ("sortOrder", typed "integer");
    ("isActive", typed "boolean");
    ("metadata", typed "object");
    ("createdAt", typed "date");
    ("updatedAt", typed "date")])])].

Definition notifications_mappings : json :=
  JObj [("mappings", JObj [("properties", JObj [
    ("id", keyword);
    ("type", keyword);
    ("title", text_with_keyword);
    ("message", typed "text");
    ("metadata", typed "object");
    ("timestamp", typed "date");
    ("status", keyword);
    ("read", typed "boolean");
    ("readAt", typed "date");
    ("results", typed "object");
    ("error", typed "text")])])].

Definition row (type category value label : string) (sortOrder : Z)
  : list (string * json) :=
  [("type", JStr type); ("category", JStr category); ("value", JStr value);
   ("label", JStr label); ("sortOrder", JNum sortOrder)].

Definition state_row (value label country : string) (sortOrder : Z)
  : list (string * json) :=
  [("type", JStr "state"); ("category", JStr "geography");
   ("value", JStr value); ("label", JStr label);
   ("metadata", JObj [("country", JStr country)]);
   ("sortOrder", JNum sortOrder)].

Definition referenceData : list (list (string * json)) :=
  [ (* Countries *)
    row "country" "geography" "MA" "Morocco" 1;
    row "country" "geography" "US" "United States" 2;
    row "country" "geography" "CA" "Canada" 3;
    row "country" "geography" "UK" "United Kingdom" 4;
    row "country" "geography" "FR" "France" 5;
    row "country" "geography" "DE" "Germany" 6;
    (* MA States *)
    state_row "MA-01" "Région de Tanger – Tétouan" "MA" 1;
    state_row "MA-02" "Région de l’Oriental et du Rif" "MA" 2;
    state_row "MA-03" "Région de Fès – Meknès" "MA" 3;
    state_row "MA-04" "Région de Rabat – Salé – Kénitra" "MA" 4;
    state_row "MA-05" "Région de Béni Mellal – Khénifra" "MA" 5;
    state_row "MA-06" "Région de Casablanca – Settat" "MA" 6;
    state_row "MA-07" "Région de Marrakech – Safi" "MA" 7;
    state_row "MA-08" "Région de Daraâ – Tafilalet" "MA" 8;
    state_row "MA-09" "Région de Souss – Massa" "MA" 9;
    state_row "MA-10" "Région de Guelmime – Oued Noun" "MA" 10;
    state_row "MA-11" "Région de Laâyoune – Sakia al Hamra" "MA" 11;
    state_row "MA-12" "Région de Ed Dakhla – Oued Dahab" "MA" 12;
    (* US States *)
    state_row "CA" "California" "US" 1;
    state_row "NY" "New York" "US" 2;
    state_row "TX" "Texas" "US" 3;
    state_row "FL" "Florida" "US" 4;
    (* Contact Methods *)
    row "contactMethod" "communication" "email" "Email" 1;
    row "contactMethod" "communication" "phone" "Phone" 2;
    row "contactMethod" "communication" "mail" "Mail" 3;
    (* Job Titles *)
    row "jobTitle" "professional" "CEO" "Chief Executive Officer" 1;
    row "jobTitle" "professional" "CTO" "Chief Technology Officer" 2;
    row "jobTitle" "professional" "Manager" "Manager" 3;
    row "jobTitle" "professional" "Developer" "Software Developer" 4;
    row "jobTitle" "professional" "Analyst" "Business Analyst" 5;
    (* Departments *)
    row "department" "organization" "IT" "Information Technology" 1;
    row "department" "organization" "HR" "Human Resources" 2;
    row "department" "organization" "Finance" "Finance" 3;
    row "department" "organization" "Sales" "Sales" 4;
    row "department" "organization" "Marketing" "Marketing" 5;
    (* Industries/Companies *)
    row "industry" "business" "Technology" "Technology" 1;
    row "industry" "business" "Healthcare" "Healthcare" 2;
    row "industry" "business" "Finance" "Finance" 3;
    row "industry" "business" "Education" "Education" 4;
    row "industry" "business" "Manufacturing" "Manufacturing" 5 ].

(** The document [seedReferenceData] sends for one row. *)
Definition seed_doc (now : string) (data : list (string * json)) : json :=
  JObj (Js.spread data
          [("isActive", JBool true); ("createdAt", JStr now);
           ("updatedAt", JStr now)]).

(** The reference index as [seedReferenceData] fills it at the time
    [now]. *)
Definition seeded (now : string) : Store.index :=
  Store.mkIndex reference_mappings ∅ (map (seed_doc now) referenceData).

Definition seedReferenceData : M unit :=
  let* c := ask cfg in
  let* now := now_iso in
  let operations := map (seed_doc now) referenceData in
  try_catch
    (opensearch (Bulk (referenceIndex c) operations);;
     logger.info "Reference data seeded successfully")
    (fun error =>
       logger.error "Failed to seed reference data:";;
       throw error).

Definition ResetReferenceIndices : M unit :=
  let* c := ask cfg in
  (* Check if reference data index exists and delete it if it does *)
  let* referencesExists := opensearch (IndicesExists (referenceIndex c)) in
  if Js.truthy (Some referencesExists) then
    opensearch (IndicesDelete (referenceIndex c));;
    logger.info ("Deleted reference data index: " +:+ referenceIndex c)
  else ret tt.

Definition ResetContactIndices : M unit :=
  let* c := ask cfg in
  let* contactsExists := opensearch (IndicesExists (contactsIndex c)) in
  if Js.truthy (Some contactsExists) then
    opensearch (IndicesDelete (contactsIndex c));;
    logger.info ("Deleted contacts data index: " +:+ contactsIndex c)
  else ret tt.

Definition ensureIndices : M unit :=
  let* c := ask cfg in
  try_catch
    ((* Create contacts index if it doesn't exist *)
     let* contactsExists := opensearch (IndicesExists (contactsIndex c)) in
     (if negb (Js.truthy (Some contactsExists)) then
        opensearch (IndicesCreate (contactsIndex c) contacts_mappings);;
        logger.info ("Created contacts index: " +:+ contactsIndex c)
      else ret tt);;
     (* Create reference data index if it doesn't exist *)
     let* referenceExists := opensearch (IndicesExists (referenceIndex c)) in
     (if negb (Js.truthy (Some referenceExists)) then
        opensearch (IndicesCreate (referenceIndex c) reference_mappings);;
        logger.info ("Created reference data index: " +:+ referenceIndex c);;
        (* Seed initial reference data *)
        seedReferenceData
      else ret tt);;
     (* Create notifications index if it doesn't exist *)
     let* notificationsExists :=
       opensearch (IndicesExists (notificationsIndex c)) in
     (if negb (Js.truthy (Some notificationsExists)) then
        opensearch (IndicesCreate (notificationsIndex c) notifications_mappings);;
        logger.info ("Created notifications index: " +:+ notificationsIndex c)
      else ret tt))
    (fun error =>
       logger.error "Failed to ensure indices:";;
       throw error).

Definition maxRetries : Z := 5.
Definition retryDelay : Z := 5000.

(** The [try] block of [initialize]: [false] stands for its [return]. *)
Definition initialize_try : M bool :=
  let* health := opensearch ClusterHealth in
  let* status := lift (Prop_access.get (Some health) "status") in
  if negb (Js.is_str status "red") then
    logger.info "Successfully connected to OpenSearch";;
    ResetReferenceIndices;;
    ensureIndices;;
    ret false
  else throw (Error "Cluster health is red").

(** The [while] loop of [initialize]; [fuel] bounds the iterations left. *)
Fixpoint initialize_loop (fuel : nat) (retries : Z) : M unit :=
  match fuel with
  | O => ret tt
  | S fuel' =>
      if (retries <? maxRetries)%Z then
        let* again :=
          try_catch initialize_try
            (fun error =>
               let retries := (retries + 1)%Z in
               logger.warn ("Failed to initialize OpenSearch (attempt "
                              +:+ Js.show_Z retries +:+ "/"
                              +:+ Js.show_Z maxRetries +:+ "): "
                              +:+ message error);;
               (if (retries =? maxRetries)%Z then
                  throw (Error
                    "Failed to initialize OpenSearch after multiple retries")
                else ret tt);;
               sleep retryDelay;;
               ret true) in
        if again then initialize_loop fuel' (retries + 1) else ret tt
      else ret tt
  end.

Definition initialize : M unit := initialize_loop (Z.to_nat maxRetries) 0.

(** The [_id] the client puts in the path of a call. *)
Definition doc_id (id : jsv) : option string :=
  match id with
  | None | Some JNull => None
  | Some j => Some (Js.to_string j)
  end.

Definition indexContact (contactData : json) : M json :=
  let* c := ask cfg in
  try_catch
    (let* response_body :=
       opensearch (IndexDoc (contactsIndex c)
                     (doc_id contactData.["contactId"]) contactData) in
     logger.info ("Contact indexed: " +:+ Js.show contactData.["contactId"]);;
     ret response_body)
    (fun error =>
       logger.error "Failed to index contact:";;
       throw error).

(** The partial document [updateContact] sends:
    [{ ...updateData, modifiedOn: new Date().toISOString() }]. *)
Definition update_doc (updateData : list (string * jsv)) (now : string) : json :=
  Js.obj (Js.spread updateData [("modifiedOn", Js.str now)]).

Definition updateContact (contactId : jsv) (updateData : list (string * jsv))
  : M json :=
  let* c := ask cfg in
  try_catch
    (let* now := now_iso in
     let* response_body :=
       opensearch (UpdateDoc (contactsIndex c) (doc_id contactId)
                     (update_doc updateData now)) in
     logger.info ("Contact updated: " +:+ Js.show contactId);;
     ret response_body)
    (fun error =>
       logger.error ("Failed to update contact " +:+ Js.show contactId +:+ ":");;
       throw error).

End OpenSearchService.

(** ** notificationService.js *)

Module NotificationService.

Definition getLogLevel (notificationType : jsv) : level :=
  if Js.is_str notificationType "contact_synced" then Info
  else if Js.is_str notificationType "sync_failed" then Err
  else if Js.is_str notificationType "review_requested" then Info
  else if Js.is_str notificationType "review_updated" then Info
  else if Js.is_str notificationType "validation_failed" then Warn
  else if Js.is_str notificationType "system_alert" then Warn
  else Info.

Definition sendToConsole (notification : list (string * json)) : M json :=
  (* Always log to console for debugging *)
  let logLevel := getLogLevel (Js.assoc "type" notification) in
  let message :=
    "🔔 " +:+ Js.show (Js.assoc "title" notification) +:+ ": "
    +:+ Js.show (Js.assoc "message" notification) in
  emit (ELog logLevel message);;
  ret (JObj [("channel", JStr "console"); ("status", JStr "sent")]).

(** What [sendNotification] returns. *)
Record sent : Type := mkSent {
  success : bool;
  notificationId : string;
  channels : option Z;
  error : option string
}.

Definition sendNotification (notification : list (string * json)) : M sent :=
  let* c := ask cfg in
  let* stamp := Date_now in
  let* rnd := observe random36 in
  let notificationId := "notif-" +:+ Js.show_Z stamp +:+ "-" +:+ Str.substr 2 9 rnd in
  let* timestamp := now_iso in
  let fullNotification :=
    Js.spread (Js.spread [("id", JStr notificationId)] notification)
      [("timestamp", JStr timestamp); ("status", JStr "pending");
       ("read", JBool false)] in
  logger.info "Sending notification";;
  try_catch
    ((* Store notification in OpenSearch *)
     opensearch (IndexDoc (notificationsIndex c) (Some notificationId)
                   (JObj fullNotification));;
     (* Send to various channels *)
     let* console := sendToConsole fullNotification in
     let results :=
       [JObj [("status", JStr "fulfilled"); ("value", console)]] in
     (* Update status based on results *)
     let hasSuccess :=
       existsb (fun r => Js.is_str (Prop_access.get_opt (Some r) "status")
                           "fulfilled") results in
     let status := if hasSuccess then "sent" else "failed" in
     logger.info "Notification processing completed";;
     (* Update notification status in OpenSearch *)
     opensearch (UpdateDoc (notificationsIndex c) (Some notificationId)
                   (JObj [("status", JStr status); ("results", JArr results)]));;
     ret (mkSent hasSuccess notificationId
            (Some (Z.of_nat (length results))) None))
    (fun error =>
       logger.error "Failed to send notification";;
       (* Update notification status in OpenSearch *)
       opensearch (UpdateDoc (notificationsIndex c) (Some notificationId)
                     (JObj [("status", JStr "failed");
                            ("error", JStr (message error))]));;
       ret (mkSent false notificationId None (Some (message error)))).

End NotificationService.

(** ** moquiService.js *)

Module MoquiService.

Record party : Type := mkParty {
  firstName : string;
  lastName : string;
  partyTypeEnumId : string;
  statusId : string
}.

(** A method of strings called on [v]. *)
Definition as_string (v : jsv) (method : string) : outcome string :=
  match v with
  | Some (JStr s) => Ret s
  | None =>
      Throw (TypeError ("Cannot read properties of undefined (reading '"
                          +:+ method +:+ "')"))
  | Some JNull =>
      Throw (TypeError ("Cannot read properties of null (reading '"
                          +:+ method +:+ "')"))
  | Some _ => Throw (TypeError (method +:+ " is not a function"))
  end.

Definition transformToMoquiParty (contactData : json) : outcome party :=
  (* Split full name into first and last name *)
  match as_string contactData.["fullName"] "trim" with
  | Throw e => Throw e
  | Ret fullName =>
      let nameParts := Str.split " " (Str.trim fullName) in
      let firstName := default "" (head nameParts) in
      let lastName := Js.join " " (tail nameParts) in
      Ret (mkParty firstName lastName "PtyPerson"
             (match contactData.["isActive"] with
              | Some (JBool false) => "PtyDisabled"
              | _ => "PtyEnabled"
              end))
  end.

Fixpoint leading_digits (max : nat) (s : string) : string :=
  match max, s with
  | S max', String c s' =>
      if Str.is_digit c then String c (leading_digits max' s') else EmptyString
  | _, _ => EmptyString
  end.

(** [phoneNumber.match(/^\+(\d{1,3})/)], then the group or ["212"]. *)
Definition extractCountryCode (phoneNumber : jsv) : outcome string :=
  match as_string phoneNumber "match" with
  | Throw e => Throw e
  | Ret s =>
      Ret (match s with
           | String "+" rest =>
               match leading_digits 3 rest with
               | EmptyString => "212" (* Default to Morocco *)
               | code => code
               end
           | _ => "212"
           end)
  end.

Definition stateMappings : list (string * list (string * string)) :=
  [("US", [("CA", "USA_CA"); ("NY", "USA_NY"); ("TX", "USA_TX");
           ("FL", "USA_FL")]);
   ("MA", [("10", "MAR_GUI"); ("11", "MAR_LAA"); ("12", "MAR_DAK");
           ("01", "MAR_TNG"); ("02", "MAR_OUJ"); ("03", "MAR_FES");
           ("04", "MAR_RBA"); ("05", "MAR_BES"); ("06", "MAR_CAS");
           ("07", "MAR_MRA"); ("08", "MAR_DRS"); ("09", "MAR_SOU")]);
   ("FR", [("69", "FRA_RHO"); ("75", "FRA_PAR"); ("93", "FRA_SEN")])].

(** [stateMappings[country]?.[state] || state], with the default
    [country = "MA"] of the parameter. *)
Definition mapStateToGeoId (state country : jsv) : jsv :=
  let country := match country with None => Js.str "MA" | _ => country end in
  match Js.assoc (Js.show country) stateMappings with
  | Some states =>
      match Js.assoc (Js.show state) states with
      | Some geo => Js.str geo
      | None => state
      end
  | None => state
  end.

Definition countryMappings : list (string * string) :=
  [("US", "USA"); ("FR", "FRA"); ("MA", "MAR")].

Definition mapCountryToGeoId (country : jsv) : jsv :=
  match Js.assoc (Js.show country) countryMappings with
  | Some geo => Js.str geo
  | None => country
  end.

Definition post (url : string) (data : json) : M json :=
  http (mkRequest Moqui POST url data).

(** [v || ""] *)
Definition or_empty (v : jsv) : jsv :=
  if Js.truthy v then v else Js.str "".

(** [data && data.length > 0] *)
Definition nonempty (data : json) : bool :=
  match data with
  | JArr l => negb (Nat.eqb (length l) 0)
  | JStr s => negb (String.eqb s "")
  | JObj kv => match Js.assoc "length" kv with
               | Some (JNum n) => (0 <? n)%Z
               | _ => false
               end
  | _ => false
  end.

Definition findOrCreateOrganization (companyName : jsv) : M jsv :=
  try_catch
    ((* Search for existing organization *)
     let* found :=
       http (mkRequest Moqui GET "/organizations"
               (Js.obj [("organizationName", companyName)])) in
     if nonempty found then
       let* first := lift (Prop_access.first (Some found)) in
       lift (Prop_access.get first "partyId")
     else
       (* Create new organization *)
       let* created :=
         post "/organizations"
           (Js.obj [("organizationName", companyName);
                    ("partyTypeEnumId", Js.str "PtyOrganization");
                    ("statusId", Js.str "PtyEnabled")]) in
       lift (Prop_access.get (Some created) "partyId"))
    (fun error =>
       logger.error "Failed to find/create organization";;
       throw error).

Definition addEmploymentInfo (partyId : jsv) (contactData : json) : M unit :=
  try_catch
    ((* Create or find organization *)
     let* organizationId := findOrCreateOrganization contactData.["company"] in
     (* Create employment relationship *)
     let* fromDate := now_iso in
     post "/relationships"
       (Js.obj [("fromPartyId", partyId);
                ("toPartyId", organizationId);
                ("partyRelationshipTypeEnumId", Js.str "PrtEmployee");
                ("fromDate", Js.str fromDate);
                ("statusId", Js.str "PrActive");
                ("comments",
                 if Js.truthy contactData.["jobTitle"]
                 then Js.str ("Job Title: " +:+ Js.show contactData.["jobTitle"])
                 else None)]);;
     (* Add role information *)
     (if Js.truthy contactData.["jobTitle"] then
        let* fromDate := now_iso in
        post ("/" +:+ Js.show partyId +:+ "/roles")
          (JObj [("roleTypeId", JStr "Employee"); ("fromDate", JStr fromDate)]);;
        ret tt
      else ret tt);;
     logger.info "Employment information added")
    (fun error =>
       logger.error "Failed to add employment info"
       (* Don't throw - this is not critical *)).

Definition attribute (partyId : jsv) (attrName attrValue attrDescription : string)
  : json :=
  Js.obj [("partyId", partyId); ("attrName", Js.str attrName);
          ("attrValue", Js.str attrValue);
          ("attrDescription", Js.str attrDescription)].

Fixpoint indexed {A} (i : Z) (l : list A) : list (string * A) :=
  match l with
  | [] => []
  | x :: l' => (Js.show_Z i, x) :: indexed (i + 1) l'
  end.

(** [Object.entries(v)] *)
Definition entries (v : json) : list (string * json) :=
  match v with
  | JObj kv => kv
  | JArr l => indexed 0 l
  | JStr s =>
      indexed 0 (map (fun c => JStr (String c EmptyString)) (list_ascii_of_string s))
  | _ => []
  end.

(** [contactData.tags && contactData.tags.length > 0], then
    [contactData.tags.join(",")]. *)
Definition tags_attribute (tags : jsv) : outcome (option string) :=
  match tags with
  | Some (JArr l) =>
      if nonempty (JArr l) then Ret (Some (Js.to_string (JArr l))) else Ret None
  | Some (JStr s) =>
      if nonempty (JStr s)
      then Throw (TypeError "contactData.tags.join is not a function")
      else Ret None
  | Some (JObj kv) =>
      if nonempty (JObj kv)
      then Throw (TypeError "contactData.tags.join is not a function")
      else Ret None
  | _ => Ret None
  end.

Fixpoint post_each (url : string) (attributes : list json) : M unit :=
  match attributes with
  | [] => ret tt
  | attr :: rest => post url attr;; post_each url rest
  end.

Definition addCustomAttributes (partyId : jsv) (contactData : json) : M unit :=
  try_catch
    (let notes :=
       if Js.truthy contactData.["notes"] then
         [attribute partyId "notes" (Js.show contactData.["notes"]) "Contact Notes"]
       else [] in
     let department :=
       if Js.truthy contactData.["department"] then
         [attribute partyId "department" (Js.show contactData.["department"])
            "Department"]
       else [] in
     let preferred :=
       if Js.truthy contactData.["preferredContactMethod"] then
         [attribute partyId "preferredContactMethod"
            (Js.show contactData.["preferredContactMethod"])
            "Preferred Contact Method"]
       else [] in
     let* joined := lift (tags_attribute contactData.["tags"]) in
     let tags :=
       match joined with
       | Some t => [attribute partyId "tags" t "Contact Tags"]
       | None => []
       end in
     (* Add custom fields *)
     let custom :=
       if Js.truthy contactData.["customFields"] then
         map (fun kv => attribute partyId ("custom_" +:+ fst kv)
                          (Js.to_string (snd kv))
                          ("Custom Field: " +:+ fst kv))
           (entries (default JNull contactData.["customFields"]))
       else [] in
     let attributes := (notes ++ department ++ preferred ++ tags ++ custom)%list in
     (* Create all attributes *)
     post_each ("/" +:+ Js.show partyId +:+ "/attributes") attributes;;
     logger.info "Custom attributes added")
    (fun error =>
       logger.error "Failed to add custom attributes"
       (* Don't throw - this is not critical *)).

(** What [createContact] returns. *)
Record result : Type := mkResult {
  success : bool;
  moquiId : jsv;
  error : option string;
  contactMechanisms : option Z
}.

Definition email_mech (contactData : json) : json :=
  Js.obj [("contactMechTypeEnumId", Js.str "CmtEmailAddress");
          ("infoString", contactData.["emailAddress"]);
          ("contactMechPurposeId", Js.str "EmailPrimary")].

Definition phone_mech (contactData : json) (countryCode : string) : json :=
  Js.obj [("contactMechTypeEnumId", Js.str "CmtTelecomNumber");
          ("countryCode", Js.str countryCode);
          ("areaCode", Js.str "212"); (* Default area code for Morocco *)
          ("contactNumber", contactData.["phoneNumber"]);
          ("contactMechPurposeId", Js.str "PhonePrimary")].

Definition postal_mech (contactData : json) : json :=
  Js.obj [("contactMechTypeEnumId", Js.str "CmtPostalAddress");
          ("address1", or_empty contactData.["addressLine1"]);
          ("address2", or_empty contactData.["addressLine2"]);
          ("city", or_empty contactData.["city"]);
          ("stateProvinceGeoId",
           mapStateToGeoId contactData.["stateProvince"] contactData.["country"]);
          ("postalCode", or_empty contactData.["postalCode"]);
          ("countryGeoId", mapCountryToGeoId contactData.["country"]);
          ("contactMechPurposeId", Js.str "PostalPrimary")].

(** The [try] block of [createContact]. *)
Definition createContact_try (contactData : json) : M result :=
  (* Transform CDM contact data to Moqui Party format *)
  let* moquiPartyData := lift (transformToMoquiParty contactData) in
  logger.info "Creating contact in Moqui";;
  (* Create Person in Moqui *)
  let* party :=
    post "/persons"
      (JObj [("firstName", JStr (firstName moquiPartyData));
             ("lastName", JStr (lastName moquiPartyData));
             ("partyTypeEnumId", JStr "PtyPerson");
             ("statusId", JStr "PtyEnabled")]) in
  let* partyId := lift (Prop_access.get (Some party) "partyId") in
  logger.info "Person created in Moqui";;
  let mechs := "/" +:+ Js.show partyId +:+ "/contactMechs" in
  (* Add email contact *)
  let* email :=
    if Js.truthy contactData.["emailAddress"] then
      let* p := settle (mkRequest Moqui POST mechs (email_mech contactData)) in
      ret [p]
    else ret [] in
  (* Add phone contact *)
  let* phone :=
    if Js.truthy contactData.["phoneNumber"] then
      let* countryCode := lift (extractCountryCode contactData.["phoneNumber"]) in
      let* p :=
        settle (mkRequest Moqui POST mechs (phone_mech contactData countryCode)) in
      ret [p]
    else ret [] in
  (* Add postal address *)
  let* postal :=
    if Js.truthy contactData.["addressLine1"] || Js.truthy contactData.["city"] then
      let* p := settle (mkRequest Moqui POST mechs (postal_mech contactData)) in
      ret [p]
    else ret [] in
  let contactPromises := (email ++ phone ++ postal)%list in
  (* Execute all contact mechanism creations *)
  lift (Promise_all contactPromises);;
  (* Add employment information if available *)
  (if Js.truthy contactData.["company"]
   then addEmploymentInfo partyId contactData else ret tt);;
  (* Add custom attributes *)
  (if Js.truthy contactData.["customFields"] || Js.truthy contactData.["notes"]
   then addCustomAttributes partyId contactData else ret tt);;
  logger.info "Contact successfully created in Moqui";;
  ret (mkResult true partyId None (Some (Z.of_nat (length contactPromises)))).

Definition createContact (contactData : json) : M result :=
  try_catch (createContact_try contactData)
    (fun error =>
       logger.error "Failed to create contact in Moqui";;
       ret (mkResult false None (Some (message error)) None)).

End MoquiService.

(** ** crypto: HMAC-SHA256, hex digests, constant-time comparison *)

Module crypto.

Definition w32 (x : Z) : Z := Z.land x 4294967295.
Definition add32 (x y : Z) : Z := w32 (x + y).
Definition rotr (n x : Z) : Z :=
  Z.lor (Z.shiftr x n) (w32 (Z.shiftl x (32 - n))).
Definition not32 (x : Z) : Z := Z.lxor x 4294967295.

Definition Ch (x y z : Z) : Z := Z.lxor (Z.land x y) (Z.land (not32 x) z).
Definition Maj (x y z : Z) : Z :=
  Z.lxor (Z.lxor (Z.land x y) (Z.land x z)) (Z.land y z).
Definition Sigma0 (x : Z) : Z := Z.lxor (Z.lxor (rotr 2 x) (rotr 13 x)) (rotr 22 x).
Definition Sigma1 (x : Z) : Z := Z.lxor (Z.lxor (rotr 6 x) (rotr 11 x)) (rotr 25 x).
Definition sigma0 (x : Z) : Z := Z.lxor (Z.lxor (rotr 7 x) (rotr 18 x)) (Z.shiftr x 3).
Definition sigma1 (x : Z) : Z := Z.lxor (Z.lxor (rotr 17 x) (rotr 19 x)) (Z.shiftr x 10).

(** The constants of the hash are taken from the primes, as the
    standard defines them: the first 32 bits of the fractional part of
    the square root (initial value) and of the cube root (round
    constants) of each prime. *)
Definition is_prime (n : nat) : bool :=
  (1 <? n)%nat
  && forallb (fun d => negb (Nat.eqb (n mod d) 0)) (seq 2 (n - 2)).

Definition primes (count : nat) : list Z :=
  map Z.of_nat (firstn count (List.filter is_prime (seq 2 320))).

(** The integer cube root of a number below [2 ^ (3 * bits)]. *)
Fixpoint cube_root (bits : nat) (n : Z) : Z :=
  match bits with
  | O => 0
  | S b =>
      let high := cube_root b (Z.shiftr n 3) in
      let low := 2 * high + 1 in
      if (low * low * low <=? n)%Z then low else 2 * high
  end.

Definition fraction_of_cube_root (p : Z) : Z :=
  w32 (cube_root 36 (Z.shiftl p 96)).

Definition fraction_of_square_root (p : Z) : Z :=
  w32 (Z.sqrt (Z.shiftl p 64)).

Definition K : list Z :=
  Eval vm_compute in map fraction_of_cube_root (primes 64).

(** The chaining value: eight words of 32 bits. *)
Record words8 : Type := mkWords8 {
  wa : Z; wb : Z; wc : Z; wd : Z; we : Z; wf : Z; wg : Z; wh : Z
}.

Definition H0 : words8 :=
  Eval vm_compute in
    match map fraction_of_square_root (primes 8) with
    | [a; b; c; d; e; f; g; h] => mkWords8 a b c d e f g h
    | _ => mkWords8 0 0 0 0 0 0 0 0
    end.

Definition bytes_of (s : string) : list Z :=
  map (fun c => Z.of_nat (nat_of_ascii c)) (list_ascii_of_string s).

(** Big-endian bytes of [x], [n] of them. *)
Fixpoint be_bytes (n : nat) (x : Z) : list Z :=
  match n with
  | O => []
  | S n' => (be_bytes n' (Z.shiftr x 8) ++ [Z.land x 255])%list
  end.

Definition pad (msg : list Z) : list Z :=
  let len := Z.of_nat (length msg) in
  let zeros := Z.to_nat ((55 - len) mod 64) in
  (msg ++ [128] ++ repeat 0 zeros ++ be_bytes 8 (8 * len))%list.

Fixpoint words_of (fuel : nat) (bytes : list Z) : list Z :=
  match fuel, bytes with
  | S fuel', b0 :: b1 :: b2 :: b3 :: rest =>
      (Z.shiftl b0 24 + Z.shiftl b1 16 + Z.shiftl b2 8 + b3)
        :: words_of fuel' rest
  | _, _ => []
  end.

Definition nth_word (l : list Z) (i : nat) : Z := nth i l 0.

(** The message schedule: [n] more words after the sixteen of the block. *)
Fixpoint schedule (n : nat) (w : list Z) : list Z :=
  match n with
  | O => w
  | S n' =>
      let t := length w in
      schedule n'
        (w ++ [add32 (add32 (sigma1 (nth_word w (t - 2))) (nth_word w (t - 7)))
                 (add32 (sigma0 (nth_word w (t - 15))) (nth_word w (t - 16)))])
  end.

Definition round (v : words8) (kw : Z * Z) : words8 :=
  let t1 :=
    add32 (add32 (add32 (wh v) (Sigma1 (we v)))
             (add32 (Ch (we v) (wf v) (wg v)) (fst kw))) (snd kw) in
  let t2 := add32 (Sigma0 (wa v)) (Maj (wa v) (wb v) (wc v)) in
  mkWords8 (add32 t1 t2) (wa v) (wb v) (wc v) (add32 (wd v) t1)
           (we v) (wf v) (wg v).

Definition compress (h : words8) (block : list Z) : words8 :=
  let w := schedule 48 (words_of 16 block) in
  let v := fold_left round (combine K w) h in
  mkWords8 (add32 (wa h) (wa v)) (add32 (wb h) (wb v))
           (add32 (wc h) (wc v)) (add32 (wd h) (wd v))
           (add32 (we h) (we v)) (add32 (wf h) (wf v))
           (add32 (wg h) (wg v)) (add32 (wh h) (wh v)).

Fixpoint blocks (fuel : nat) (h : words8) (bytes : list Z) : words8 :=
  match fuel, bytes with
  | S fuel', _ :: _ => blocks fuel' (compress h (firstn 64 bytes)) (skipn 64 bytes)
  | _, _ => h
  end.

Definition words_bytes (h : words8) : list Z :=
  (be_bytes 4 (wa h) ++ be_bytes 4 (wb h) ++ be_bytes 4 (wc h)
   ++ be_bytes 4 (wd h) ++ be_bytes 4 (we h) ++ be_bytes 4 (wf h)
   ++ be_bytes 4 (wg h) ++ be_bytes 4 (wh h))%list.

Definition sha256 (msg : list Z) : list Z :=
  let padded := pad msg in
  words_bytes (blocks (length padded) H0 padded).

Definition xor_with (c : Z) (key : list Z) : list Z :=
  map (fun b => Z.lxor b c) key.

(** [createHmac("sha256", key).update(msg).digest()] *)
Definition hmac_sha256 (key msg : list Z) : list Z :=
  let key := if (64 <? Z.of_nat (length key))%Z then sha256 key else key in
  let key := (key ++ repeat 0 (64 - length key))%list in
  sha256 (xor_with 92 key ++ sha256 (xor_with 54 key ++ msg)).

Definition hex_digit (d : Z) : ascii :=
  if (d <? 10)%Z then ascii_of_nat (48 + Z.to_nat d)
  else ascii_of_nat (87 + Z.to_nat d).

(** [.digest("hex")] *)
Fixpoint hex (bytes : list Z) : string :=
  match bytes with
  | [] => EmptyString
  | b :: rest =>
      String (hex_digit (Z.shiftr b 4)) (String (hex_digit (Z.land b 15)) (hex rest))
  end.

Definition hmac_hex (key : string) (msg : string) : string :=
  hex (hmac_sha256 (bytes_of key) (bytes_of msg)).

Fixpoint all_equal (a b : list ascii) : bool :=
  match a, b with
  | [], [] => true
  | x :: a', y :: b' => Ascii.eqb x y && all_equal a' b'
  | _, _ => false
  end.

(** [crypto.timingSafeEqual(Buffer.from(a), Buffer.from(b))]: the
    buffers must have the same length. *)
Definition timingSafeEqual (a b : string) : outcome bool :=
  if Nat.eqb (String.length a) (String.length b) then
    Ret (all_equal (list_ascii_of_string a) (list_ascii_of_string b))
  else Throw (RangeError "Input buffers must have the same byte length").

End crypto.

(** ** Regular expressions of the shape [/prefix(.+)/] *)

Module Regex.

Fixpoint strip_prefix (p s : string) : option string :=
  match p, s with
  | EmptyString, _ => Some s
  | String a p', String b s' => if Ascii.eqb a b then strip_prefix p' s' else None
  | String _ _, EmptyString => None
  end.

(** [s] starts with a line terminator, which [.] does not match: LF, CR,
    or U+2028 or U+2029 in the UTF-8 encoding of the string. *)
Definition at_line_terminator (s : string) : bool :=
  match s with
  | String c rest =>
      let n := nat_of_ascii c in
      (n =? 10)%nat || (n =? 13)%nat
      || ((n =? 226)%nat
          && match rest with
             | String c1 (String c2 _) =>
                 (nat_of_ascii c1 =? 128)%nat
                 && ((nat_of_ascii c2 =? 168)%nat || (nat_of_ascii c2 =? 169)%nat)
             | _ => false
             end)
  | EmptyString => false
  end.

(** The longest run [.+] can take at the start of [s]. *)
Fixpoint dot_plus (s : string) : string :=
  match s with
  | EmptyString => EmptyString
  | String c rest =>
      if at_line_terminator s then EmptyString else String c (dot_plus rest)
  end.

(** [s.match(/prefix(.+)/)]: the group of the leftmost match, if any. *)
Fixpoint group_after (prefix s : string) : option string :=
  let here :=
    match strip_prefix prefix s with
    | Some rest =>
        match dot_plus rest with
        | EmptyString => None
        | g => Some g
        end
    | None => None
    end in
  match here with
  | Some g => Some g
  | None =>
      match s with
      | EmptyString => None
      | String _ s' => group_after prefix s'
      end
  end.

End Regex.

(** ** webhookController.js *)

Module webhookController.

(** The parts of the Express request the controller reads: the
    [x-gitea-signature] header, the raw body kept by the JSON parser when
    there was one, and the parsed body. *)
Record req : Type := mkReq {
  signature : option string;
  rawBody : option string;
  parsed : json
}.

Inductive verdict : Type :=
  | Next
  | Respond (r : response).

(** [createHmac(...).update(payload)] *)
Definition hmac_update (payload : option string) : outcome string :=
  match payload with
  | Some p => Ret p
  | None =>
      Throw (mkExn "TypeError"
               "The data argument must be of type string or an instance of Buffer, TypedArray, or DataView. Received undefined"
               None)
  end.

(** Middleware to verify webhook signature *)
Definition verifyWebhookSignature (r : req) : M verdict :=
  let* c := ask cfg in
  if negb (Js.truthy_str (signature r)) then
    logger.warn "Webhook received without signature";;
    ret (Respond (mkResponse 401 (JObj [("error", JStr "Missing signature")])))
  else
    let signature := default "" (signature r) in
    let* payload := lift (hmac_update (rawBody r)) in
    let expectedSignature := crypto.hmac_hex (WEBHOOK_SECRET c) payload in
    logger.debug "Verifying webhook signature";;
    let* equal := lift (crypto.timingSafeEqual signature expectedSignature) in
    if negb equal then
      logger.warn "Webhook signature verification failed";;
      ret (Respond (mkResponse 401 (JObj [("error", JStr "Invalid signature")])))
    else ret Next.

(** Extract contact data from pull request changes: [None] is [null]. *)
Definition extractContactDataFromPR (pullRequest : json) : M (option json) :=
  try_catch
    ((* For now, we'll extract from the PR title and description *)
     let* title := lift (MoquiService.as_string pullRequest.["title"] "match") in
     match Regex.group_after "Add Contact: " title with
     | None => ret None
     | Some fullName =>
         (* Extract additional info from description if available *)
         let* body :=
           if Js.truthy pullRequest.["body"]
           then lift (MoquiService.as_string pullRequest.["body"] "match")
           else ret "" in
         let contactId := Regex.group_after "**Contact ID:** " body in
         let emailMatch := Regex.group_after "**Email:** " body in
         let companyMatch := Regex.group_after "**Company:** " body in
         let field (m : option string) : json :=
           match m with Some g => JStr g | None => JNull end in
         ret (Some (JObj [("fullName", JStr fullName);
                          ("emailAddress", field emailMatch);
                          ("company", field companyMatch);
                          ("contactId", field contactId)]))
     end)
    (fun error =>
       logger.error "Failed to extract contact data from PR";;
       ret None).

(** Handle pull request merged - Trigger Phase 4 (Moqui Integration) *)
Definition handlePullRequestMerged (pullRequest : json) (webhookId : string)
  : M unit :=
  logger.info "Processing pull request merge";;
  try_catch
    ((* Extract contact data from the merged changes *)
     let* extracted := extractContactDataFromPR pullRequest in
     logger.debug "Extracted contact data";;
     match extracted with
     | Some contactData =>
         (* Phase 4: Send to Moqui Framework *)
         let* moquiResult := MoquiService.createContact contactData in
         if MoquiService.success moquiResult then
           logger.info "Contact successfully sent to Moqui";;
           (* Update contact in OpenSearch with Moqui ID *)
           let* syncedAt := now_iso in
           OpenSearchService.updateContact contactData.["contactId"]
             [("moquiId", MoquiService.moquiId moquiResult);
              ("syncStatus", Js.str "synced");
              ("syncedAt", Js.str syncedAt)];;
           (* Send success notification *)
           NotificationService.sendNotification
             [("type", JStr "contact_synced");
              ("title", JStr "Contact Successfully Synced to Moqui");
              ("message",
               JStr ("Contact " +:+ Js.show contactData.["fullName"]
                       +:+ " has been successfully synced to Moqui framework"));
              ("metadata",
               Js.obj [("contactId", contactData.["contactId"]);
                       ("moquiId", MoquiService.moquiId moquiResult);
                       ("pullRequestNumber", pullRequest.["number"])])];;
           ret tt
         else
           throw (Error ("Moqui integration failed: "
                           +:+ Js.show (Js.str_opt (MoquiService.error moquiResult))))
     | None => ret tt
     end)
    (fun error =>
       logger.error "Failed to process merged pull request";;
       (* the update of the contact to syncStatus failed and the
          sync_failed notification are commented out in the source *)
       throw error).

(** Handle pull request opened - Start review process *)
Definition handlePullRequestOpened (pullRequest : json) (webhookId : string)
  : M unit :=
  logger.info "Processing new pull request";;
  try_catch
    ((* Extract contact data for notification *)
     let* contactData := extractContactDataFromPR pullRequest in
     (* Send notification to reviewers *)
     NotificationService.sendNotification
       [("type", JStr "review_requested");
        ("title", JStr "New Contact Data Submitted for Review");
        ("message",
         JStr ("Pull request #" +:+ Js.show pullRequest.["number"]
                 +:+ " contains new contact data that requires review"));
        ("metadata",
         Js.obj [("pullRequestNumber", pullRequest.["number"]);
                 ("contactName",
                  match contactData with
                  | Some c => c.["fullName"]
                  | None => None
                  end);
                 ("submittedBy",
                  Prop_access.get_opt pullRequest.["user"] "login");
                 ("reviewUrl", pullRequest.["html_url"])])];;
     ret tt)
    (fun error => logger.error "Failed to process new pull request").

(** Handle pull request updated - Re-validate *)
Definition handlePullRequestUpdated (pullRequest : json) (webhookId : string)
  : M unit :=
  logger.info "Processing pull request update";;
  NotificationService.sendNotification
    [("type", JStr "review_updated");
     ("title", JStr "Pull Request Updated");
     ("message",
      JStr ("Pull request #" +:+ Js.show pullRequest.["number"]
              +:+ " has been updated and is being re-validated"));
     ("metadata",
      Js.obj [("pullRequestNumber", pullRequest.["number"]);
              ("reviewUrl", pullRequest.["html_url"])])];;
  ret tt.

(** Handle repository deleted - Trigger notification *)
Definition handleRepositoryDeleted (repository : json) (webhookId : string)
  : M unit :=
  logger.info "Processing repository deleted event";;
  try_catch
    (OpenSearchService.ResetContactIndices;;
     logger.info "OpenSearch indices reset for deleted repository";;
     NotificationService.sendNotification
       [("type", JStr "repository_deleted");
        ("title", JStr "Repository Deleted");
        ("message",
         JStr ("Repository " +:+ Str.dq +:+ Js.show repository.["name"]
                 +:+ Str.dq +:+ " has been deleted."));
        ("metadata",
         Js.obj [("repositoryName", repository.["name"]);
                 ("repositoryId", repository.["id"]);
                 ("webhookId", Js.str webhookId)])];;
     ret tt)
    (fun error =>
       logger.error "Failed to process repository deleted event";;
       throw error).

(** The handler of [POST /api/webhooks/gitea], after the middleware. *)
Definition gitea_handler (r : req) : M response :=
  let action := (parsed r).["action"] in
  let pull_request := (parsed r).["pull_request"] in
  let repository := (parsed r).["repository"] in
  let* stamp := Date_now in
  let* rnd := observe random36 in
  let webhookId :=
    "webhook-" +:+ Js.show_Z stamp +:+ "-" +:+ Str.substr 2 9 rnd in
  logger.info "Gitea webhook received";;
  try_catch
    ((* Handle repository deleted event *)
     (if Js.is_str action "deleted" && Js.truthy repository then
        handleRepositoryDeleted (default JNull repository) webhookId
      (* Handle pull request events *)
      else if Js.truthy pull_request && Js.is_str action "closed"
              && Js.truthy (Prop_access.get_opt pull_request "merged") then
        handlePullRequestMerged (default JNull pull_request) webhookId
      else if Js.truthy pull_request && Js.is_str action "opened" then
        handlePullRequestOpened (default JNull pull_request) webhookId
      else if Js.truthy pull_request && Js.is_str action "synchronized" then
        handlePullRequestUpdated (default JNull pull_request) webhookId
      else ret tt);;
     ret (mkResponse 200
            (Js.obj [("success", Some (JBool true));
                     ("message", Js.str "Webhook processed successfully");
                     ("webhookId", Js.str webhookId);
                     ("action", action)])))
    (fun error =>
       logger.error "Webhook processing failed";;
       ret (mkResponse 500
              (JObj [("success", JBool false);
                     ("error", JStr "Webhook processing failed");
                     ("webhookId", JStr webhookId)]))).

(** [router.post("/gitea", verifyWebhookSignature, async (req, res) => ...)].
    An exception of the middleware goes to the error handler of the
    application. *)
Definition post_gitea (r : req) : M response :=
  let* v := verifyWebhookSignature r in
  match v with
  | Respond res => ret res
  | Next => gitea_handler r
  end.

End webhookController.

(** ** dataController.js: the complete-flow test *)

Module dataController.

Definition maxRetries : Z := 5.
Definition retryDelayMs : Z := 2000.

(** The [for] loop that merges the pull request, from the iteration
    [attempt] on; [fuel] bounds the iterations left and [mergeError] is
    the error of the last failed attempt. *)
Fixpoint merge_loop (fuel : nat) (attempt : Z) (pullRequest : json)
    (mergeError : option exn) : M (bool * option exn) :=
  match fuel with
  | O => ret (false, mergeError)
  | S fuel' =>
      if (attempt <=? maxRetries)%Z then
        let* failed :=
          try_catch
            (let* number := lift (Prop_access.get (Some pullRequest) "number") in
             GiteaService.mergePullRequest number "merge";;
             ret None)
            (fun err =>
               let* number := lift (Prop_access.get (Some pullRequest) "number") in
               logger.warn ("Merge attempt " +:+ Js.show_Z attempt
                              +:+ " failed for PR #" +:+ Js.show number +:+ ": "
                              +:+ message err);;
               (if (attempt <? maxRetries)%Z then sleep retryDelayMs
                else ret tt);;
               ret (Some err)) in
        match failed with
        | None => ret (true, mergeError)
        | Some err => merge_loop fuel' (attempt + 1) pullRequest (Some err)
        end
      else ret (false, mergeError)
  end.

Definition merge_with_retry (pullRequest : json) : M (bool * option exn) :=
  merge_loop (Z.to_nat maxRetries) 1 pullRequest None.

(** POST /api/data/test/complete-flow - Test complete data flow (Phases 1-4) *)
Definition complete_flow : M response :=
  let* stamp := Date_now in
  let testId := "test-" +:+ Js.show_Z stamp in
  try_catch
    (let testData :=
       JObj [("fullName", JStr "Flane weld flane");
             ("emailAddress", JStr ("flane.test." +:+ testId +:+ "@hooli.com"));
             ("phoneNumber", JStr "+212610000000");
             ("company", JStr "Hooli Corporation Inc");
             ("jobTitle", JStr "Senior Developer");
             ("department", JStr "Engineering");
             ("country", JStr "MA");
             ("stateProvince", JStr "MA-04");
             ("city", JStr "Rabat");
             ("source", JStr "complete-flow-test");
             ("submittedBy", JStr "test-automation")] in
     logger.info "Starting complete flow test";;
     (* Phase 1 & 2: Submit contact *)
     let* cdmContact :=
       cdmModels.transformToCdmContact testData (Js.str "test-automation") in
     let* gitResult :=
       GiteaCommit.commitCdmData cdmContact
         [("testId", Js.str testId);
          ("phase", Js.str "complete-flow-test");
          ("source", Js.str "automation")] in
     OpenSearchService.indexContact cdmContact;;
     (* Simulate Phase 3: Auto-approve for testing *)
     (* Add retry logic for merge in case of pending validation *)
     let* merge := merge_with_retry (GiteaCommit.pullRequest gitResult) in
     (* Phase 4: Sync to Moqui *)
     let* moquiResult := MoquiService.createContact cdmContact in
     (if MoquiService.success moquiResult then
        let* syncedAt := now_iso in
        OpenSearchService.updateContact cdmContact.["contactId"]
          [("moquiId", MoquiService.moquiId moquiResult);
           ("syncStatus", Js.str "synced");
           ("syncedAt", Js.str syncedAt);
           ("testId", Js.str testId)];;
        ret tt
      else ret tt);;
     let* number :=
       lift (Prop_access.get (Some (GiteaCommit.pullRequest gitResult)) "number") in
     let* executionTime := Date_now in
     ret (mkResponse 200
            (JObj [("success", JBool true);
                   ("message", JStr "Complete flow test executed successfully");
                   ("data", JObj [
                      ("testId", JStr testId);
                      ("phases", JObj [
                         ("phase1_2",
                          Js.obj [("contactId", cdmContact.["contactId"]);
                                  ("gitBranch",
                                   Js.str (GiteaCommit.branchName gitResult));
                                  ("pullRequestId", number);
                                  ("opensearchIndexed", Some (JBool true))]);
                         ("phase3",
                          Js.obj [("pullRequestMerged", Some (JBool (fst merge)));
                                  ("validationPassed", Some (JBool (fst merge)));
                                  ("mergeError",
                                   if fst merge then None
                                   else Js.str_opt (message <$> snd merge))]);
                         ("phase4",
                          Js.obj [("moquiSynced",
                                   Some (JBool (MoquiService.success moquiResult)));
                                  ("moquiId", MoquiService.moquiId moquiResult)])]);
                      ("executionTime", JNum executionTime)])])))
    (fun error =>
       logger.error "Complete flow test failed";;
       ret (mkResponse 500
              (JObj [("success", JBool false);
                     ("error", JStr "Complete flow test failed");
                     ("message", JStr (message error));
                     ("testId", JStr testId)]))).

End dataController.

(** ** Reading a trace *)

Module Trace.

(** The events a run added to the trace. *)
Definition added (s s' : St) (new : list event) : Prop :=
  trace s' = (trace s ++ new)%list.

(** The error of a call that was rejected. *)
Definition rejection (ev : event) : option exn :=
  match ev with
  | EHttp _ (Throw e) | EOs _ (Throw e) => Some e
  | _ => None
  end.

(** The first rejection of a trace. *)
Fixpoint first_rejection (tr : list event) : option exn :=
  match tr with
  | [] => None
  | ev :: tr' =>
      match rejection ev with
      | Some e => Some e
      | None => first_rejection tr'
      end
  end.

Definition request_eqb (a b : request) : bool :=
  match target a, target b with
  | Gitea, Gitea | Moqui, Moqui => true
  | _, _ => false
  end
  && match verb a, verb b with
     | GET, GET | POST, POST | PUT, PUT | DELETE, DELETE => true
     | _, _ => false
     end
  && String.eqb (url a) (url b).

(** The answers to the calls of [verb] on [url] of a host, in order. *)
Definition answers (h : host) (v : method) (u : string) (tr : list event)
  : list (outcome json) :=
  omap (fun ev =>
          match ev with
          | EHttp rq r =>
              if request_eqb rq (mkRequest h v u JNull) then Some r else None
          | _ => None
          end) tr.

Definition fulfilled {A} (o : outcome A) : bool :=
  match o with Ret _ => true | Throw _ => false end.

(** The calls to the remote hosts and to the index store. *)
Definition is_call (ev : event) : bool :=
  match ev with
  | EHttp _ _ | EOs _ _ => true
  | _ => false
  end.

Definition is_store_call (ev : event) : bool :=
  match ev with
  | EOs _ _ => true
  | _ => false
  end.



(** The pauses of a trace, in milliseconds. *)
Definition pauses (tr : list event) : list Z :=
  omap (fun ev => match ev with ESleep ms => Some ms | _ => None end) tr.


End Trace.

(** ** Concrete environments *)

(** Environments on which the service can be run: hosts that follow a
    script, with the clock frozen and the encoders replaced by the
    identity. *)
Module Demo.

Definition rejected (status : Z) (url : string) : exn :=
  mkExn "AxiosError"
    ("Request failed with status code " +:+ Js.show_Z status +:+ " for " +:+ url)
    (Some status).

Definition platform (hosts : list event -> request -> outcome json)
    (faults : list event -> os_op -> option exn) : Env :=
  {| cfg := default_config;
     respond := hosts;
     os_fault := faults;
     cluster_status := fun _ => "green";
     clock := fun _ => 1735689600000;
     random36 := fun _ => "0.4fzyo82mvyr";
     toISOString := fun _ => "2025-01-01T00:00:00.000Z";
     stringify := Js.to_string;
     base64 := fun s => s;
     base64_decode := fun s => s;
     uuidv4 := fun _ => "3b241101-e2bb-4255-8caf-4136c566a962";
     is_email := fun s => existsb (Ascii.eqb "@") (list_ascii_of_string s);
     valid_date := fun _ => true |}.

Definition no_fault : list event -> os_op -> option exn := fun _ _ => None.

Definition start : St := mkSt [] ∅.

(** Hosts that reject every request with the status 500. *)
Definition down : list event -> request -> outcome json :=
  fun _ rq => Throw (rejected 500 (url rq)).

(** Hosts that accept every request; creating a person gives a party id. *)
Definition up : list event -> request -> outcome json :=
  fun _ rq =>
    match verb rq with
    | GET => Ret (JArr [JObj [("object", JObj [("sha", JStr "9fceb02d0ae5")]);
                              ("partyId", JStr "ORG_100")]])
    | _ => Ret (JObj [("partyId", JStr "PERSON_100"); ("number", JNum 7)])
    end.

Definition jane : json :=
  JObj [("contactId", JStr "3b241101-e2bb-4255-8caf-4136c566a962");
        ("fullName", JStr "Jane Roe");
        ("emailAddress", JStr "jane@x.com");
        ("company", JStr "Acme")].

(** The names of the branches a Gitea host holds after a history: those
    of the fulfilled creations. *)
Definition branches_of (c : config) (history : list event) : list string :=
  omap (fun ev =>
          match ev with
          | EHttp rq (Ret _) =>
              if Trace.request_eqb rq
                   (mkRequest Gitea POST (GiteaService.repo c +:+ "/branches") JNull)
              then match (body rq).["new_branch_name"] with
                   | Some (JStr b) => Some b
                   | _ => None
                   end
              else None
          | _ => None
          end) history.

(** A Gitea host that knows its branches: it answers 422 to the creation
    of a branch it holds already and accepts everything else. *)
Definition gitea_host (history : list event) (rq : request) : outcome json :=
  if Trace.request_eqb rq
       (mkRequest Gitea POST (GiteaService.repo default_config +:+ "/branches") JNull)
  then match (body rq).["new_branch_name"] with
       | Some (JStr b) =>
           if existsb (String.eqb b) (branches_of default_config history)
           then Throw (rejected 422 (url rq))
           else Ret (JObj [("name", JStr b)])
       | _ => Throw (rejected 400 (url rq))
       end
  else up history rq.

End Demo.

Module Demo_index.

Definition jane_id : string := "3b241101-e2bb-4255-8caf-4136c566a962".

(** The record of Jane Roe as the submission indexed it. *)
Definition jane_doc : json :=
  JObj [("contactId", JStr jane_id);
        ("fullName", JStr "Jane Roe");
        ("emailAddress", JStr "jane@x.com");
        ("company", JStr "Acme");
        ("modifiedOn", JStr "2024-12-24T08:30:00.000Z")].

Definition contacts : Store.index :=
  Store.mkIndex OpenSearchService.contacts_mappings {[ jane_id := jane_doc ]} [].

(** A store that holds the contacts index with the record of Jane Roe. *)
Definition indexed : St := mkSt [] {[ "contacts" := contacts ]}.

(** A store that holds stale reference data besides the contacts. *)
Definition stale : St :=
  mkSt []
    {[ "contacts" := contacts;
       "reference-data" :=
         Store.mkIndex (JObj []) ∅
           [JObj [("type", JStr "country"); ("value", JStr "XX")]] ]}.


End Demo_index.

Module Demo_channels.



End Demo_channels.

Module Demo_webhook.

(** The webhook Gitea sends when a pull request that carries no contact
    is merged, signed with the default secret. *)
Definition unrelated_merge : webhookController.req :=
  {| webhookController.signature :=
       Some "b5f166cb9fc44fd535e64e83cf038e0d6564b55e3a8133414be320b7dda37c9c";
     webhookController.rawBody :=
       Some ("{" +:+ Str.dq +:+ "action" +:+ Str.dq +:+ ":" +:+ Str.dq
             +:+ "closed" +:+ Str.dq +:+ "," +:+ Str.dq +:+ "pull_request"
             +:+ Str.dq +:+ ":{" +:+ Str.dq +:+ "number" +:+ Str.dq +:+ ":12,"
             +:+ Str.dq +:+ "title" +:+ Str.dq +:+ ":" +:+ Str.dq
             +:+ "Update README" +:+ Str.dq +:+ "," +:+ Str.dq +:+ "merged"
             +:+ Str.dq +:+ ":true}}");
     webhookController.parsed :=
       JObj [("action", JStr "closed");
             ("pull_request",
              JObj [("number", JNum 12); ("title", JStr "Update README");
                    ("merged", JBool true)])] |}.

Definition jane_pull_request : json :=
  JObj [("number", JNum 7);
        ("title", JStr "Add Contact: Jane Roe");
        ("body",
         JStr ("**Contact ID:** 3b241101-e2bb-4255-8caf-4136c566a962"
               +:+ Str.nl +:+ "**Email:** jane@x.com"));
        ("merged", JBool true)].

(** The webhook for the merged pull request of Jane Roe. *)
Definition jane_merge : webhookController.req :=
  {| webhookController.signature :=
       Some "3eca416c3f47d875cf5df00c0e814161c1607e57d920ff875b881a6db9f9c9cd";
     webhookController.rawBody :=
       Some ("{" +:+ Str.dq +:+ "action" +:+ Str.dq +:+ ":" +:+ Str.dq
             +:+ "closed" +:+ Str.dq +:+ "," +:+ Str.dq +:+ "pull_request"
             +:+ Str.dq +:+ ":{" +:+ Str.dq +:+ "number" +:+ Str.dq +:+ ":7,"
             +:+ Str.dq +:+ "title" +:+ Str.dq +:+ ":" +:+ Str.dq
             +:+ "Add Contact: Jane Roe" +:+ Str.dq +:+ "," +:+ Str.dq
             +:+ "body" +:+ Str.dq +:+ ":" +:+ Str.dq
             +:+ "**Contact ID:** 3b241101-e2bb-4255-8caf-4136c566a962\n**Email:** jane@x.com"
             +:+ Str.dq +:+ "," +:+ Str.dq +:+ "merged" +:+ Str.dq +:+ ":true}}");
     webhookController.parsed :=
       JObj [("action", JStr "closed"); ("pull_request", jane_pull_request)] |}.

(** The same webhook with a signature that is not a digest. *)
Definition forged : webhookController.req :=
  {| webhookController.signature := Some "deadbeef";
     webhookController.rawBody := webhookController.rawBody jane_merge;
     webhookController.parsed := webhookController.parsed jane_merge |}.

End Demo_webhook.

Module Store_frame.

(** The index a call of the client writes to, if any. *)
Definition written (op : os_op) : option string :=
  match op with
  | ClusterHealth | IndicesExists _ => None
  | IndicesCreate i _ | IndicesDelete i | IndexDoc i _ _ | UpdateDoc i _ _
  | Bulk i _ => Some i
  end.

End Store_frame.

(** ** What the properties speak of *)

(** [traced P m]: whatever the environment, [m] only appends events that
    satisfy [P], and it leaves the index store alone unless it appends a
    call to the store. *)
Definition traced {A} (P : event -> Prop) (m : M A) : Prop :=
  forall E s,
  exists new,
    Trace.added s (snd (m E s)) new /\ Forall P new /\
    (Forall (fun ev => Trace.is_store_call ev = false) new ->
     store (snd (m E s)) = store s).

(** [framed E keep m]: in the environment [E], [m] leaves every index
    that satisfies [keep] as it was. *)
Definition framed {A} (E : Env) (keep : string -> Prop) (m : M A) : Prop :=
  forall s i, keep i -> store (snd (m E s)) !! i = store s !! i.

(** The calls to the hosts and to the store that [m] makes from [s]. *)
Definition calls_of {A} (m : M A) (E : Env) (s : St) : list event :=
  filter (fun ev => Trace.is_call ev = true)
    (drop (length (trace s)) (trace (snd (m E s)))).

(** Events that are no call to the store. *)
Definition not_store (ev : event) : Prop := Trace.is_store_call ev = false.


Definition only_logs (new : list event) : Prop :=
  Forall (fun ev => Trace.is_call ev = false /\ Trace.pauses [ev] = []) new.





(** The request that creates the person. *)
Definition persons_request (p : MoquiService.party) : request :=
  mkRequest Moqui POST "/persons"
    (JObj [("firstName", JStr (MoquiService.firstName p));
           ("lastName", JStr (MoquiService.lastName p));
           ("partyTypeEnumId", JStr "PtyPerson");
           ("statusId", JStr "PtyEnabled")]).


(** The error of [crypto.timingSafeEqual] on buffers of two lengths. *)
Definition range_error : exn :=
  RangeError "Input buffers must have the same byte length".




(** * The mock of the Moqui framework: mock-moqui/server.js

    The mock keeps four [Map]s in memory and answers each request from
    them.  A request is handled to its end before the next one: the
    handlers are synchronous.  What the mock prints on the console is
    left out. *)

Module mock_moqui.

(** A [Map] from strings: [Map.get] is [Js.assoc], [Map.set] is
    [Js.set_key] (a present key keeps its place, a new key goes last)
    and [Map.values()] lists the values in the order of the keys. *)
Abbreviation table := (list (string * json)).

Definition values (m : table) : list json := map snd m.

(** [const parties = new Map()] and the three other maps. *)
Record state : Type := mkState {
  parties : table;
  contactMechs : table;
  relationships : table;
  organizations : table
}.

Definition initial : state := mkState [] [] [] [].

(** What the platform gives the handler of one request: the result of
    [uuidv4()], the first and the second [new Date().toISOString()],
    [process.uptime()], [process.memoryUsage()] and the decoding of
    base64 text. *)
Record platform : Type := mkPlatform {
  uuid : string;
  now1 : string;
  now2 : string;
  uptime : json;
  memoryUsage : json;
  from_base64 : string -> string
}.

Inductive route : Type :=
  | POST_persons
  | GET_persons
  | GET_person (partyId : string)
  | PUT_person (partyId : string)
  | POST_contactMechs (partyId : string)
  | GET_contactMechs (partyId : string)
  | POST_organizations
  | GET_organizations
  | POST_relationships
  | POST_roles (partyId : string)
  | POST_attributes (partyId : string)
  | GET_status
  | GET_debug_parties
  | GET_root
  | GET_health.

(** The routes below [/rest], which the authentication guards. *)
Definition under_rest (r : route) : bool :=
  match r with
  | GET_root | GET_health => false
  | _ => true
  end.

(** A request: [req.headers.authorization], the route with [req.params],
    [req.query] and [req.body] as [express.json()] left it, with the
    fields of the object. *)
Record request : Type := mkRequest {
  authorization : option string;
  path : route;
  query : list (string * json);
  body : list (string * json)
}.

(** [res.status(status).json(payload)] *)
Record response : Type := mkResponse {
  status : Z;
  payload : json
}.

Definition upper_char (c : ascii) : ascii :=
  let n := nat_of_ascii c in
  if (97 <=? n)%nat && (n <=? 122)%nat then ascii_of_nat (n - 32) else c.

(** [s.toUpperCase()], on the ASCII letters. *)
Definition toUpperCase : string -> string := Str.map_chars upper_char.

(** [s.replace(/-/g, '')] *)
Fixpoint without_dashes (s : string) : string :=
  match s with
  | EmptyString => EmptyString
  | String c s' =>
      if Ascii.eqb c "-" then without_dashes s' else String c (without_dashes s')
  end.

(** [`${prefix}_${uuidv4().replace(/-/g, '').substr(0, 10).toUpperCase()}`] *)
Definition new_id (prefix : string) (p : platform) : string :=
  prefix +:+ "_" +:+ toUpperCase (Str.substr 0 10 (without_dashes (uuid p))).

(** [s.slice(n)] *)
Fixpoint slice (n : nat) (s : string) : string :=
  match n, s with
  | O, _ => s
  | S n', String _ s' => slice n' s'
  | S _, EmptyString => EmptyString
  end.

(** [hay.includes(needle)] *)
Fixpoint includes (needle hay : string) : bool :=
  String.prefix needle hay
  || match hay with
     | EmptyString => false
     | String _ hay' => includes needle hay'
     end.

(** [v || d] *)
Definition or_default (v : jsv) (d : json) : json :=
  match v with
  | Some j => if Js.truthy v then j else d
  | None => d
  end.

(** The basic auth middleware of [/rest]: the answer that ends the
    request, or [None] for [next()]. *)
Definition authenticate (p : platform) (rq : request) : option response :=
  match authorization rq with
  | None =>
      Some (mkResponse 401 (JObj [("error", JStr "Authentication required")]))
  | Some auth =>
      if negb (negb (String.eqb auth "") && String.prefix "Basic " auth) then
        Some (mkResponse 401 (JObj [("error", JStr "Authentication required")]))
      else
        let credentials := from_base64 p (slice 6 auth) in
        let parts := Str.split ":" credentials in
        let username := nth_error parts 0 in
        let password := nth_error parts 1 in
        if negb (bool_decide (username = Some "admin"))
           || negb (bool_decide (password = Some "admin"))
        then Some (mkResponse 401 (JObj [("error", JStr "Invalid credentials")]))
        else None
  end.

Definition not_found : response :=
  mkResponse 404 (JObj [("error", JStr "Person not found")]).

(** [{ ...fields, createdDate: ..., lastUpdatedStamp: ... }] *)
Definition stamped (p : platform) (fields : list (string * json))
  : list (string * json) :=
  Js.spread fields
    [("createdDate", JStr (now1 p)); ("lastUpdatedStamp", JStr (now2 p))].

(** Create Person *)
Definition create_person (p : platform) (st : state) (rq : request)
  : response * state :=
  let partyId := new_id "PERSON" p in
  let person :=
    [("partyId", JStr partyId);
     ("firstName", or_default (Js.assoc "firstName" (body rq)) (JStr ""));
     ("lastName", or_default (Js.assoc "lastName" (body rq)) (JStr ""));
     ("partyTypeEnumId",
      or_default (Js.assoc "partyTypeEnumId" (body rq)) (JStr "PtyPerson"));
     ("statusId", or_default (Js.assoc "statusId" (body rq)) (JStr "PtyEnabled"));
     ("createdDate", JStr (now1 p));
     ("lastUpdatedStamp", JStr (now2 p))] in
  (mkResponse 201 (JObj (Js.spread [("partyId", JStr partyId)] person)),
   mkState (Js.set_key partyId (JObj person) (parties st))
     (contactMechs st) (relationships st) (organizations st)).

(** [!q || field.toLowerCase().includes(q.toLowerCase())] on a stored
    value [v] and its property [field]: the result of the test or the
    message of the [TypeError]. *)
Definition matches (what field : string) (q : jsv) (v : json)
  : string + bool :=
  if negb (Js.truthy q) then inr true
  else
    match v.[field] with
    | Some (JStr s) =>
        match q with
        | Some (JStr needle) =>
            inr (includes (Str.toLowerCase needle) (Str.toLowerCase s))
        | _ => inl (field +:+ ".toLowerCase is not a function")
        end
    | None =>
        inl "Cannot read properties of undefined (reading 'toLowerCase')"
    | Some JNull =>
        inl "Cannot read properties of null (reading 'toLowerCase')"
    | Some _ => inl (what +:+ "." +:+ field +:+ ".toLowerCase is not a function")
    end.

(** [l.filter(test)], which ends at the first exception. *)
Fixpoint filter_by (test : json -> string + bool) (l : list json)
  : string + list json :=
  match l with
  | [] => inr []
  | v :: l' =>
      match test v with
      | inl e => inl e
      | inr keep =>
          match filter_by test l' with
          | inl e => inl e
          | inr kept => inr (if keep then v :: kept else kept)
          end
      end
  end.

(** The error handler of the application. *)
Definition internal_error (p : platform) (message : string) : response :=
  mkResponse 500
    (JObj [("error", JStr "Internal server error");
           ("message", JStr message);
           ("timestamp", JStr (now1 p))]).

Definition answer (p : platform) (found : string + list json) : response :=
  match found with
  | inl message => internal_error p message
  | inr l => mkResponse 200 (JArr l)
  end.

(** Get People *)
Definition list_persons (p : platform) (st : state) (rq : request) : response :=
  let persons :=
    List.filter (fun v => Js.is_str v.["partyTypeEnumId"] "PtyPerson")
      (values (parties st)) in
  answer p
    (match filter_by (matches "p" "firstName" (Js.assoc "firstName" (query rq)))
             persons with
     | inl e => inl e
     | inr l =>
         filter_by (matches "p" "lastName" (Js.assoc "lastName" (query rq))) l
     end).

(** Get Person *)
Definition get_person (st : state) (partyId : string) : response :=
  match Js.assoc partyId (parties st) with
  | Some person => if Js.truthy (Some person) then mkResponse 200 person else not_found
  | None => not_found
  end.

(** The fields a spread takes from a stored value: those of an object. *)
Definition fields_of (v : json) : list (string * json) :=
  match v with
  | JObj kv => kv
  | _ => []
  end.

(** Update Person *)
Definition update_person (p : platform) (st : state) (partyId : string)
    (rq : request) : response * state :=
  match Js.assoc partyId (parties st) with
  | Some person =>
      if Js.truthy (Some person) then
        let updatedPerson :=
          Js.spread (Js.spread (fields_of person) (body rq))
            [("lastUpdatedStamp", JStr (now1 p))] in
        (mkResponse 200 (JObj updatedPerson),
         mkState (Js.set_key partyId (JObj updatedPerson) (parties st))
           (contactMechs st) (relationships st) (organizations st))
      else (not_found, st)
  | None => (not_found, st)
  end.

(** [parties.get(partyId)] is truthy. *)
Definition known (st : state) (partyId : string) : bool :=
  Js.truthy (Js.assoc partyId (parties st)).

(** Create Contact Mechanism *)
Definition create_contactMech (p : platform) (st : state) (partyId : string)
    (rq : request) : response * state :=
  if known st partyId then
    let contactMechId := new_id "CM" p in
    let contactMech :=
      stamped p
        (Js.spread [("contactMechId", JStr contactMechId);
                    ("partyId", JStr partyId)] (body rq)) in
    (mkResponse 201
       (JObj (Js.spread [("contactMechId", JStr contactMechId)] contactMech)),
     mkState (parties st)
       (Js.set_key contactMechId (JObj contactMech) (contactMechs st))
       (relationships st) (organizations st))
  else (not_found, st).

(** Get Contact Mechanisms for Party *)
Definition list_contactMechs (st : state) (partyId : string) : response :=
  mkResponse 200
    (JArr (List.filter (fun cm => Js.is_str cm.["partyId"] partyId)
             (values (contactMechs st)))).

(** Create Organization *)
Definition create_organization (p : platform) (st : state) (rq : request)
  : response * state :=
  let partyId := new_id "ORG" p in
  let organization :=
    [("partyId", JStr partyId);
     ("organizationName",
      or_default (Js.assoc "organizationName" (body rq)) (JStr ""));
     ("partyTypeEnumId",
      or_default (Js.assoc "partyTypeEnumId" (body rq)) (JStr "PtyOrganization"));
     ("statusId", or_default (Js.assoc "statusId" (body rq)) (JStr "PtyEnabled"));
     ("createdDate", JStr (now1 p));
     ("lastUpdatedStamp", JStr (now2 p))] in
  (mkResponse 201 (JObj (Js.spread [("partyId", JStr partyId)] organization)),
   mkState (Js.set_key partyId (JObj organization) (parties st))
     (contactMechs st) (relationships st)
     (Js.set_key partyId (JObj organization) (organizations st))).

(** Search Organizations *)
Definition search_organizations (p : platform) (st : state) (rq : request)
  : response :=
  answer p
    (filter_by
       (matches "org" "organizationName" (Js.assoc "organizationName" (query rq)))
       (values (organizations st))).

(** Create Party Relationship *)
Definition create_relationship (p : platform) (st : state) (rq : request)
  : response * state :=
  let relationshipId := new_id "REL" p in
  let relationship :=
    stamped p (Js.spread [("relationshipId", JStr relationshipId)] (body rq)) in
  (mkResponse 201
     (JObj (Js.spread [("relationshipId", JStr relationshipId)] relationship)),
   mkState (parties st) (contactMechs st)
     (Js.set_key relationshipId (JObj relationship) (relationships st))
     (organizations st)).

(** Create Party Role and Create Party Attribute: the object is built
    and sent back, no map is written. *)
Definition create_detail (key prefix : string) (p : platform) (st : state)
    (partyId : string) (rq : request) : response * state :=
  if known st partyId then
    let id := new_id prefix p in
    let detail :=
      stamped p (Js.spread [(key, JStr id); ("partyId", JStr partyId)] (body rq)) in
    (mkResponse 201 (JObj (Js.spread [(key, JStr id)] detail)), st)
  else (not_found, st).

Definition size (m : table) : json := JNum (Z.of_nat (length m)).

(** System status endpoint *)
Definition system_status (p : platform) (st : state) : response :=
  mkResponse 200
    (JObj [("status", JStr "healthy");
           ("version", JStr "1.0.0-mock");
           ("uptime", uptime p);
           ("timestamp", JStr (now1 p));
           ("counts",
            JObj [("parties", size (parties st));
                  ("contactMechanisms", size (contactMechs st));
                  ("relationships", size (relationships st));
                  ("organizations", size (organizations st))])]).

(** List all parties (for debugging) *)
Definition debug_parties (st : state) : response :=
  mkResponse 200
    (JObj [("parties", JArr (values (parties st)));
           ("contactMechanisms", JArr (values (contactMechs st)));
           ("relationships", JArr (values (relationships st)))]).

Definition endpoints : list string :=
  ["POST /rest/s1/mantle/party/persons";
   "GET /rest/s1/mantle/party/persons/:partyId";
   "PUT /rest/s1/mantle/party/persons/:partyId";
   "POST /rest/s1/mantle/party/:partyId/contactMechs";
   "GET /rest/s1/mantle/party/:partyId/contactMechs";
   "POST /rest/s1/mantle/party/organizations";
   "GET /rest/s1/mantle/party/organizations";
   "POST /rest/s1/mantle/party/relationships";
   "POST /rest/s1/mantle/party/:partyId/roles";
   "POST /rest/s1/mantle/party/:partyId/attributes";
   "GET /rest/s1/mantle/party/status"].

(** Root endpoint *)
Definition root (p : platform) : response :=
  mkResponse 200
    (JObj [("service", JStr "Mock Moqui Framework API");
           ("version", JStr "1.0.0");
           ("status", JStr "running");
           ("endpoints", JArr (map JStr endpoints));
           ("authentication", JStr "Basic Auth (admin/admin)");
           ("timestamp", JStr (now1 p))]).

(** Health check endpoint *)
Definition health (p : platform) : response :=
  mkResponse 200
    (JObj [("status", JStr "healthy");
           ("uptime", uptime p);
           ("memory", memoryUsage p);
           ("timestamp", JStr (now1 p))]).

(** The handler of the route, once the middleware has let the request
    through. *)
Definition route_handler (p : platform) (st : state) (rq : request)
  : response * state :=
  match path rq with
  | POST_persons => create_person p st rq
  | GET_persons => (list_persons p st rq, st)
  | GET_person partyId => (get_person st partyId, st)
  | PUT_person partyId => update_person p st partyId rq
  | POST_contactMechs partyId => create_contactMech p st partyId rq
  | GET_contactMechs partyId => (list_contactMechs st partyId, st)
  | POST_organizations => create_organization p st rq
  | GET_organizations => (search_organizations p st rq, st)
  | POST_relationships => create_relationship p st rq
  | POST_roles partyId => create_detail "roleId" "ROLE" p st partyId rq
  | POST_attributes partyId => create_detail "attributeId" "ATTR" p st partyId rq
  | GET_status => (system_status p st, st)
  | GET_debug_parties => (debug_parties st, st)
  | GET_root => (root p, st)
  | GET_health => (health p, st)
  end.

(** One request through the application. *)
Definition handle (p : platform) (st : state) (rq : request)
  : response * state :=
  if under_rest (path rq) then
    match authenticate p rq with
    | Some refused => (refused, st)
    | None => route_handler p st rq
    end
  else route_handler p st rq.

(** The requests of a session, each with what the platform gave its
    handler, from the first to the last. *)
Fixpoint serve (st : state) (session : list (platform * request))
  : list response * state :=
  match session with
  | [] => ([], st)
  | (p, rq) :: rest =>
      let '(res, st1) := handle p st rq in
      let '(answers, st2) := serve st1 rest in
      (res :: answers, st2)
  end.

End mock_moqui.

(** ** What the properties of the mock speak of *)

Module mock_session.

Import mock_moqui.

(** The credentials that the middleware lets through: the first two
    parts between colons are [admin] and [admin]. *)
Definition admin_token (p : platform) (token : string) : Prop :=
  exists more, Str.split ":" (from_base64 p token) = "admin" :: "admin" :: more.

Definition admitted (p : platform) (rq : request) : Prop :=
  exists token,
    authorization rq = Some ("Basic " +:+ token) /\ admin_token p token.

Definition is_object (v : json) : Prop :=
  match v with JObj _ => True | _ => False end.

Definition has_key (m : table) (k : string) : Prop := is_Some (Js.assoc k m).

(** What every state the mock reaches satisfies: the maps hold objects,
    and an organization is a party as well. *)
Record consistent (st : state) : Prop := mkConsistent {
  parties_objects : Forall is_object (values (parties st));
  contactMechs_objects : Forall is_object (values (contactMechs st));
  relationships_objects : Forall is_object (values (relationships st));
  organizations_objects : Forall is_object (values (organizations st));
  organizations_parties :
    forall k, has_key (organizations st) k -> has_key (parties st) k
}.

(** [st'] holds every key of [st]: nothing was removed. *)
Definition grown (st st' : state) : Prop :=
  (forall k, has_key (parties st) k -> has_key (parties st') k)
  /\ (forall k, has_key (contactMechs st) k -> has_key (contactMechs st') k)
  /\ (forall k, has_key (relationships st) k -> has_key (relationships st') k)
  /\ (forall k, has_key (organizations st) k -> has_key (organizations st') k).

(** A platform for the examples: it decodes the one token it knows. *)
Definition demo_platform (uuid : string) : platform :=
  {| uuid := uuid;
     now1 := "2025-01-01T00:00:00.000Z";
     now2 := "2025-01-01T00:00:00.001Z";
     uptime := JNum 12;
     memoryUsage := JObj [("rss", JNum 50000000)];
     from_base64 := fun token =>
       if String.eqb token "YWRtaW46YWRtaW4=" then "admin:admin" else "" |}.

Definition admin : option string := Some "Basic YWRtaW46YWRtaW4=".

End mock_session.

(** The value an object literal or a spread gives a key that the fields
    bind more than once: the last one. *)
Definition last_value {A} (k : string) (fields : list (string * A)) : option A :=
  Js.assoc k (rev fields).

(** ** The requests of the version-control adapter *)

Module GiteaRequests.

Import GiteaService.

(** [this.client.get(`/repos/${owner}/${name}`)] *)
Definition repository_lookup (E : Env) : request :=
  mkRequest Gitea GET (repo (cfg E)) JNull.

(** [this.client.post("/user/repos", { ... })] *)
Definition repository_creation (E : Env) : request :=
  mkRequest Gitea POST "/user/repos"
    (JObj [("name", JStr (repoName (cfg E)));
           ("description", JStr "CDM Data Repository for Master Data Management");
           ("private", JBool false);
           ("auto_init", JBool true);
           ("gitignores", JStr "Node");
           ("license", JStr "MIT");
           ("readme", JStr "Default")]).

Definition contents_url (E : Env) (filePath : string) : string :=
  repo (cfg E) +:+ "/contents/" +:+ filePath.

(** The request of [getFileContent]. *)
Definition file_lookup (E : Env) (filePath branch : string) : request :=
  mkRequest Gitea GET (contents_url E filePath) (JObj [("ref", JStr branch)]).

(** [commitData] of [commitFile], before the [sha] is added. *)
Definition commitData (E : Env) (content message branch : string)
  : list (string * jsv) :=
  [("message", Js.str message);
   ("content", Js.str (base64 E content));
   ("branch", Js.str branch)].

(** The file does not exist: the host said so in its answer or by
    rejecting the request with the status 404. *)
Definition file_is_missing (reply : outcome json) : bool :=
  match reply with
  | Ret data => Js.is_num data.["status"] 404
  | Throw e => bool_decide (response_status e = Some 404)
  end.

End GiteaRequests.

(** * More of dataController.js *)

Module dataRoutes.

Import Joi cdmModels.

(** Validation schema for contact form submission *)
Definition contactSubmissionSchema : list (string * schema) :=
  [("fullName", mkSchema (string_ [min 1; max 255]) true false None no_default);
   ("emailAddress", mkSchema (string_ [email]) true false None no_default);
   ("phoneNumber",
    mkSchema (string_ [pattern "/^[\+]?[0-9\s\-\(\)]+$/" phone_pattern])
      false true None no_default);
   ("company", optional_string 255);
   ("addressLine1", optional_string 255);
   ("addressLine2", optional_string 255);
   ("city", optional_string 100);
   ("stateProvince", optional_string 100);
   ("postalCode", optional_string 20);
   ("country", optional_string 100);
   ("jobTitle", optional_string 255);
   ("department", optional_string 255);
   ("preferredContactMethod",
    mkSchema (string_ []) false false (Some ["email"; "phone"; "mail"])
      (default_const (JStr "email")));
   ("notes", optional_string 1000);
   ("tags",
    mkSchema (alternatives
                [is_string_array;
                 (fun v => match v with JStr "" | JNull => true | _ => false end);
                 (fun _ => true)])
      false false None no_default);
   ("customFields", mkSchema object false true None no_default);
   ("submittedBy", mkSchema (string_ []) false false None
                     (default_const (JStr "grafana-user")));
   ("source", mkSchema (string_ []) false false None
                (default_const (JStr "grafana-form")))].

(** The preferences of [schema.validate(data)] without options. *)
Definition default_prefs : prefs :=
  {| abortEarly := true; stripUnknown := false; convert := true |}.

(** [req.headers["x-request-id"] || `req-${Date.now()}-${...}`] *)
Definition request_id (header : option string) : M string :=
  if Js.truthy_str header then ret (default "" header)
  else
    let* stamp := Date_now in
    let* rnd := observe random36 in
    ret ("req-" +:+ Js.show_Z stamp +:+ "-" +:+ Str.substr 2 9 rnd).

(** POST /api/data/contacts - Submit contact form data.  [header] is
    [req.headers["x-request-id"]] and [body] holds the fields of
    [req.body]. *)
Definition post_contacts (header : option string) (body : list (string * jsv))
  : M response :=
  let* startTime := Date_now in
  let* requestId := request_id header in
  logger.info "Contact submission started";;
  try_catch
    ((* Validate input data *)
     let* E := ask id in
     let* uuid := observe uuidv4 in
     let* now := now_iso in
     let '(details, validatedData) :=
       validate E uuid now contactSubmissionSchema body default_prefs in
     match details with
     | _ :: _ =>
         ret (mkResponse 400
                (JObj [("success", JBool false);
                       ("error", JStr "Validation failed");
                       ("details", JArr (map JStr details));
                       ("requestId", JStr requestId)]))
     | [] =>
         (* Transform to CDM format *)
         let* cdmContact :=
           transformToCdmContact validatedData validatedData.["submittedBy"] in
         logger.info "Data transformed to CDM format";;
         (* Phase 1: Commit to Git repository *)
         let* gitResult :=
           GiteaCommit.commitCdmData cdmContact
             [("requestId", Js.str requestId);
              ("submittedBy", validatedData.["submittedBy"]);
              ("source", validatedData.["source"]);
              ("originalData", Some validatedData)] in
         let* pullRequestUrl :=
           lift (Prop_access.get (Some (GiteaCommit.pullRequest gitResult))
                   "html_url") in
         logger.info "Data committed to Git repository";;
         (* Phase 2: Index in OpenSearch for searchability *)
         OpenSearchService.indexContact cdmContact;;
         logger.info "Contact indexed in OpenSearch";;
         let* finished := Date_now in
         let processingTime := (finished - startTime)%Z in
         let* c := ask cfg in
         let* timestamp := now_iso in
         (* Success response *)
         ret (mkResponse 201
                (Js.obj
                   [("success", Some (JBool true));
                    ("message", Js.str "Contact data submitted successfully");
                    ("data",
                     Some (Js.obj
                       [("contactId", cdmContact.["contactId"]);
                        ("submissionId",
                         Js.str (GiteaCommit.submissionId gitResult));
                        ("status", Js.str "pending_review");
                        ("git",
                         Some (Js.obj
                           [("branchName",
                             Js.str (GiteaCommit.branchName gitResult));
                            ("pullRequestId",
                             (GiteaCommit.pullRequest gitResult).["number"]);
                            ("pullRequestUrl", pullRequestUrl)]));
                        ("opensearch",
                         Some (JObj [("indexed", JBool true);
                                     ("indexName", JStr (contactsIndex c))]));
                        ("processingTime",
                         Js.str (Js.show_Z processingTime +:+ "ms"))]));
                    ("requestId", Js.str requestId);
                    ("timestamp", Js.str timestamp)]))
     end)
    (fun error =>
       logger.error "Contact submission failed";;
       let* timestamp := now_iso in
       ret (mkResponse 500
              (JObj [("success", JBool false);
                     ("error", JStr "Internal server error");
                     ("message", JStr "Failed to process contact submission");
                     ("requestId", JStr requestId);
                     ("timestamp", JStr timestamp)]))).

(** GET /api/data/reset/contacts *)
Definition get_reset_contacts : M response :=
  try_catch
    (OpenSearchService.ResetContactIndices;;
     ret (mkResponse 201 (JObj [("success", JBool true)])))
    (fun error =>
       logger.error "Failed to reset contacts:";;
       ret (mkResponse 500
              (JObj [("success", JBool false);
                     ("error", JStr "Failed to reset contacts");
                     ("message", JStr (message error))]))).

End dataRoutes.


(** The calls to the index store among the events. *)
Definition store_calls (new : list event) : list event :=
  filter (fun ev => Trace.is_store_call ev = true) new.

(** * More of the Moqui adapter (moquiService.js) *)

Module MoquiMaintenance.

Import MoquiService.

(** What [updateContact] and [deleteContact] return: [success],
    [moquiId], [message] and [error]. *)
Record report : Type := mkReport {
  report_success : bool;
  report_moquiId : jsv;
  report_message : option string;
  report_error : option string
}.

Definition person_url (moquiPartyId : jsv) : string :=
  "/persons/" +:+ Js.show moquiPartyId.

Definition updateContact (moquiPartyId : jsv) (contactData : json) : M report :=
  try_catch
    (logger.info "Updating contact in Moqui";;
     (* Update person information *)
     let* moquiPartyData := lift (transformToMoquiParty contactData) in
     http (mkRequest Moqui PUT (person_url moquiPartyId)
             (JObj [("firstName", JStr (firstName moquiPartyData));
                    ("lastName", JStr (lastName moquiPartyData));
                    ("partyTypeEnumId", JStr (partyTypeEnumId moquiPartyData));
                    ("statusId", JStr (statusId moquiPartyData))]));;
     ret (mkReport true moquiPartyId
            (Some "Contact updated successfully in Moqui") None))
    (fun error =>
       logger.error "Failed to update contact in Moqui";;
       ret (mkReport false None None (Some (message error)))).

Definition deleteContact (moquiPartyId : jsv) : M report :=
  try_catch
    (logger.info "Deleting contact in Moqui";;
     (* Moqui typically uses soft deletes by changing status *)
     http (mkRequest Moqui PUT (person_url moquiPartyId)
             (JObj [("statusId", JStr "PtyDisabled")]));;
     ret (mkReport true moquiPartyId (Some "Contact disabled in Moqui") None))
    (fun error =>
       logger.error "Failed to delete contact in Moqui";;
       ret (mkReport false None None (Some (message error)))).

(** [v || d] *)
Definition or_json (v : jsv) (d : json) : json :=
  match v with
  | Some j => if Js.truthy v then j else d
  | None => d
  end.

Definition getHealthStatus : M json :=
  try_catch
    ((* Simple health check - try to get system info *)
     let* data := http (mkRequest Moqui GET "/status" JNull) in
     let* responseTime := Date_now in
     ret (JObj [("status", JStr "healthy");
                ("version", or_json data.["version"] (JStr "unknown"));
                ("uptime", or_json data.["uptime"] (JNum 0));
                ("responseTime", JNum responseTime)]))
    (fun error =>
       let* lastChecked := now_iso in
       ret (JObj [("status", JStr "unhealthy");
                  ("error", JStr (message error));
                  ("lastChecked", JStr lastChecked)])).

End MoquiMaintenance.

(** * The test route of webhookController.js *)

Module webhookTest.

Import webhookController.

Definition testWebhook_pull_request : json :=
  JObj [("number", JNum 999);
        ("title", JStr "Add Contact: Test User");
        ("body",
         JStr ("**Email:** test@example.com" +:+ Str.nl
               +:+ "**Company:** Test Corp"));
        ("merged", JBool true);
        ("user", JObj [("login", JStr "test-user")]);
        ("html_url", JStr "https://git.example.com/test/pr/999")].

Definition testWebhook : json :=
  JObj [("action", JStr "test");
        ("repository", JObj [("name", JStr "cdm-data")]);
        ("pull_request", testWebhook_pull_request)].

(** POST /api/webhooks/test - Test webhook endpoint *)
Definition post_test : M response :=
  try_catch
    (handlePullRequestMerged testWebhook_pull_request "test-webhook";;
     ret (mkResponse 200
            (JObj [("success", JBool true);
                   ("message", JStr "Test webhook processed successfully");
                   ("testData", testWebhook)])))
    (fun error =>
       ret (mkResponse 500
              (JObj [("success", JBool false);
                     ("error", JStr "Test webhook failed");
                     ("message", JStr (message error))]))).

End webhookTest.

(** The id [sendNotification] gives to a notification sent from [s]:
    [`notif-${Date.now()}-${Math.random().toString(36).substr(2, 9)}`]. *)
Definition notification_id (E : Env) (s : St) : string :=
  "notif-" +:+ Js.show_Z (clock E (trace s)) +:+ "-"
  +:+ Str.substr 2 9 (random36 E (trace s)).

Module Demo_notifications.

(** A store that refuses to index documents and answers every other
    call. *)
Definition index_fails (history : list event) (op : os_op) : option exn :=
  match op with
  | IndexDoc _ _ _ => Some (mkExn "ConnectionError" "connect ECONNREFUSED" None)
  | _ => None
  end.

End Demo_notifications.

(** Whether [POST /api/webhooks/gitea] has a handler for the event: the
    guards of its four branches. *)
Definition dispatched (r : webhookController.req) : bool :=
  let action := (webhookController.parsed r).["action"] in
  let pull_request := (webhookController.parsed r).["pull_request"] in
  let repository := (webhookController.parsed r).["repository"] in
  (Js.is_str action "deleted" && Js.truthy repository)
  || (Js.truthy pull_request && Js.is_str action "closed"
      && Js.truthy (Prop_access.get_opt pull_request "merged"))
  || (Js.truthy pull_request && Js.is_str action "opened")
  || (Js.truthy pull_request && Js.is_str action "synchronized").

(** The id the handler gives to a webhook received in [s]. *)
Definition webhook_id (E : Env) (s : St) : string :=
  "webhook-" +:+ Js.show_Z (clock E (trace s)) +:+ "-"
  +:+ Str.substr 2 9 (random36 E (trace s)).

(** ** Text that survives the pull request *)

(** A character that [.] matches and that starts none of the labels of
    the pull request body: no line feed, no carriage return, no asterisk,
    and not the first byte of U+2028 or U+2029. *)
Definition plain_char (c : ascii) : bool :=
  let n := nat_of_ascii c in
  negb ((n =? 10)%nat || (n =? 13)%nat || (n =? 226)%nat || (n =? 42)%nat).

(** A text of one line, not empty and without asterisk. *)
Definition plain (g : string) : bool :=
  negb (String.eqb g "") && forallb plain_char (list_ascii_of_string g).

(** [prefix] cannot be read at the start of [a] followed by anything. *)
Fixpoint differs_within (prefix a : string) : bool :=
  match prefix, a with
  | String x prefix', String y a' =>
      if Ascii.eqb x y then differs_within prefix' a' else true
  | _, _ => false
  end.

(** [prefix] can be read at no position of [a], whatever follows [a]. *)
Fixpoint no_match_within (prefix a : string) : bool :=
  match a with
  | EmptyString => true
  | String _ a' => differs_within prefix a && no_match_within prefix a'
  end.

(** * Properties *)

(** ** The monad *)

Lemma bind_ret {A B} (m : M A) (k : A -> M B) E s a s' :
  m E s = (Ret a, s') -> bind m k E s = k a E s'.
Proof. intros H. unfold bind. now rewrite H. Qed.

Lemma bind_throw {A B} (m : M A) (k : A -> M B) E s e s' :
  m E s = (Throw e, s') -> bind m k E s = (Throw e, s').
Proof. intros H. unfold bind. now rewrite H. Qed.

Lemma try_catch_ret {A} (m : M A) h E s a s' :
  m E s = (Ret a, s') -> try_catch m h E s = (Ret a, s').
Proof. intros H. unfold try_catch. now rewrite H. Qed.

Lemma try_catch_throw {A} (m : M A) h E s e s' :
  m E s = (Throw e, s') -> try_catch m h E s = h e E s'.
Proof. intros H. unfold try_catch. now rewrite H. Qed.

Local Opaque String.append.

Lemma request_eqb_refl rq b :
  Trace.request_eqb rq (mkRequest (target rq) (verb rq) (url rq) b) = true.
Proof.
  unfold Trace.request_eqb; cbn.
  rewrite String.eqb_refl. now destruct (target rq), (verb rq).
Qed.


(** Symbolic execution of a computation: the monad and its primitives
    are unfolded, the services are not. *)
Ltac run_with defs :=
  cbv beta iota zeta delta
    [bind try_catch ask observe http settle lift emit ret throw sleep
     Date_now now_iso logger.info logger.warn logger.error logger.debug];
  cbn [trace store fst snd].

Ltac run := run_with tt.

Ltac on_reply :=
  match goal with
  | |- context [respond ?E ?h ?r] =>
      let H := fresh "Hreply" in
      destruct (respond E h r) as [?data|?err] eqn:H
  end.

Lemma first_throws v e :
  Prop_access.first v = Throw e ->
  name e = "TypeError" /\ response_status e = None.
Proof.
  destruct v as [[]|]; cbn; intros H; inversion H; now subst.
Qed.

Lemma get_throws v k e :
  Prop_access.get v k = Throw e ->
  name e = "TypeError" /\ response_status e = None.
Proof.
  destruct v as [[]|]; cbn; intros H; inversion H; now subst.
Qed.

(** ** The version-control adapter *)

Section createBranch.

Import GiteaService.

Variable E : Env.
Variables branchName baseBranch : string.

Let branches : string := repo (cfg E) +:+ "/branches".

Ltac finish422 :=
  eexists; rewrite <- ?app_assoc; (split; [reflexivity|]);
  cbn; rewrite ?String.eqb_refl; cbn;
  repeat match goal with
         | H : response_status _ = _ |- _ => rewrite H
         | H : response_status _ <> _ |- _ =>
             rewrite (bool_decide_eq_false_2 _ H)
         end;
  cbn; repeat split; eauto.

Ltac type_error H :=
  let Hn := fresh "Hname" in
  let Hs := fresh "Hstatus" in
  first [apply first_throws in H | apply get_throws in H];
  destruct H as [Hn Hs]; rewrite Hs;
  rewrite bool_decide_eq_false_2 by done; run; finish422.

(** C6.  [createBranch] posts at most one creation of a branch.  When the
    host rejects a request with the status 422 (the branch exists), the
    call returns the branch name without raising and no creation was
    fulfilled; when a request is rejected with any other error, that
    error reaches the caller.  Without a rejection the branch was
    created once, unless the answer on the base branch cannot be read,
    which raises a TypeError before any creation.  The index store is
    never touched. *)
Theorem createBranch_conflict_is_success (s : St) :
  let run := createBranch branchName baseBranch E s in
  let creations := Trace.answers Gitea POST branches in
  exists new,
    Trace.added s (snd run) new /\ store (snd run) = store s /\
    (length (creations new) <= 1)%nat /\
    match Trace.first_rejection new with
    | Some e =>
        if bool_decide (response_status e = Some 422)
        then fst run = Ret branchName /\ filter Trace.fulfilled (creations new) = []
        else fst run = Throw e
    | None =>
        (fst run = Ret branchName /\ exists d, creations new = [Ret d])
        \/ (exists e, fst run = Throw e /\ name e = "TypeError"
                      /\ creations new = [])
    end.
Proof.
  unfold createBranch, createBranch_try, Trace.added. run.
  on_reply; run.
  2:{ case_bool_decide as H422; run; finish422. }
  destruct (Prop_access.first (Some data)) as [ref0|e0] eqn:Hfirst; run.
  2:{ type_error Hfirst. }
  destruct (Prop_access.get ref0 "object") as [object|e0] eqn:Hobject; run.
  2:{ type_error Hobject. }
  destruct (Prop_access.get object "sha") as [baseSha|e0] eqn:Hsha; run.
  2:{ type_error Hsha. }
  on_reply; run.
  - finish422.
  - case_bool_decide as H422; run; finish422.
Qed.

End createBranch.

Section commitCdmData.

Import GiteaService GiteaCommit.

Variable E : Env.

Lemma generateBranchName_pure type identifier s :
  exists branchName, generateBranchName type identifier E s = (Ret branchName, s).
Proof. unfold generateBranchName. run. eauto. Qed.

(** C4.  Once [commitCdmData] has computed the branch name, a failure of
    any later step is logged, answered with one [deleteBranch] request
    for that branch, and raised again unchanged: this holds whether the
    deletion is fulfilled or rejected, and a rejected deletion is only
    logged.  Without a failure the result of the steps is returned. *)
Theorem commitCdmData_compensates (s : St) (contactData : json)
    (metadata : list (string * jsv)) (identifier : option string) :
  short_id contactData.["contactId"] = Ret identifier ->
  exists branchName,
    generateBranchName "contact" identifier E s = (Ret branchName, s) /\
    match commitCdmData_try branchName contactData metadata E s with
    | (Ret result, s1) =>
        commitCdmData contactData metadata E s = (Ret result, s1)
    | (Throw error, s1) =>
        let compensation := deleteBranch_request (cfg E) branchName in
        let logged := (trace s1 ++ [ELog Err "Failed to commit CDM data:"])%list in
        exists s2,
          commitCdmData contactData metadata E s = (Throw error, s2) /\
          store s2 = store s1 /\
          trace s2 =
            (logged ++
             match respond E logged compensation with
             | Ret d =>
                 [EHttp compensation (Ret d);
                  ELog Info ("Branch " +:+ branchName +:+ " deleted successfully")]
             | Throw cleanupError =>
                 [EHttp compensation (Throw cleanupError);
                  ELog Err ("Failed to delete branch " +:+ branchName +:+ ":");
                  ELog Err "Failed to cleanup branch:"]
             end)%list
    end.
Proof.
  intros Hid.
  destruct (generateBranchName_pure "contact" identifier s) as [branchName Hb].
  exists branchName. split; [exact Hb|].
  unfold commitCdmData. rewrite Hid.
  destruct (commitCdmData_try branchName contactData metadata E s)
    as [[result|error] s1] eqn:Htry.
  - run. rewrite Hb. run. now rewrite Htry.
  - run. rewrite Hb. run. rewrite Htry. run.
    unfold deleteBranch. run.
    destruct (respond E _ _) as [d|cleanupError]; run.
    all: eexists; rewrite <- ?app_assoc; repeat split; reflexivity.
Qed.

End commitCdmData.

Section commitCdmData_run.

Import GiteaService GiteaCommit.

Lemma commitCdmData_compensates_witness :
  short_id Demo.jane.["contactId"] = Ret (Some "3b241101")
  /\ exists s2,
       commitCdmData Demo.jane [] (Demo.platform Demo.down Demo.no_fault) Demo.start
       = (Throw (Demo.rejected 500 "/repos/gitea_admin/cdm-data"), s2)
       /\ last (trace s2) = Some (ELog Err "Failed to cleanup branch:").
Proof.
  split; [reflexivity|].
  destruct (commitCdmData_compensates
              (Demo.platform Demo.down Demo.no_fault) Demo.start Demo.jane []
              (Some "3b241101") eq_refl) as (branchName & Hname & H).
  vm_compute in Hname. injection Hname as <-.
  remember (commitCdmData_try _ _ _ _ _) as r eqn:Hr in H.
  vm_compute in Hr. subst r. cbv beta iota zeta in H.
  destruct H as (s2 & Hrun & _ & Htrace).
  exists s2. split; [exact Hrun|].
  rewrite Htrace. vm_compute. reflexivity.
Defined.

End commitCdmData_run.
Section createBranch_twice.

Import GiteaService.

Let E : Env := Demo.platform Demo.gitea_host Demo.no_fault.

Lemma branches_of_app c h1 h2 :
  Demo.branches_of c (h1 ++ h2) = (Demo.branches_of c h1 ++ Demo.branches_of c h2)%list.
Proof. apply omap_app. Qed.

Lemma host_get h u b :
  respond E h (mkRequest Gitea GET u b)
  = Ret (JArr [JObj [("object", JObj [("sha", JStr "9fceb02d0ae5")]);
                     ("partyId", JStr "ORG_100")]]).
Proof. reflexivity. Qed.

Lemma host_post h branchName sha :
  respond E h (mkRequest Gitea POST (repo default_config +:+ "/branches")
                 (Js.obj [("new_branch_name", Js.str branchName);
                          ("old_ref_name", sha)]))
  = if existsb (String.eqb branchName) (Demo.branches_of default_config h)
    then Throw (Demo.rejected 422 (repo default_config +:+ "/branches"))
    else Ret (JObj [("name", JStr branchName)]).
Proof.
  cbn [E respond Demo.platform]. unfold Demo.gitea_host.
  unfold Trace.request_eqb. cbn [target verb url andb].
  rewrite String.eqb_refl. now destruct sha.
Qed.

Lemma branches_of_log c lvl msg : Demo.branches_of c [ELog lvl msg] = [].
Proof. reflexivity. Qed.

Lemma branches_of_get c u b r :
  Demo.branches_of c [EHttp (mkRequest Gitea GET u b) r] = [].
Proof. now destruct r. Qed.

Lemma branches_of_rejected c rq e : Demo.branches_of c [EHttp rq (Throw e)] = [].
Proof. reflexivity. Qed.

Lemma branches_of_created c branchName sha d :
  Demo.branches_of c
    [EHttp (mkRequest Gitea POST (repo c +:+ "/branches")
              (Js.obj [("new_branch_name", Js.str branchName);
                       ("old_ref_name", sha)])) (Ret d)]
  = [branchName].
Proof.
  unfold Demo.branches_of, Trace.request_eqb.
  cbn [omap list_omap target verb url andb].
  rewrite String.eqb_refl. now destruct sha.
Qed.

(** On a host that knows its branches, [createBranch] succeeds whether
    the branch exists or not, and the host holds the branch once more
    only when it did not hold it before. *)
Lemma createBranch_on_host (branchName baseBranch : string) (s : St) :
  exists new,
    createBranch branchName baseBranch E s
    = (Ret branchName, mkSt (trace s ++ new) (store s)) /\
    Demo.branches_of default_config (trace s ++ new)
    = if existsb (String.eqb branchName) (Demo.branches_of default_config (trace s))
      then Demo.branches_of default_config (trace s)
      else (Demo.branches_of default_config (trace s) ++ [branchName])%list.
Proof.
  unfold createBranch, createBranch_try. run.
  rewrite host_get. cbn [Prop_access.first Prop_access.get head Js.assoc
                         String.eqb Ascii.eqb Bool.eqb].
  run. change (cfg E) with default_config. rewrite host_post.
  rewrite !branches_of_app, !branches_of_log, branches_of_get, !app_nil_r.
  destruct (existsb _ _) eqn:Hheld; run.
  - change (response_status (Demo.rejected 422 _)) with (Some 422).
    rewrite bool_decide_eq_true_2 by done. run.
    eexists. rewrite <- !app_assoc. split; [reflexivity|].
    rewrite !branches_of_app, !branches_of_log, branches_of_get,
      branches_of_rejected, !app_nil_r. reflexivity.
  - eexists. rewrite <- !app_assoc. split; [reflexivity|].
    rewrite !branches_of_app, !branches_of_log, branches_of_get,
      branches_of_created, !app_nil_r. reflexivity.
Qed.

(** Called twice with the same name, [createBranch] succeeds both times
    and the second call leaves the branches of the host as they were. *)
Lemma createBranch_twice (branchName baseBranch : string) (s : St) :
  let first := createBranch branchName baseBranch E s in
  let second := createBranch branchName baseBranch E (snd first) in
  fst first = Ret branchName /\ fst second = Ret branchName /\
  Demo.branches_of default_config (trace (snd second))
  = Demo.branches_of default_config (trace (snd first)) /\
  In branchName (Demo.branches_of default_config (trace (snd second))).
Proof.
  cbv zeta.
  destruct (createBranch_on_host branchName baseBranch s) as (new1 & -> & H1).
  cbn [fst snd].
  destruct (createBranch_on_host branchName baseBranch
              (mkSt (trace s ++ new1) (store s))) as (new2 & -> & H2).
  cbn [fst snd trace] in *.
  assert (Hheld : existsb (String.eqb branchName)
                    (Demo.branches_of default_config (trace s ++ new1)) = true).
  { rewrite H1. destruct (existsb _ _) eqn:Hb; [exact Hb|].
    rewrite existsb_app. cbn. rewrite String.eqb_refl. now rewrite orb_true_r. }
  rewrite Hheld in H2. rewrite H2. repeat split.
  apply existsb_exists in Hheld as (b & Hin & Heq).
  apply String.eqb_eq in Heq. now subst.
Qed.

End createBranch_twice.
(** ** The merge step of the complete-flow test *)

Section merge_retry.

Import GiteaService dataController.

Variable E : Env.








End merge_retry.
(** ** What a computation adds to the trace *)


Create HintDb traced discriminated.

Section traced.

Context {A B : Type} (P : event -> Prop).

Lemma traced_nothing (m : M A) :
  (forall E s, snd (m E s) = s) -> traced P m.
Proof.
  intros H E s. exists []. rewrite H. unfold Trace.added.
  now rewrite app_nil_r.
Qed.

Lemma traced_ret (a : A) : traced P (ret a).
Proof. now apply traced_nothing. Qed.

Lemma traced_throw e : traced P (@throw A e).
Proof. now apply traced_nothing. Qed.

Lemma traced_lift (o : outcome A) : traced P (lift o).
Proof. now apply traced_nothing. Qed.

Lemma traced_ask (f : Env -> A) : traced P (ask f).
Proof. now apply traced_nothing. Qed.

Lemma traced_observe (f : Env -> list event -> A) : traced P (observe f).
Proof. now apply traced_nothing. Qed.

Lemma traced_bind (m : M A) (k : A -> M B) :
  traced P m -> (forall a, traced P (k a)) -> traced P (bind m k).
Proof.
  intros Hm Hk E s. unfold bind.
  destruct (Hm E s) as (new1 & Hadd1 & HP1 & Hst1).
  destruct (m E s) as [[a|e] s1]; cbn [snd] in *.
  - destruct (Hk a E s1) as (new2 & Hadd2 & HP2 & Hst2).
    exists (new1 ++ new2)%list. unfold Trace.added in *.
    rewrite Hadd2, Hadd1, app_assoc. split; [reflexivity|].
    split; [now apply Forall_app|].
    intros [H1 H2]%Forall_app. now rewrite Hst2, Hst1.
  - exists new1. auto.
Qed.

Lemma traced_try_catch (m : M A) (h : exn -> M A) :
  traced P m -> (forall e, traced P (h e)) -> traced P (try_catch m h).
Proof.
  intros Hm Hh E s. unfold try_catch.
  destruct (Hm E s) as (new1 & Hadd1 & HP1 & Hst1).
  destruct (m E s) as [[a|e] s1]; cbn [snd] in *.
  - exists new1. auto.
  - destruct (Hh e E s1) as (new2 & Hadd2 & HP2 & Hst2).
    exists (new1 ++ new2)%list. unfold Trace.added in *.
    rewrite Hadd2, Hadd1, app_assoc. split; [reflexivity|].
    split; [now apply Forall_app|].
    intros [H1 H2]%Forall_app. now rewrite Hst2, Hst1.
Qed.

Lemma traced_if (b : bool) (m1 m2 : M A) :
  traced P m1 -> traced P m2 -> traced P (if b then m1 else m2).
Proof. now destruct b. Qed.

End traced.

Lemma traced_emit P ev :
  P ev -> Trace.is_store_call ev = false -> traced P (emit ev).
Proof.
  intros HP Hev E s. exists [ev]. repeat split; auto.
Qed.

Lemma traced_log P lvl msg : P (ELog lvl msg) -> traced P (emit (ELog lvl msg)).
Proof. intros. now apply traced_emit. Qed.

Lemma traced_sleep P ms : P (ESleep ms) -> traced P (sleep ms).
Proof. intros. now apply traced_emit. Qed.

Lemma traced_settle P rq : (forall r, P (EHttp rq r)) -> traced P (settle rq).
Proof.
  intros HP E s. eexists [_]. repeat split; auto.
Qed.

Lemma traced_http P rq : (forall r, P (EHttp rq r)) -> traced P (http rq).
Proof.
  intros HP. apply traced_bind; [now apply traced_settle|].
  intros r. apply traced_lift.
Qed.

Lemma traced_opensearch P op : (forall r, P (EOs op r)) -> traced P (opensearch op).
Proof.
  intros HP E s. unfold opensearch.
  destruct (os_fault E (trace s) op) as [e|].
  - eexists [_]. repeat split; auto.
  - destruct (Store.step _ _ _) as [r st'].
    eexists [_]. cbn. repeat split; auto.
    intros H. now inversion H.
Qed.

Lemma traced_weaken {A} (P Q : event -> Prop) (m : M A) :
  (forall ev, P ev -> Q ev) -> traced P m -> traced Q m.
Proof.
  intros HPQ Hm E s. destruct (Hm E s) as (new & Hadd & HP & Hst).
  exists new. repeat split; auto. eapply Forall_impl; eauto.
Qed.

#[local] Hint Resolve traced_ret traced_throw traced_lift traced_ask
  traced_observe traced_if traced_log traced_sleep traced_settle traced_http
  traced_opensearch : traced.

(** Goes through a computation built from the primitives. *)
Ltac traced_step :=
  lazymatch goal with
  | |- traced _ (let _ := _ in _) => cbv zeta
  | |- traced _ (bind _ _) => apply traced_bind; [|intro]
  | |- traced _ (try_catch _ _) => apply traced_try_catch; [|intro]
  | |- traced _ (if _ then _ else _) => apply traced_if
  | |- traced _ (match ?x with _ => _ end) => destruct x
  | |- traced _ (logger.info _) => apply traced_log
  | |- traced _ (logger.warn _) => apply traced_log
  | |- traced _ (logger.error _) => apply traced_log
  | |- traced _ (logger.debug _) => apply traced_log
  | |- traced _ (emit (ELog _ _)) => apply traced_log
  | |- traced _ (sleep _) => apply traced_sleep
  | |- traced _ (http _) => apply traced_http; intro
  | |- traced _ (settle _) => apply traced_settle; intro
  | |- traced _ (MoquiService.post _ _) => apply traced_http; intro
  | |- traced _ (opensearch _) => apply traced_opensearch; intro
  | |- traced _ (ret _) => apply traced_ret
  | |- traced _ (throw _) => apply traced_throw
  | |- traced _ (lift _) => apply traced_lift
  | |- traced _ (ask _) => apply traced_ask
  | |- traced _ (observe _) => apply traced_observe
  | |- traced _ Date_now => apply traced_observe
  | |- traced _ now_iso => apply traced_nothing; reflexivity
  end.

Ltac traced_auto := repeat traced_step; try reflexivity; cbn; auto with traced.



(** ** The downstream propagation adapter *)

Section MoquiService.

Import MoquiService.

Lemma post_each_not_store url attributes :
  traced not_store (post_each url attributes).
Proof. induction attributes; cbn [post_each]; traced_auto. Qed.

Lemma findOrCreateOrganization_not_store companyName :
  traced not_store (findOrCreateOrganization companyName).
Proof. unfold findOrCreateOrganization. traced_auto. Qed.

Lemma addEmploymentInfo_not_store partyId contactData :
  traced not_store (addEmploymentInfo partyId contactData).
Proof.
  unfold addEmploymentInfo. traced_auto.
  apply findOrCreateOrganization_not_store.
Qed.

Lemma addCustomAttributes_not_store partyId contactData :
  traced not_store (addCustomAttributes partyId contactData).
Proof.
  unfold addCustomAttributes. traced_auto. apply post_each_not_store.
Qed.

Lemma createContact_not_store contactData :
  traced not_store (createContact contactData).
Proof.
  unfold createContact, createContact_try. traced_auto.
  - apply addEmploymentInfo_not_store.
  - apply addCustomAttributes_not_store.
Qed.
















End MoquiService.
Section MoquiService_runs.

Import MoquiService.



End MoquiService_runs.
(** ** Objects as lists of fields *)

Section objects.

Context {A : Type}.

Lemma assoc_set_key (k k' : string) (v : A) kv :
  Js.assoc k' (Js.set_key k v kv)
  = if String.eqb k' k then Some v else Js.assoc k' kv.
Proof.
  induction kv as [|[k0 v0] kv IH]; cbn.
  - now destruct (String.eqb_spec k' k).
  - destruct (String.eqb_spec k k0) as [->|Hk]; cbn.
    + now destruct (String.eqb_spec k' k0).
    + destruct (String.eqb_spec k' k0) as [->|Hk'].
      * destruct (String.eqb_spec k0 k); congruence.
      * exact IH.
Qed.

Lemma keys_set_key (k : string) (v : A) kv :
  map fst (Js.set_key k v kv)
  = if existsb (String.eqb k) (map fst kv) then map fst kv
    else (map fst kv ++ [k])%list.
Proof.
  induction kv as [|[k0 v0] kv IH]; cbn; [reflexivity|].
  destruct (String.eqb_spec k k0) as [->|Hk]; cbn; [reflexivity|].
  rewrite IH. now destruct (existsb _ _).
Qed.

Lemma assoc_None_notin (k : string) (kv : list (string * A)) :
  Js.assoc k kv = None <-> k ∉ map fst kv.
Proof.
  induction kv as [|[k0 v0] kv IH]; cbn.
  - split; [intros _; apply not_elem_of_nil|done].
  - rewrite not_elem_of_cons.
    destruct (String.eqb_spec k k0) as [->|Hk]; [split; [done|tauto]|].
    rewrite IH. tauto.
Qed.

Lemma NoDup_set_key (k : string) (v : A) kv :
  NoDup (map fst kv) -> NoDup (map fst (Js.set_key k v kv)).
Proof.
  intros Hkv. rewrite keys_set_key.
  destruct (existsb _ _) eqn:Hex; [exact Hkv|].
  apply NoDup_app. repeat split; [exact Hkv| |apply NoDup_singleton].
  intros x Hx ->%list_elem_of_singleton.
  assert (existsb (String.eqb k) (map fst kv) = true); [|congruence].
  apply existsb_exists. exists k.
  split; [now apply list_elem_of_In|apply String.eqb_refl].
Qed.

End objects.

(** The fields an object literal keeps once the undefined ones are
    dropped. *)
Lemma assoc_obj (k : string) (fields : list (string * jsv)) kv :
  NoDup (map fst fields) ->
  Js.obj fields = JObj kv ->
  Js.assoc k kv = match Js.assoc k fields with
                  | Some (Some v) => Some v
                  | _ => None
                  end.
Proof.
  unfold Js.obj. intros Hnd [= <-].
  induction fields as [|[k0 [v0|]] fields IH]; cbn in *; [reflexivity| |].
  - apply NoDup_cons in Hnd as [Hnotin Hnd].
    destruct (String.eqb_spec k k0) as [->|Hk]; [reflexivity|]. now apply IH.
  - apply NoDup_cons in Hnd as [Hnotin Hnd].
    destruct (String.eqb_spec k k0) as [->|Hk]; [|now apply IH].
    rewrite IH by done.
    apply assoc_None_notin in Hnotin. now rewrite Hnotin.
Qed.

Lemma obj_keys_in (k : string) (fields : list (string * jsv)) kv :
  Js.obj fields = JObj kv -> k ∈ map fst kv -> k ∈ map fst fields.
Proof.
  unfold Js.obj. intros [= <-].
  induction fields as [|[k0 [v0|]] fields IH]; cbn; [done| |].
  - rewrite !elem_of_cons. tauto.
  - rewrite elem_of_cons. tauto.
Qed.

Lemma NoDup_obj (fields : list (string * jsv)) kv :
  NoDup (map fst fields) -> Js.obj fields = JObj kv -> NoDup (map fst kv).
Proof.
  intros Hnd Hobj. revert kv Hobj.
  induction fields as [|[k0 [v0|]] fields IH]; intros kv [= <-]; cbn in *.
  - constructor.
  - apply NoDup_cons in Hnd as [Hnotin Hnd]. apply NoDup_cons.
    split; [|now apply IH].
    intros Hin. apply Hnotin. eapply obj_keys_in; [reflexivity|exact Hin].
  - apply NoDup_cons in Hnd as [Hnotin Hnd]. now apply IH.
Qed.

(** ** The index store *)

Section merge.

Import Store.

Lemma merge_json_obj patch old :
  merge_json (JObj patch) (JObj old) = JObj (merge_fields patch old).
Proof.
  reflexivity.
Qed.

(** A field of the merged document: a field of the patch replaces the
    field of the document, or merges with it when both are objects; any
    other field keeps its value. *)
Lemma assoc_merge_fields (k : string) patch old :
  NoDup (map fst patch) ->
  Js.assoc k (merge_fields patch old)
  = match Js.assoc k patch with
    | Some v => Some (match Js.assoc k old with
                      | Some ov => merge_json v ov
                      | None => v
                      end)
    | None => Js.assoc k old
    end.
Proof.
  revert old. induction patch as [|[k0 v0] patch IH]; intros old Hnd;
    cbn [merge_fields Js.assoc]; [reflexivity|]. cbn in Hnd.
  apply NoDup_cons in Hnd as [Hnotin Hnd].
  rewrite IH by done. rewrite assoc_set_key.
  destruct (String.eqb_spec k k0) as [->|Hk].
  - apply assoc_None_notin in Hnotin. now rewrite Hnotin.
  - reflexivity.
Qed.

End merge.
Section updateContact.

Import Store OpenSearchService.

Lemma spread_one {A} (a : list (string * A)) k v :
  Js.spread a [(k, v)] = Js.set_key k v a.
Proof. reflexivity. Qed.

Lemma updateContact_patches (E : Env) (s : St) (id : string)
    (updateData : list (string * jsv)) (ix : index) (fields : list (string * json)) :
  NoDup (map fst updateData) ->
  store s !! contactsIndex (cfg E) = Some ix ->
  docs ix !! id = Some (JObj fields) ->
  let now := toISOString E (clock E (trace s)) in
  os_fault E (trace s)
    (UpdateDoc (contactsIndex (cfg E)) (Some id) (update_doc updateData now))
  = None ->
  exists body fields' s',
    updateContact (Some (JStr id)) updateData E s = (Ret body, s') /\
    store s'
    = <[contactsIndex (cfg E) :=
          mkIndex (mappings ix) (<[id := JObj fields']> (docs ix)) (auto_docs ix)]>
        (store s) /\
    Js.assoc "modifiedOn" fields' = Some (JStr now) /\
    forall k,
      k <> "modifiedOn" ->
      Js.assoc k fields'
      = match Js.assoc k updateData with
        | Some (Some v) =>
            Some (match Js.assoc k fields with
                  | Some old => merge_json v old
                  | None => v
                  end)
        | _ => Js.assoc k fields
        end.
Proof.
  intros Hnd Hix Hdoc now Hfault.
  unfold updateContact. run. fold now.
  unfold opensearch. cbn [doc_id Js.to_string].
  rewrite Hfault. cbn [step]. rewrite Hix, Hdoc.
  destruct (update_doc updateData now) as [| | | | |patch] eqn:Hpatch;
    try discriminate.
  rewrite merge_json_obj. run.
  eexists _, (merge_fields patch fields), _.
  split; [reflexivity|]. split; [reflexivity|].
  unfold update_doc in Hpatch. rewrite spread_one in Hpatch.
  pose proof (NoDup_set_key "modifiedOn" (Js.str now) _ Hnd) as Hnd'.
  pose proof (NoDup_obj _ _ Hnd' Hpatch) as Hnd''.
  split.
  - rewrite assoc_merge_fields by done.
    rewrite (assoc_obj _ _ _ Hnd' Hpatch), assoc_set_key. cbn.
    now destruct (Js.assoc "modifiedOn" fields).
  - intros k Hk. rewrite assoc_merge_fields by done.
    rewrite (assoc_obj _ _ _ Hnd' Hpatch), assoc_set_key.
    destruct (String.eqb_spec k "modifiedOn") as [->|_]; [done|].
    now destruct (Js.assoc k updateData) as [[v|]|].
Qed.

(** C8.  [updateContact] on a record the index holds, with a store that
    can be reached: the record is replaced by one whose [modifiedOn] is
    the time of the update, whose provided fields are merged into the
    previous values, and whose other fields keep their previous values;
    no other record and no other index changes. *)
Theorem updateContact_merge_patch (E : Env) (s : St) (id : string)
    (updateData : list (string * jsv)) (ix : index) (fields : list (string * json)) :
  NoDup (map fst updateData) ->
  store s !! contactsIndex (cfg E) = Some ix ->
  docs ix !! id = Some (JObj fields) ->
  let now := toISOString E (clock E (trace s)) in
  os_fault E (trace s)
    (UpdateDoc (contactsIndex (cfg E)) (Some id) (update_doc updateData now))
  = None ->
  exists body fields' s',
    updateContact (Some (JStr id)) updateData E s = (Ret body, s') /\
    store s'
    = <[contactsIndex (cfg E) :=
          mkIndex (mappings ix) (<[id := JObj fields']> (docs ix)) (auto_docs ix)]>
        (store s) /\
    Js.assoc "modifiedOn" fields' = Some (JStr now) /\
    forall k,
      k <> "modifiedOn" ->
      Js.assoc k fields'
      = match Js.assoc k updateData with
        | Some (Some v) =>
            Some (match Js.assoc k fields with
                  | Some old => merge_json v old
                  | None => v
                  end)
        | _ => Js.assoc k fields
        end.
Proof. apply updateContact_patches. Qed.

End updateContact.
Section updateContact_run.

Import Store OpenSearchService.

Lemma updateContact_merge_patch_witness :
  let E := Demo.platform Demo.up Demo.no_fault in
  let updateData := [("moquiId", Js.str "PERSON_100"); ("syncStatus", Js.str "synced")] in
  NoDup (map fst updateData)
  /\ store Demo_index.indexed !! contactsIndex (cfg E) = Some Demo_index.contacts
  /\ docs Demo_index.contacts !! Demo_index.jane_id = Some Demo_index.jane_doc
  /\ exists body s' ix' doc',
       updateContact (Some (JStr Demo_index.jane_id)) updateData E Demo_index.indexed
       = (Ret body, s')
       /\ store s' !! "contacts" = Some ix'
       /\ docs ix' !! Demo_index.jane_id = Some doc'
       /\ doc'.["syncStatus"] = Some (JStr "synced")
       /\ doc'.["moquiId"] = Some (JStr "PERSON_100")
       /\ doc'.["fullName"] = Some (JStr "Jane Roe")
       /\ doc'.["emailAddress"] = Some (JStr "jane@x.com")
       /\ doc'.["modifiedOn"] = Some (JStr "2025-01-01T00:00:00.000Z").
Proof.
  cbv zeta.
  assert (Hnd : NoDup (map fst [("moquiId", Js.str "PERSON_100");
                                ("syncStatus", Js.str "synced")])).
  { apply (bool_decide_unpack _). vm_compute. reflexivity. }
  assert (Hix : store Demo_index.indexed
                !! contactsIndex (cfg (Demo.platform Demo.up Demo.no_fault))
                = Some Demo_index.contacts) by reflexivity.
  assert (Hdoc : docs Demo_index.contacts !! Demo_index.jane_id
                 = Some Demo_index.jane_doc) by reflexivity.
  repeat (split; [assumption|]).
  destruct (updateContact_merge_patch
              (Demo.platform Demo.up Demo.no_fault) Demo_index.indexed
              Demo_index.jane_id _ _ _ Hnd Hix Hdoc eq_refl)
    as (body & fields' & s' & Hrun & Hstore & Hmodified & Hfields).
  exists body, s', (mkIndex (mappings Demo_index.contacts)
                      (<[Demo_index.jane_id := JObj fields']>
                         (docs Demo_index.contacts))
                      (auto_docs Demo_index.contacts)), (JObj fields').
  split; [exact Hrun|]. rewrite Hstore.
  split; [apply lookup_insert_eq|].
  split; [apply lookup_insert_eq|].
  cbn [Prop_access.get_opt].
  rewrite (Hfields "syncStatus"), (Hfields "moquiId"), (Hfields "fullName"),
    (Hfields "emailAddress") by discriminate.
  rewrite Hmodified. repeat split.
Defined.

End updateContact_run.
(** ** Index bootstrap *)

Section bootstrap.

Import Store OpenSearchService.

Variable E : Env.

Hypothesis reachable : forall history op, os_fault E history op = None.

Let c : config := cfg E.

Lemma opensearch_reachable op s :
  opensearch op E s
  = let '(r, st') := step (cluster_status E (trace s)) (store s) op in
    (r, mkSt (trace s ++ [EOs op r]) st').
Proof. unfold opensearch. now rewrite reachable. Qed.

(** [ResetReferenceIndices] leaves no reference index behind. *)
Lemma ResetReferenceIndices_deletes s :
  exists new,
    ResetReferenceIndices E s
    = (Ret tt, mkSt (trace s ++ new) (delete (referenceIndex c) (store s)))
    /\ (is_Some (store s !! referenceIndex c) ->
        In (EOs (IndicesDelete (referenceIndex c))
              (Ret (JObj [("acknowledged", JBool true)]))) new).
Proof.
  unfold ResetReferenceIndices. run. fold c.
  rewrite opensearch_reachable. cbn [step].
  destruct (store s !! referenceIndex c) as [ix|] eqn:Hix.
  - rewrite bool_decide_eq_true_2 by eauto. cbn [Js.truthy]. run.
    rewrite opensearch_reachable. cbn [step trace store]. rewrite Hix. run.
    eexists. rewrite <- !app_assoc. split; [reflexivity|].
    intros _. cbn. tauto.
  - rewrite bool_decide_eq_false_2 by (intros [? ?]; discriminate).
    cbn [Js.truthy]. run.
    eexists. split; [rewrite delete_id by done; reflexivity|].
    intros [? ?]; discriminate.
Qed.


Lemma create_if_absent (name : string) (m : json) (msg : string) s :
  exists new,
    forall (A : Type) (k : M A),
      (let* present := opensearch (IndicesExists name) in
       (if negb (Js.truthy (Some present)) then
          opensearch (IndicesCreate name m);; logger.info msg
        else ret tt);;
       k) E s
      = k E (mkSt (trace s ++ new) (ensured (store s) name m)).
Proof.
  unfold ensured.
  destruct (store s !! name) as [ix|] eqn:Hix.
  - eexists. intros A k. run. rewrite opensearch_reachable. cbn [step].
    rewrite Hix.
    rewrite bool_decide_eq_true_2 by eauto. cbn [Js.truthy negb]. run.
    reflexivity.
  - eexists. intros A k. run. rewrite opensearch_reachable. cbn [step].
    rewrite Hix.
    rewrite bool_decide_eq_false_2 by (intros [? ?]; discriminate).
    cbn [Js.truthy negb]. run.
    rewrite opensearch_reachable. cbn [step trace store]. rewrite Hix. run.
    rewrite <- !app_assoc. reflexivity.
Qed.

Lemma create_if_absent_last (name : string) (m : json) (msg : string) s :
  exists new,
    (let* present := opensearch (IndicesExists name) in
     if negb (Js.truthy (Some present)) then
       opensearch (IndicesCreate name m);; logger.info msg
     else ret tt) E s
    = (Ret tt, mkSt (trace s ++ new) (ensured (store s) name m)).
Proof.
  unfold ensured.
  destruct (store s !! name) as [ix|] eqn:Hix.
  - eexists. run. rewrite opensearch_reachable. cbn [step].
    rewrite Hix.
    rewrite bool_decide_eq_true_2 by eauto. cbn [Js.truthy negb]. run.
    reflexivity.
  - eexists. run. rewrite opensearch_reachable. cbn [step].
    rewrite Hix.
    rewrite bool_decide_eq_false_2 by (intros [? ?]; discriminate).
    cbn [Js.truthy negb]. run.
    rewrite opensearch_reachable. cbn [step trace store]. rewrite Hix. run.
    rewrite <- !app_assoc. reflexivity.
Qed.

Lemma create_and_seed s :
  store s !! referenceIndex c = None ->
  exists new now,
    (forall (A : Type) (k : M A),
       (let* present := opensearch (IndicesExists (referenceIndex c)) in
        (if negb (Js.truthy (Some present)) then
           opensearch (IndicesCreate (referenceIndex c) reference_mappings);;
           logger.info ("Created reference data index: " +:+ referenceIndex c);;
           seedReferenceData
         else ret tt);;
        k) E s
       = k E (mkSt (trace s ++ new)
                (<[referenceIndex c := seeded now]> (store s))))
    /\ In (EOs (IndicesCreate (referenceIndex c) reference_mappings)
             (Ret (JObj [("acknowledged", JBool true)]))) new
    /\ In (EOs (Bulk (referenceIndex c) (map (seed_doc now) referenceData))
             (Ret (JObj [("errors", JBool false)]))) new.
Proof.
  intros Habsent. eexists _, _. split.
  - intros A k. run. rewrite opensearch_reachable. cbn [step].
    rewrite Habsent.
    rewrite bool_decide_eq_false_2 by (intros [? ?]; discriminate).
    cbn [Js.truthy negb]. run.
    rewrite opensearch_reachable. cbn [step trace store]. rewrite Habsent. run.
    unfold seedReferenceData. run. fold c.
    rewrite opensearch_reachable. cbn [step trace store].
    unfold index_for_write. rewrite lookup_insert_eq. cbn [default].
    run. rewrite insert_insert_eq.
    rewrite <- !app_assoc. reflexivity.
  - cbn. tauto.
Qed.


Hypothesis healthy : forall history, cluster_status E history <> "red".

Hypothesis distinct :
  contactsIndex c <> referenceIndex c
  /\ notificationsIndex c <> referenceIndex c
  /\ contactsIndex c <> notificationsIndex c.

Lemma lookup_ensured st name m i :
  ensured st name m !! i
  = if decide (name = i) then Some (default (empty_index m) (st !! name))
    else st !! i.
Proof.
  unfold ensured. destruct (st !! name) as [ix|] eqn:Hix.
  - case_decide; subst; [now rewrite Hix|reflexivity].
  - rewrite lookup_insert. case_decide; [|reflexivity]. done.
Qed.

Lemma ensureIndices_creates s :
  store s !! referenceIndex c = None ->
  exists new now,
    ensureIndices E s
    = (Ret tt,
       mkSt (trace s ++ new)
         (ensured (<[referenceIndex c := seeded now]>
                     (ensured (store s) (contactsIndex c) contacts_mappings))
            (notificationsIndex c) notifications_mappings))
    /\ In (EOs (IndicesCreate (referenceIndex c) reference_mappings)
             (Ret (JObj [("acknowledged", JBool true)]))) new
    /\ In (EOs (Bulk (referenceIndex c) (map (seed_doc now) referenceData))
             (Ret (JObj [("errors", JBool false)]))) new.
Proof.
  intros Habsent. destruct distinct as (Hcr & Hnr & Hcn).
  unfold ensureIndices.
  unfold bind at 1, ask at 1, try_catch. fold c.
  destruct (create_if_absent (contactsIndex c) contacts_mappings
              ("Created contacts index: " +:+ contactsIndex c) s)
    as (new1 & ->).
  match goal with
  | |- context [bind (opensearch (IndicesExists (referenceIndex c))) _ E ?s1] =>
      destruct (create_and_seed s1) as (new2 & now & -> & Hcreate & Hbulk)
  end.
  { cbn [store]. rewrite lookup_ensured. now case_decide. }
  match goal with
  | |- context [bind (opensearch (IndicesExists (notificationsIndex c))) _ E ?s2] =>
      destruct (create_if_absent_last (notificationsIndex c)
                  notifications_mappings
                  ("Created notifications index: " +:+ notificationsIndex c) s2)
        as (new3 & ->)
  end.
  cbn [trace store].
  exists (new1 ++ new2 ++ new3)%list, now. rewrite !app_assoc.
  split; [reflexivity|].
  rewrite !in_app_iff. tauto.
Qed.

(** On a reachable and healthy cluster the bootstrap succeeds at the
    first attempt. *)
Lemma initialize_first_attempt s :
  exists new now,
    initialize E s
    = (Ret tt,
       mkSt (trace s ++ new)
         (ensured (<[referenceIndex c := seeded now]>
                     (ensured (delete (referenceIndex c) (store s))
                        (contactsIndex c) contacts_mappings))
            (notificationsIndex c) notifications_mappings))
    /\ (is_Some (store s !! referenceIndex c) ->
        In (EOs (IndicesDelete (referenceIndex c))
              (Ret (JObj [("acknowledged", JBool true)]))) new)
    /\ In (EOs (IndicesCreate (referenceIndex c) reference_mappings)
             (Ret (JObj [("acknowledged", JBool true)]))) new
    /\ In (EOs (Bulk (referenceIndex c) (map (seed_doc now) referenceData))
             (Ret (JObj [("errors", JBool false)]))) new.
Proof.
  unfold initialize. change (Z.to_nat maxRetries) with 5%nat.
  cbn [initialize_loop]. change (0 <? maxRetries)%Z with true. cbv iota.
  unfold bind at 1, try_catch, initialize_try, bind at 1.
  rewrite opensearch_reachable. cbn [step Prop_access.get Js.assoc].
  unfold bind at 1, lift at 1. cbn [String.eqb Ascii.eqb Bool.eqb Js.is_str].
  destruct (String.eqb_spec (cluster_status E (trace s)) "red") as [Hred|_];
    [now apply healthy in Hred|].
  cbn [negb]. run.
  match goal with
  | |- context [ResetReferenceIndices E ?s1] =>
      destruct (ResetReferenceIndices_deletes s1) as (new1 & -> & Hdelete)
  end.
  match goal with
  | |- context [ensureIndices E ?s2] =>
      destruct (ensureIndices_creates s2) as (new2 & now & -> & Hcreate & Hbulk)
  end.
  { cbn [store]. apply lookup_delete_eq. }
  cbn [trace store]. eexists _, now. rewrite <- !app_assoc.
  split; [reflexivity|].
  cbn [app In]. rewrite !in_app_iff. tauto.
Qed.



End bootstrap.

Section bootstrap_property.

Import Store OpenSearchService.

(** C9.  On a store that can be reached and is not red, [initialize]
    succeeds at its first attempt: the reference index is deleted when
    it exists, created again and seeded with the static rows, so that it
    holds these rows only; the contacts and the notifications indices
    are created when absent and are otherwise left as they were; no
    other index is touched. *)
Theorem bootstrap_resets_reference_data_only (E : Env) (s : St) :
  (forall history op, os_fault E history op = None) ->
  (forall history, cluster_status E history <> "red") ->
  let c := cfg E in
  contactsIndex c <> referenceIndex c
  /\ notificationsIndex c <> referenceIndex c
  /\ contactsIndex c <> notificationsIndex c ->
  exists s' new now,
    initialize E s = (Ret tt, s') /\ trace s' = (trace s ++ new)%list /\
    (* the reference data: deleted when present, created again, seeded *)
    (is_Some (store s !! referenceIndex c) ->
     In (EOs (IndicesDelete (referenceIndex c))
           (Ret (JObj [("acknowledged", JBool true)]))) new) /\
    In (EOs (IndicesCreate (referenceIndex c) reference_mappings)
          (Ret (JObj [("acknowledged", JBool true)]))) new /\
    In (EOs (Bulk (referenceIndex c) (map (seed_doc now) referenceData))
          (Ret (JObj [("errors", JBool false)]))) new /\
    store s' !! referenceIndex c = Some (seeded now) /\
    (* the records and the notifications: created only if absent *)
    store s' !! contactsIndex c
    = Some (default (empty_index contacts_mappings)
              (store s !! contactsIndex c)) /\
    store s' !! notificationsIndex c
    = Some (default (empty_index notifications_mappings)
              (store s !! notificationsIndex c)) /\
    (* nothing else is touched *)
    forall i,
      i <> referenceIndex c -> i <> contactsIndex c ->
      i <> notificationsIndex c ->
      store s' !! i = store s !! i.
Proof.
  intros Hreach Hhealthy c (Hcr & Hnr & Hcn).
  destruct (initialize_first_attempt E Hreach Hhealthy (conj Hcr (conj Hnr Hcn)) s)
    as (new & now & Hrun & Hdelete & Hcreate & Hbulk).
  fold c in Hrun, Hdelete, Hcreate, Hbulk.
  eexists _, new, now. split; [exact Hrun|]. cbn [trace store].
  split; [reflexivity|].
  repeat (split; [assumption|]).
  rewrite !lookup_ensured.
  repeat split.
  - rewrite decide_False by done. apply lookup_insert_eq.
  - rewrite decide_False by done. rewrite lookup_insert_ne by done.
    rewrite lookup_ensured, decide_True by done.
    now rewrite lookup_delete_ne by done.
  - rewrite decide_True by done. rewrite lookup_insert_ne by done.
    rewrite lookup_ensured, decide_False by done.
    now rewrite lookup_delete_ne by done.
  - intros i Hr Hc Hn. rewrite lookup_ensured, decide_False by done.
    rewrite lookup_insert_ne by done.
    rewrite lookup_ensured, decide_False by done.
    now rewrite lookup_delete_ne by done.
Qed.

End bootstrap_property.
Section bootstrap_run.

Import Store OpenSearchService.

Lemma bootstrap_resets_reference_data_only_witness :
  let E := Demo.platform Demo.up Demo.no_fault in
  (forall history op, os_fault E history op = None)
  /\ (forall history, cluster_status E history <> "red")
  /\ is_Some (store Demo_index.stale !! "reference-data")
  /\ exists s' now,
       initialize E Demo_index.stale = (Ret tt, s')
       /\ store s' !! "reference-data" = Some (seeded now)
       /\ store s' !! "contacts" = Some Demo_index.contacts
       /\ store s' !! "notifications" = Some (empty_index notifications_mappings).
Proof.
  cbv zeta. split; [reflexivity|]. split; [discriminate|].
  split; [now eexists|].
  destruct (bootstrap_resets_reference_data_only
              (Demo.platform Demo.up Demo.no_fault) Demo_index.stale)
    as (s' & new & now & Hrun & Htrace & _ & _ & Hbulk & Href & Hcontacts
        & Hnotifications & _).
  - reflexivity.
  - discriminate.
  - repeat split; discriminate.
  - exists s', now. split; [exact Hrun|].
    change (referenceIndex _) with "reference-data" in *.
    change (contactsIndex _) with "contacts" in *.
    change (notificationsIndex _) with "notifications" in *.
    rewrite Hcontacts, Hnotifications. repeat split. exact Href.
Defined.

End bootstrap_run.
(** ** The retries of the bootstrap *)

Section initialize_retry.

Import Store OpenSearchService.













End initialize_retry.
(** ** The signature of a webhook *)

Section signature.

Import crypto webhookController.

Lemma be_bytes_length n x : length (be_bytes n x) = n.
Proof.
  revert x. induction n as [|n IH]; intros x; cbn [be_bytes]; [reflexivity|].
  rewrite length_app, IH. cbn. lia.
Qed.

Lemma sha256_length msg : length (sha256 msg) = 32%nat.
Proof.
  unfold sha256, words_bytes. now rewrite !length_app, !be_bytes_length.
Qed.

Lemma hex_length bytes : String.length (hex bytes) = (2 * length bytes)%nat.
Proof. induction bytes as [|b rest IH]; cbn; [reflexivity|]. rewrite IH. lia. Qed.

(** A hex digest of HMAC-SHA256 has 64 characters. *)
Lemma hmac_hex_length key msg : String.length (hmac_hex key msg) = 64%nat.
Proof. unfold hmac_hex, hmac_sha256. now rewrite hex_length, sha256_length. Qed.

Lemma all_equal_eq a b :
  all_equal (list_ascii_of_string a) (list_ascii_of_string b) = true <-> a = b.
Proof.
  revert b. induction a as [|x a IH]; intros [|y b]; cbn; try (split; done).
  rewrite andb_true_iff, IH, Ascii.eqb_eq. split; [intros [-> ->]|intros [= -> ->]]; done.
Qed.


(** A signature of another length than the digest makes the comparison
    throw. *)
Lemma wrong_length_throws (E : Env) (s : St) (r : req)
    (sig payload : string) :
  signature r = Some sig ->
  sig <> "" ->
  rawBody r = Some payload ->
  String.length sig <> 64%nat ->
  post_gitea r E s
  = (Throw range_error,
     mkSt (trace s ++ [ELog Debug "Verifying webhook signature"]) (store s)).
Proof.
  intros Hsig Hne Hbody Hlen.
  unfold post_gitea, verifyWebhookSignature. run.
  rewrite Hsig, Hbody. cbn [Js.truthy_str hmac_update default from_option id].
  destruct (String.eqb_spec sig "") as [|_]; [done|]. cbn [negb]. run.
  unfold timingSafeEqual. rewrite hmac_hex_length.
  destruct (Nat.eqb_spec (String.length sig) 64); [done|]. reflexivity.
Qed.



(** Without a signature the middleware answers 401. *)
Lemma missing_signature_401 (E : Env) (s : St) (r : req) :
  Js.truthy_str (signature r) = false ->
  post_gitea r E s
  = (Ret (mkResponse 401 (JObj [("error", JStr "Missing signature")])),
     mkSt (trace s ++ [ELog Warn "Webhook received without signature"])
       (store s)).
Proof.
  intros Hsig. unfold post_gitea, verifyWebhookSignature. run.
  rewrite Hsig. reflexivity.
Qed.

(** A signature of the length of the digest that differs from it is
    answered 401. *)
Lemma wrong_signature_401 (E : Env) (s : St) (r : req) (sig payload : string) :
  signature r = Some sig ->
  rawBody r = Some payload ->
  String.length sig = 64%nat ->
  sig <> hmac_hex (WEBHOOK_SECRET (cfg E)) payload ->
  post_gitea r E s
  = (Ret (mkResponse 401 (JObj [("error", JStr "Invalid signature")])),
     mkSt (trace s ++ [ELog Debug "Verifying webhook signature";
                       ELog Warn "Webhook signature verification failed"])
       (store s)).
Proof.
  intros Hsig Hbody Hlen Hne.
  unfold post_gitea, verifyWebhookSignature. run.
  rewrite Hsig, Hbody. cbn [Js.truthy_str hmac_update default from_option id].
  destruct (String.eqb_spec sig "") as [->|_]; [discriminate|]. cbn [negb]. run.
  unfold timingSafeEqual. rewrite hmac_hex_length, Hlen. cbn [Nat.eqb].
  destruct (all_equal _ _) eqn:Heq; [now apply all_equal_eq in Heq|].
  cbn [negb]. run. now rewrite <- app_assoc.
Qed.

(** The signature the middleware accepts. *)
Lemma signed_passes (E : Env) (s : St) (r : req) (payload : string) :
  rawBody r = Some payload ->
  signature r = Some (hmac_hex (WEBHOOK_SECRET (cfg E)) payload) ->
  verifyWebhookSignature r E s
  = (Ret Next,
     mkSt (trace s ++ [ELog Debug "Verifying webhook signature"]) (store s)).
Proof.
  intros Hbody Hsig. unfold verifyWebhookSignature. run.
  rewrite Hsig, Hbody. cbn [Js.truthy_str hmac_update default from_option id].
  destruct (String.eqb_spec (hmac_hex (WEBHOOK_SECRET (cfg E)) payload) "")
    as [Hempty|_].
  { pose proof (hmac_hex_length (WEBHOOK_SECRET (cfg E)) payload) as Hlen.
    now rewrite Hempty in Hlen. }
  cbn [negb]. run.
  unfold timingSafeEqual. rewrite Nat.eqb_refl.
  now rewrite (proj2 (all_equal_eq _ _) eq_refl).
Qed.

(** Whatever the signature, a request that is not signed with the
    secret never reaches the handler: nothing is called, the store keeps
    its state, and the outcome is a 401 or an exception. *)
Lemma unsigned_webhook_has_no_effect (E : Env) (s : St) (r : req) :
  (forall payload,
     rawBody r = Some payload ->
     signature r <> Some (hmac_hex (WEBHOOK_SECRET (cfg E)) payload)) ->
  exists o logs,
    post_gitea r E s = (o, mkSt (trace s ++ logs) (store s)) /\
    only_logs logs /\
    match o with
    | Ret res => status res = 401
    | Throw e => name e = "RangeError" \/ name e = "TypeError"
    end.
Proof.
  intros Hunsigned.
  destruct (Js.truthy_str (signature r)) eqn:Htruthy.
  2:{ rewrite missing_signature_401 by done. eexists _, _.
      split; [reflexivity|]. split; [|reflexivity]. now repeat constructor. }
  destruct (signature r) as [sig|] eqn:Hsig; [|discriminate].
  destruct (rawBody r) as [payload|] eqn:Hbody.
  - destruct (Nat.eq_dec (String.length sig) 64%nat) as [Hlen|Hlen].
    + rewrite (wrong_signature_401 E s r sig payload) by
        (try done; intros ->; now apply (Hunsigned payload)).
      eexists _, _. split; [reflexivity|]. split; [|reflexivity].
      now repeat constructor.
    + rewrite (wrong_length_throws E s r sig payload);
        try done.
      * eexists _, _. split; [reflexivity|]. split; [|now left].
        now repeat constructor.
      * intros ->. discriminate.
  - unfold post_gitea, verifyWebhookSignature. run.
    rewrite Hsig, Hbody, Htruthy. cbn [negb hmac_update]. run.
    exists (Throw (mkExn "TypeError"
               "The data argument must be of type string or an instance of Buffer, TypedArray, or DataView. Received undefined"
               None)), [].
    rewrite app_nil_r. split; [now destruct s|]. split; [constructor|now right].
Qed.

End signature.
(** ** The merge webhook *)

Section merged_webhook.

Import webhookController.

(** A title that does not match [/Add Contact: (.+)/]: no contact data. *)
Lemma extract_without_match (pullRequest : json) E s :
  (forall title,
     pullRequest.["title"] = Some (JStr title) ->
     Regex.group_after "Add Contact: " title = None) ->
  exists logs,
    extractContactDataFromPR pullRequest E s
    = (Ret None, mkSt (trace s ++ logs) (store s))
    /\ only_logs logs.
Proof.
  intros Htitle. unfold extractContactDataFromPR. run.
  destruct (pullRequest.["title"]) as [[| | |title| |]|] eqn:Ht;
    cbn [MoquiService.as_string]; run.
  4:{ rewrite (Htitle title eq_refl). run.
      exists []. rewrite app_nil_r. split; [now destruct s|constructor]. }
  all: eexists; split; [reflexivity|]; now repeat constructor.
Qed.

(** C10.  A correctly signed webhook of a merged pull request whose
    title does not hold the pattern of a contact is answered with the
    status 200 and [success: true]; the handler only logs: no request to
    Moqui or Gitea, no call to the index store, no pause, and the store
    is unchanged. *)
Theorem non_contact_merge_is_ignored (E : Env) (s : St) (r : req)
    (raw : string) (pullRequest : json) :
  (* correctly signed *)
  rawBody r = Some raw ->
  signature r = Some (crypto.hmac_hex (WEBHOOK_SECRET (cfg E)) raw) ->
  (* a merged pull request *)
  (parsed r).["action"] = Some (JStr "closed") ->
  (parsed r).["pull_request"] = Some pullRequest ->
  Js.truthy (Some pullRequest) = true ->
  Js.truthy pullRequest.["merged"] = true ->
  (* whose title does not match *)
  (forall title,
     pullRequest.["title"] = Some (JStr title) ->
     Regex.group_after "Add Contact: " title = None) ->
  exists res logs,
    post_gitea r E s = (Ret res, mkSt (trace s ++ logs) (store s)) /\
    only_logs logs /\
    status res = 200 /\
    (payload res).["success"] = Some (JBool true).
Proof.
  intros Hbody Hsig Haction Hpr Htruthy Hmerged Htitle.
  unfold post_gitea, bind at 1. rewrite (signed_passes E s r raw Hbody Hsig).
  unfold gitea_handler. run. rewrite Haction, Hpr, Htruthy.
  cbn [Js.is_str String.eqb Ascii.eqb Bool.eqb andb default from_option id].
  change (Prop_access.get_opt (Some pullRequest) "merged")
    with (pullRequest.["merged"]). rewrite Hmerged.
  unfold handlePullRequestMerged. run.
  match goal with
  | |- context [extractContactDataFromPR pullRequest E ?s1] =>
      destruct (extract_without_match pullRequest E s1 Htitle)
        as (logs & -> & Hlogs)
  end.
  run. eexists _, _. rewrite <- !app_assoc. split; [reflexivity|].
  split; [|split; reflexivity].
  repeat (constructor; [done|]). apply Forall_app. split; [exact Hlogs|].
  now repeat constructor.
Qed.

End merged_webhook.
Section webhook_runs.

Import webhookController.

Lemma non_contact_merge_is_ignored_witness :
  let E := Demo.platform Demo.up Demo.no_fault in
  let r := Demo_webhook.unrelated_merge in
  (exists raw, rawBody r = Some raw
               /\ signature r = Some (crypto.hmac_hex (WEBHOOK_SECRET (cfg E)) raw))
  /\ Regex.group_after "Add Contact: " "Update README" = None
  /\ exists res s',
       post_gitea r E Demo_index.indexed = (Ret res, s')
       /\ status res = 200
       /\ store s' = store Demo_index.indexed
       /\ filter (fun ev => Trace.is_call ev = true) (trace s') = [].
Proof.
  cbv zeta.
  split; [eexists; split; [reflexivity|vm_compute; reflexivity]|].
  split; [reflexivity|].
  destruct (non_contact_merge_is_ignored
              (Demo.platform Demo.up Demo.no_fault) Demo_index.indexed
              Demo_webhook.unrelated_merge _
              (JObj [("number", JNum 12); ("title", JStr "Update README");
                     ("merged", JBool true)])
              eq_refl)
    as (res & logs & Hrun & Hlogs & Hstatus & _).
  - vm_compute. reflexivity.
  - reflexivity.
  - reflexivity.
  - reflexivity.
  - reflexivity.
  - intros title [= <-]. reflexivity.
  - eexists res, _. split; [exact Hrun|]. split; [exact Hstatus|].
    split; [reflexivity|]. cbn [trace Demo_index.indexed app].
    clear -Hlogs. induction Hlogs as [|ev logs [Hev _] _ IH]; [reflexivity|].
    rewrite filter_cons, decide_False by congruence. exact IH.
Defined.

(** C2, where the code departs from it.  A webhook with a raw body whose
    signature header is not empty and has another length than the 64
    characters of the digest makes [crypto.timingSafeEqual] throw a
    RangeError: the middleware does not answer 401, the exception goes
    to the error handler of the application.  The store is unchanged
    and only the debug line was logged. *)
Theorem signature_of_wrong_length_throws (E : Env) (s : St) (r : req)
    (sig raw : string) :
  signature r = Some sig ->
  sig <> "" ->
  rawBody r = Some raw ->
  String.length sig <> 64%nat ->
  post_gitea r E s
  = (Throw range_error,
     mkSt (trace s ++ [ELog Debug "Verifying webhook signature"]) (store s)).
Proof. apply wrong_length_throws. Qed.

Lemma signature_of_wrong_length_throws_witness :
  let E := Demo.platform Demo.up Demo.no_fault in
  signature Demo_webhook.forged = Some "deadbeef"
  /\ String.length "deadbeef" <> 64%nat
  /\ post_gitea Demo_webhook.forged E Demo_index.indexed
     = (Throw range_error,
        mkSt [ELog Debug "Verifying webhook signature"]
          (store Demo_index.indexed)).
Proof.
  cbv zeta. split; [reflexivity|]. split; [discriminate|].
  exact (signature_of_wrong_length_throws
           (Demo.platform Demo.up Demo.no_fault) Demo_index.indexed
           Demo_webhook.forged "deadbeef" _ eq_refl
           ltac:(discriminate) eq_refl ltac:(discriminate)).
Defined.

End webhook_runs.
(** ** The indices a computation leaves alone *)

Lemma step_frame status st op i :
  Store_frame.written op <> Some i ->
  snd (Store.step status st op) !! i = st !! i.
Proof.
  intros Hop.
  destruct op as [|j|j m|j|j [d|] doc|j [d|] doc|j ds]; cbn in *;
    try reflexivity;
    try (assert (j <> i) by congruence);
    repeat match goal with
           | |- context [match ?x with _ => _ end] => destruct x eqn:?
           end;
    cbn; rewrite ?lookup_insert_ne, ?lookup_delete_ne by done; reflexivity.
Qed.


Section framed.

Context {A B : Type} (E : Env) (keep : string -> Prop).

Lemma framed_nothing (m : M A) :
  (forall s, store (snd (m E s)) = store s) -> framed E keep m.
Proof. intros H s i _. now rewrite H. Qed.

Lemma framed_bind (m : M A) (k : A -> M B) :
  framed E keep m -> (forall a, framed E keep (k a)) -> framed E keep (bind m k).
Proof.
  intros Hm Hk s i Hi. unfold bind. specialize (Hm s i Hi).
  destruct (m E s) as [[a|e] s1]; cbn [snd] in *; [|exact Hm].
  now rewrite (Hk a s1 i Hi).
Qed.

Lemma framed_try_catch (m : M A) (h : exn -> M A) :
  framed E keep m -> (forall e, framed E keep (h e)) ->
  framed E keep (try_catch m h).
Proof.
  intros Hm Hh s i Hi. unfold try_catch. specialize (Hm s i Hi).
  destruct (m E s) as [[a|e] s1]; cbn [snd] in *; [exact Hm|].
  now rewrite (Hh e s1 i Hi).
Qed.

Lemma framed_opensearch op :
  (forall i, keep i -> Store_frame.written op <> Some i) ->
  framed E keep (opensearch op).
Proof.
  intros Hop s i Hi. unfold opensearch.
  destruct (os_fault E (trace s) op); [reflexivity|].
  pose proof (step_frame (cluster_status E (trace s)) (store s) op i (Hop i Hi)).
  now destruct (Store.step _ _ _).
Qed.

Lemma framed_ask_bind {C} (f : Env -> C) (k : C -> M A) :
  framed E keep (k (f E)) -> framed E keep (bind (ask f) k).
Proof. intros H s i Hi. exact (H s i Hi). Qed.

End framed.

Ltac framed_step :=
  lazymatch goal with
  | |- framed _ _ (let _ := _ in _) => cbv zeta
  | |- framed _ _ (bind _ _) => apply framed_bind; [|intro]
  | |- framed _ _ (try_catch _ _) => apply framed_try_catch; [|intro]
  | |- framed _ _ (if ?b then _ else _) => destruct b
  | |- framed _ _ (opensearch _) => apply framed_opensearch
  | |- framed _ _ _ => apply framed_nothing; reflexivity
  end.

Section sendNotification.

Import NotificationService.

(** A notification is written to the notifications index only. *)
Lemma sendNotification_frame E notification :
  framed E (fun i => i <> notificationsIndex (cfg E)) (sendNotification notification).
Proof.
  unfold sendNotification. apply framed_ask_bind.
  repeat framed_step.
  all: intros i Hi; cbn [Store_frame.written]; congruence.
Qed.

End sendNotification.
Section propagation.

Import Store OpenSearchService webhookController.

(** [createContact] reports a failure in its result and never throws;
    it calls the Moqui host only. *)
Lemma createContact_returns contactData E s :
  exists result calls,
    MoquiService.createContact contactData E s
    = (Ret result, mkSt (trace s ++ calls) (store s))
    /\ Forall not_store calls.
Proof.
  destruct (createContact_not_store contactData E s)
    as (calls & Hadd & Hcalls & Hstore).
  specialize (Hstore Hcalls). revert Hadd Hstore.
  unfold MoquiService.createContact, try_catch, Trace.added.
  destruct (MoquiService.createContact_try contactData E s) as [[r|e] [tr st]].
  - cbn. intros -> ->. eauto.
  - run. intros -> ->. eauto.
Qed.

Lemma extract_only_logs pullRequest :
  traced not_store (extractContactDataFromPR pullRequest).
Proof. unfold extractContactDataFromPR. traced_auto. Qed.



End propagation.
Section propagation_runs.

Import Store OpenSearchService webhookController.



End propagation_runs.
Section validation.

Import Joi cdmModels.

Context (E : Env).


Lemma rules_errors_all (p : prefs) key value rules :
  abortEarly p = false ->
  rules_errors E p key value rules
  = flat_map (rule_error E key value) rules.
Proof.
  intros Hall. induction rules as [|r rest IH]; [reflexivity|].
  cbn [rules_errors flat_map]. rewrite Hall, <- IH.
  destruct (rule_error E key value r); reflexivity.
Qed.






End validation.

Local Transparent String.append.


Lemma append_nil_r (a : string) : a +:+ "" = a.
Proof.
  induction a as [|ch a IH]; [reflexivity|].
  change (String ch (a +:+ "") = String ch a). now rewrite IH.
Qed.


Local Opaque String.append.

Section transformToCdmContact.

Import Joi cdmModels.

Context (E : Env).



End transformToCdmContact.

Section transformToCdmContact_run.

Import Joi cdmModels.

(** A form without a name and with a malformed phone number: the error
    names the three fields. *)
Lemma transformToCdmContact_names_three_fields :
  let E := Demo.platform Demo.up Demo.no_fault in
  let formData :=
    JObj [("phone", JStr "call me"); ("preferredContactMethod", JStr "fax")] in
  fst (transformToCdmContact formData None E Demo.start)
  = Throw (Error ("CDM Contact validation failed: "
                    +:+ label "fullName" +:+ " is not allowed to be empty, "
                    +:+ label "emailAddress" +:+ " is required, "
                    +:+ label "phoneNumber" +:+ " with value "
                    +:+ Str.dq +:+ "call me" +:+ Str.dq
                    +:+ " fails to match the required pattern: /^[\+]?[0-9\s\-\(\)]+$/, "
                    +:+ label "preferredContactMethod"
                    +:+ " must be one of [email, phone, mail]")).
Proof. vm_compute. reflexivity. Qed.

End transformToCdmContact_run.
Section retry_runs.
Import OpenSearchService dataController.


End retry_runs.

Section single_calls.

Import GiteaService OpenSearchService.

Context (E : Env) (s : St).









End single_calls.

Section retries.

Import GiteaService OpenSearchService dataController.


End retries.

Section retry_policy_run.

Import GiteaService OpenSearchService dataController.


End retry_policy_run.
(** * The mock of the Moqui framework *)

Section spread.

Context {A : Type}.

(** The last binding of a key in [b] wins in [{...a, ...b}]. *)
Lemma assoc_spread (k : string) (a b : list (string * A)) :
  Js.assoc k (Js.spread a b)
  = match Js.assoc k (rev b) with
    | Some v => Some v
    | None => Js.assoc k a
    end.
Proof.
  unfold Js.spread. revert a.
  induction b as [|[k0 v0] b IH] using rev_ind; intros a; [reflexivity|].
  rewrite fold_left_app, rev_app_distr. cbn.
  rewrite assoc_set_key. destruct (String.eqb k k0); [reflexivity|]. apply IH.
Qed.

Lemma assoc_spread_absent (k : string) (a b : list (string * A)) :
  Js.assoc k b = None -> Js.assoc k (Js.spread a b) = Js.assoc k a.
Proof.
  intros Hb. rewrite assoc_spread.
  assert (Js.assoc k (rev b) = None) as ->; [|reflexivity].
  apply assoc_None_notin. apply assoc_None_notin in Hb.
  intros Hin%list_elem_of_In. apply Hb, list_elem_of_In.
  rewrite map_rev in Hin. now apply in_rev in Hin.
Qed.

Lemma set_key_length (k : string) (v : A) kv :
  (length kv <= length (Js.set_key k v kv))%nat.
Proof.
  induction kv as [|[k0 v0] kv IH]; cbn; [lia|].
  destruct (String.eqb k k0); cbn; lia.
Qed.

Lemma set_key_In (k : string) (v : A) kv : In v (map snd (Js.set_key k v kv)).
Proof.
  induction kv as [|[k0 v0] kv IH]; cbn; [now left|].
  destruct (String.eqb k k0); cbn; [now left|now right].
Qed.

Lemma set_key_values (P : A -> Prop) (k : string) (v : A) kv :
  P v -> Forall P (map snd kv) -> Forall P (map snd (Js.set_key k v kv)).
Proof.
  intros Hv. induction kv as [|[k0 v0] kv IH]; cbn.
  - repeat constructor. exact Hv.
  - intros [H0 Hkv]%Forall_cons. destruct (String.eqb k k0); cbn.
    + constructor; assumption.
    + constructor; [exact H0|]. now apply IH.
Qed.

End spread.
Local Transparent String.append.

Lemma prefix_slice (a s : string) :
  String.prefix a s = true -> s = a +:+ mock_moqui.slice (String.length a) s.
Proof.
  revert s. induction a as [|c a IH]; intros s; [reflexivity|].
  destruct s as [|d s]; cbn [String.prefix]; [discriminate|].
  destruct (ascii_dec c d) as [->|]; [|discriminate].
  intros H. change (String d s = String d (a +:+ mock_moqui.slice (String.length a) s)).
  now rewrite <- IH.
Qed.

Lemma prefix_append (a s : string) : String.prefix a (a +:+ s) = true.
Proof.
  induction a as [|c a IH]; [now destruct s|].
  change (String c a +:+ s) with (String c (a +:+ s)). cbn [String.prefix].
  now destruct (ascii_dec c c).
Qed.

Lemma slice_append (a s : string) : mock_moqui.slice (String.length a) (a +:+ s) = s.
Proof. induction a as [|c a IH]; [reflexivity|exact IH]. Qed.

Local Opaque String.append.

Section mock_authentication.

Import mock_moqui mock_session.

Lemma authenticate_passes p rq : authenticate p rq = None <-> admitted p rq.
Proof.
  unfold authenticate, admitted, admin_token.
  destruct (authorization rq) as [auth|].
  2:{ split; [discriminate|]. intros (token & [=] & _). }
  destruct (String.prefix "Basic " auth) eqn:Hprefix.
  - apply prefix_slice in Hprefix. cbn [String.length] in Hprefix.
    assert (String.eqb auth "" = false) as ->.
    { rewrite Hprefix. reflexivity. }
    cbn [negb andb].
    set (parts := Str.split ":" (from_base64 p (slice 6 auth))).
    split.
    + intros H. exists (slice 6 auth). split; [now rewrite <- Hprefix|].
      fold parts. destruct parts as [|u [|w more]]; cbn in H;
        repeat case_bool_decide; try discriminate.
      exists more. congruence.
    + intros (token & [= Hauth] & more & Hparts).
      assert (slice 6 auth = token) as Htoken.
      { rewrite Hauth. apply (slice_append "Basic " token). }
      subst parts. rewrite Htoken, Hparts. cbn.
      rewrite !bool_decide_eq_true_2 by reflexivity. reflexivity.
  - rewrite andb_false_r. cbn [negb]. split; [discriminate|].
    intros (token & [= Hauth] & _). rewrite Hauth in Hprefix.
    now rewrite (prefix_append "Basic " token) in Hprefix.
Qed.

Lemma authenticate_refuses p rq refused :
  authenticate p rq = Some refused -> status refused = 401.
Proof.
  unfold authenticate. intros Hrefused.
  repeat match type of Hrefused with
         | context [match ?x with _ => _ end] => destruct x
         end; try discriminate; injection Hrefused as <-; reflexivity.
Qed.

(** X1.  The routes under [/rest] are served to the administrator only: a
    request whose [Authorization] header is [Basic] followed by a token
    that decodes to [admin:admin] is passed to its route, and every other
    request is answered 401 and leaves the maps of the server as they
    were. *)
Theorem rest_requires_admin (p : platform) (st : state) (rq : request) :
  under_rest (path rq) = true ->
  (admitted p rq /\ handle p st rq = route_handler p st rq)
  \/ (~ admitted p rq
      /\ status (fst (handle p st rq)) = 401
      /\ snd (handle p st rq) = st).
Proof.
  intros Hrest. unfold handle. rewrite Hrest.
  destruct (authenticate p rq) as [refused|] eqn:Hauth.
  - right. split; [|split; [exact (authenticate_refuses _ _ _ Hauth)|reflexivity]].
    intros Hadmitted%authenticate_passes. congruence.
  - left. split; [now apply authenticate_passes|reflexivity].
Qed.

Lemma rest_requires_admin_witness :
  let rq := mkRequest admin (GET_person "PERSON_1") [] [] in
  let anonymous := mkRequest None (GET_person "PERSON_1") [] [] in
  let p := demo_platform "" in
  handle p initial rq = route_handler p initial rq
  /\ status (fst (handle p initial anonymous)) = 401.
Proof.
  cbv zeta. split.
  - destruct (rest_requires_admin (demo_platform "") initial
                (mkRequest admin (GET_person "PERSON_1") [] []) eq_refl)
      as [[_ H]|[_ [H _]]]; [exact H|]. vm_compute in H. discriminate H.
  - reflexivity.
Defined.

End mock_authentication.
Section mock_parties.

Import mock_moqui mock_session.

Lemma assoc_set_key_same {A} (k : string) (v : A) kv :
  Js.assoc k (Js.set_key k v kv) = Some v.
Proof. now rewrite assoc_set_key, String.eqb_refl. Qed.

Lemma assoc_set_key_other {A} (k k' : string) (v : A) kv :
  k' <> k -> Js.assoc k' (Js.set_key k v kv) = Js.assoc k' kv.
Proof.
  intros Hk. rewrite assoc_set_key. now destruct (String.eqb_spec k' k).
Qed.

(** X2.  A person that was created is found: [POST /persons] answers 201
    with the generated [partyId] and with the names of the body, or the
    empty string in their place, and a [GET] of that [partyId] right
    after answers 200 with the payload of the creation. *)
Theorem created_person_is_found (p p' : platform) (st : state)
    (rq rq' : request) :
  path rq = POST_persons ->
  let partyId := new_id "PERSON" p in
  let created := route_handler p st rq in
  path rq' = GET_person partyId ->
  status (fst created) = 201
  /\ (payload (fst created)).["partyId"] = Some (JStr partyId)
  /\ (payload (fst created)).["firstName"]
     = Some (or_default (Js.assoc "firstName" (body rq)) (JStr ""))
  /\ (payload (fst created)).["lastName"]
     = Some (or_default (Js.assoc "lastName" (body rq)) (JStr ""))
  /\ route_handler p' (snd created) rq'
     = (mkResponse 200 (payload (fst created)), snd created).
Proof.
  intros Hpost partyId created Hget. subst created.
  unfold route_handler. rewrite Hpost, Hget. unfold create_person, get_person.
  fold partyId. cbn [fst snd parties status payload].
  rewrite assoc_set_key_same. repeat split.
Qed.

Lemma created_person_is_found_witness :
  let p := demo_platform "3b241101-e2bb-4255-8caf-4136c566a962" in
  let rq := mkRequest admin POST_persons [] [("firstName", JStr "Jane")] in
  let rq' := mkRequest admin (GET_person "PERSON_3B241101E2") [] [] in
  exists person,
    fst (handle p initial rq) = mkResponse 201 person
    /\ person.["firstName"] = Some (JStr "Jane")
    /\ person.["lastName"] = Some (JStr "")
    /\ fst (handle p (snd (handle p initial rq)) rq') = mkResponse 200 person.
Proof.
  cbv zeta.
  destruct (created_person_is_found
              (demo_platform "3b241101-e2bb-4255-8caf-4136c566a962")
              (demo_platform "3b241101-e2bb-4255-8caf-4136c566a962") initial
              (mkRequest admin POST_persons [] [("firstName", JStr "Jane")])
              (mkRequest admin (GET_person "PERSON_3B241101E2") [] [])
              eq_refl eq_refl) as (Hstatus & Hid & Hfirst & Hlast & Hget).
  eexists. split; [reflexivity|]. split; [exact Hfirst|]. split; [exact Hlast|].
  exact (f_equal fst Hget).
Defined.

(** X3.  For a [partyId] the server does not hold, reading or updating the
    person and creating a contact mechanism, a role or an attribute for
    it are answered 404, and nothing changes. *)
Theorem unknown_party_is_not_found (p : platform) (st : state) (rq : request)
    (partyId : string) :
  Js.assoc partyId (parties st) = None ->
  In (path rq)
    [GET_person partyId; PUT_person partyId; POST_contactMechs partyId;
     POST_roles partyId; POST_attributes partyId] ->
  route_handler p st rq
  = (mkResponse 404 (JObj [("error", JStr "Person not found")]), st).
Proof.
  intros Hunknown Hpath. unfold route_handler.
  cbn [In] in Hpath.
  destruct Hpath as [<-|[<-|[<-|[<-|[<-|[]]]]]];
    unfold get_person, update_person, create_contactMech, create_detail, known;
    rewrite Hunknown; reflexivity.
Qed.

Lemma unknown_party_is_not_found_witness :
  let p := demo_platform "3b241101-e2bb-4255-8caf-4136c566a962" in
  let rq := mkRequest admin (POST_contactMechs "PERSON_1") []
              [("infoString", JStr "jane@x.com")] in
  handle p initial rq
  = (mkResponse 404 (JObj [("error", JStr "Person not found")]), initial).
Proof.
  cbv zeta.
  refine (unknown_party_is_not_found
            (demo_platform "3b241101-e2bb-4255-8caf-4136c566a962") initial
            (mkRequest admin (POST_contactMechs "PERSON_1") []
               [("infoString", JStr "jane@x.com")]) "PERSON_1" eq_refl _).
  cbn. tauto.
Defined.

(** X4.  Roles and attributes are not stored: creating one never changes
    the state of the server; it is answered 201 when the party is known
    and 404 otherwise. *)
Theorem roles_and_attributes_are_not_stored (p : platform) (st : state)
    (rq : request) (partyId : string) :
  path rq = POST_roles partyId \/ path rq = POST_attributes partyId ->
  snd (route_handler p st rq) = st
  /\ status (fst (route_handler p st rq))
     = if known st partyId then 201 else 404.
Proof.
  intros [Hpath|Hpath]; unfold route_handler; rewrite Hpath;
    unfold create_detail; destruct (known st partyId); split; reflexivity.
Qed.

Lemma roles_and_attributes_are_not_stored_witness :
  let p := demo_platform "3b241101-e2bb-4255-8caf-4136c566a962" in
  let st := snd (handle p initial (mkRequest admin POST_persons [] [])) in
  let rq := mkRequest admin (POST_attributes "PERSON_3B241101E2") []
              [("attrName", JStr "notes"); ("attrValue", JStr "met in Rabat")] in
  snd (handle p st rq) = st /\ status (fst (handle p st rq)) = 201.
Proof.
  cbv zeta.
  destruct (roles_and_attributes_are_not_stored
              (demo_platform "3b241101-e2bb-4255-8caf-4136c566a962")
              (snd (handle (demo_platform "3b241101-e2bb-4255-8caf-4136c566a962")
                      initial (mkRequest admin POST_persons [] [])))
              (mkRequest admin (POST_attributes "PERSON_3B241101E2") []
                 [("attrName", JStr "notes"); ("attrValue", JStr "met in Rabat")])
              "PERSON_3B241101E2" (or_intror eq_refl)) as [Hstate Hstatus].
  split; [exact Hstate|exact Hstatus].
Defined.

End mock_parties.
Section mock_updates.

Import mock_moqui mock_session.

(** X5.  [PUT /persons/:partyId] on a stored person answers 200 with the
    merged record and stores it under the [partyId] of the path: a key of
    the body takes the last value the body gives it, every other key
    keeps its stored value, [lastUpdatedStamp] is the time of the
    update, and no other party changes. *)
Theorem update_person_merges (p : platform) (st : state) (rq : request)
    (partyId : string) (person : list (string * json)) :
  path rq = PUT_person partyId ->
  Js.assoc partyId (parties st) = Some (JObj person) ->
  exists updated,
    route_handler p st rq
    = (mkResponse 200 (JObj updated),
       mkState (Js.set_key partyId (JObj updated) (parties st))
         (contactMechs st) (relationships st) (organizations st))
    /\ Js.assoc "lastUpdatedStamp" updated = Some (JStr (now1 p))
    /\ (forall k,
          k <> "lastUpdatedStamp" ->
          Js.assoc k updated
          = match last_value k (body rq) with
            | Some v => Some v
            | None => Js.assoc k person
            end)
    /\ forall other,
         other <> partyId ->
         Js.assoc other (Js.set_key partyId (JObj updated) (parties st))
         = Js.assoc other (parties st).
Proof.
  intros Hpath Hperson. unfold route_handler, update_person.
  rewrite Hpath, Hperson. cbn [Js.truthy fields_of].
  eexists. split; [reflexivity|]. split; [|split].
  - rewrite spread_one. apply assoc_set_key_same.
  - intros k Hk. rewrite spread_one, assoc_set_key_other by exact Hk.
    apply assoc_spread.
  - intros other Hother. now apply assoc_set_key_other.
Qed.

Lemma update_person_merges_witness :
  let p := demo_platform "3b241101-e2bb-4255-8caf-4136c566a962" in
  let st := snd (handle p initial
                   (mkRequest admin POST_persons []
                      [("firstName", JStr "Jane"); ("lastName", JStr "Roe")])) in
  let rq := mkRequest admin (PUT_person "PERSON_3B241101E2") []
              [("statusId", JStr "PtyDisabled")] in
  exists updated,
    fst (handle p st rq) = mkResponse 200 (JObj updated)
    /\ Js.assoc "statusId" updated = Some (JStr "PtyDisabled")
    /\ Js.assoc "firstName" updated = Some (JStr "Jane")
    /\ Js.assoc "lastUpdatedStamp" updated = Some (JStr (now1 p)).
Proof.
  cbv zeta.
  destruct (update_person_merges
              (demo_platform "3b241101-e2bb-4255-8caf-4136c566a962")
              (snd (handle (demo_platform "3b241101-e2bb-4255-8caf-4136c566a962")
                      initial
                      (mkRequest admin POST_persons []
                         [("firstName", JStr "Jane"); ("lastName", JStr "Roe")])))
              (mkRequest admin (PUT_person "PERSON_3B241101E2") []
                 [("statusId", JStr "PtyDisabled")])
              "PERSON_3B241101E2" _ eq_refl eq_refl)
    as (updated & Hrun & Hstamp & Hfields & _).
  exists updated. split; [exact (f_equal fst Hrun)|].
  split; [exact (Hfields "statusId" ltac:(discriminate))|].
  split; [exact (Hfields "firstName" ltac:(discriminate))|exact Hstamp].
Defined.

End mock_updates.

Section mock_sessions.

Import mock_moqui mock_session.

Lemma has_key_set_key (m : table) (k k' : string) (v : json) :
  has_key m k -> has_key (Js.set_key k' v m) k.
Proof.
  unfold has_key. rewrite assoc_set_key.
  now destruct (String.eqb k k'); [eexists|].
Qed.

Lemma grown_refl st : grown st st.
Proof. repeat split; auto. Qed.

Lemma grown_trans st1 st2 st3 : grown st1 st2 -> grown st2 st3 -> grown st1 st3.
Proof.
  intros (H1 & H2 & H3 & H4) (H1' & H2' & H3' & H4'). repeat split; auto.
Qed.

Lemma route_handler_grows p st rq : grown st (snd (route_handler p st rq)).
Proof.
  unfold route_handler, create_person, update_person, create_contactMech,
    create_organization, create_relationship, create_detail.
  destruct (path rq); cbn [snd];
    repeat match goal with
           | |- context [match ?x with _ => _ end] => destruct x
           end;
    cbn [snd]; try apply grown_refl;
    repeat split; cbn [parties contactMechs relationships organizations];
    auto using has_key_set_key.
Qed.

Lemma handle_grows p st rq : grown st (snd (handle p st rq)).
Proof.
  unfold handle.
  destruct (under_rest _); [destruct (authenticate p rq)|];
    try apply grown_refl; apply route_handler_grows.
Qed.

Lemma route_handler_consistent p st rq :
  consistent st -> consistent (snd (route_handler p st rq)).
Proof.
  intros [Hp Hc Hr Ho Hop].
  unfold route_handler, create_person, update_person, create_contactMech,
    create_organization, create_relationship, create_detail.
  destruct (path rq); cbn [snd];
    repeat match goal with
           | |- context [match ?x with _ => _ end] => destruct x
           end;
    cbn [snd]; try (constructor; assumption);
    constructor; cbn [parties contactMechs relationships organizations];
    try assumption; try (apply set_key_values; [exact I|assumption]);
    try (intros k Hk; apply has_key_set_key; now auto).
  (* an organization goes to both maps *)
  intros key. unfold has_key. rewrite !assoc_set_key.
  destruct (String.eqb key _); [eauto|apply Hop].
Qed.

Lemma handle_consistent p st rq :
  consistent st -> consistent (snd (handle p st rq)).
Proof.
  intros Hst. unfold handle.
  destruct (under_rest _); [destruct (authenticate p rq)|];
    try exact Hst; now apply route_handler_consistent.
Qed.

Lemma serve_cons st p rq rest :
  snd (serve st ((p, rq) :: rest)) = snd (serve (snd (handle p st rq)) rest).
Proof.
  cbn [serve]. destruct (handle p st rq) as [res st1]. cbn [snd].
  destruct (serve st1 rest); reflexivity.
Qed.

Lemma consistent_known st partyId :
  consistent st -> has_key (parties st) partyId -> known st partyId = true.
Proof.
  intros [Hp _ _ _ _] [v Hv]. unfold known. rewrite Hv.
  assert (In v (values (parties st))) as Hin.
  { clear Hp. unfold values. induction (parties st) as [|[k0 v0] m IH];
      [discriminate|]. cbn in Hv |- *.
    destruct (String.eqb partyId k0); [left; congruence|right; auto]. }
  rewrite Forall_forall in Hp. apply list_elem_of_In, Hp in Hin.
  now destruct v.
Qed.

(** X6.  Whatever requests the server is sent, no key is ever removed from
    its four maps.  From a state whose maps hold objects and whose
    organizations are parties, the state reached is of that kind again,
    and every party held before is still answered 200 by
    [GET /persons/:partyId]. *)
Theorem mock_never_forgets (session : list (platform * request)) (st : state) :
  let st' := snd (serve st session) in
  grown st st'
  /\ (consistent st ->
      consistent st'
      /\ forall partyId p rq,
           has_key (parties st) partyId ->
           path rq = GET_person partyId ->
           status (fst (route_handler p st' rq)) = 200).
Proof.
  assert (forall st, let st' := snd (serve st session) in
                     grown st st' /\ (consistent st -> consistent st')) as H.
  { induction session as [|[p rq] rest IH]; intros st0.
    - split; [apply grown_refl|auto].
    - cbv zeta. rewrite serve_cons.
      destruct (IH (snd (handle p st0 rq))) as [Hgrown Hconsistent]. split.
      + eapply grown_trans; [apply handle_grows|exact Hgrown].
      + intros Hst. now apply Hconsistent, handle_consistent. }
  destruct (H st) as [Hgrown Hconsistent]. cbv zeta.
  split; [exact Hgrown|]. intros Hst. split; [auto|].
  intros partyId p rq Hkey Hpath.
  destruct Hgrown as [Hparties _]. apply Hparties in Hkey.
  pose proof (consistent_known _ _ (Hconsistent Hst) Hkey) as Hknown.
  unfold route_handler. rewrite Hpath. cbn [fst]. unfold get_person.
  unfold known in Hknown. destruct (Js.assoc partyId _) as [person|];
    [|discriminate]. now rewrite Hknown.
Qed.

End mock_sessions.
Section spread_order.

Context {A : Type}.

Lemma set_key_fresh (k : string) (v : A) kv :
  Js.assoc k kv = None -> Js.set_key k v kv = (kv ++ [(k, v)])%list.
Proof.
  induction kv as [|[k0 v0] kv IH]; cbn; [reflexivity|].
  destruct (String.eqb k k0); [discriminate|]. intros H. now rewrite IH.
Qed.

(** Spreading fields over the object they came from changes nothing. *)
Lemma spread_fresh (acc l : list (string * A)) :
  NoDup (map fst (acc ++ l)) -> Js.spread acc l = (acc ++ l)%list.
Proof.
  unfold Js.spread. revert acc.
  induction l as [|[k v] l IH]; intros acc Hnd; cbn; [now rewrite app_nil_r|].
  rewrite set_key_fresh.
  - rewrite IH; rewrite <- app_assoc; [reflexivity|exact Hnd].
  - apply assoc_None_notin. rewrite map_app in Hnd. cbn in Hnd.
    apply NoDup_app in Hnd as (_ & Hdisjoint & _).
    intros Hin. apply (Hdisjoint _ Hin). now left.
Qed.

Lemma spread_head (k : string) (v0 v : A) l :
  NoDup (map fst ((k, v) :: l)) ->
  Js.spread [(k, v0)] ((k, v) :: l) = (k, v) :: l.
Proof.
  intros Hnd. unfold Js.spread. cbn [fold_left fst snd Js.set_key].
  rewrite String.eqb_refl. now apply (spread_fresh [(k, v)] l).
Qed.

Lemma NoDup_spread (a b : list (string * A)) :
  NoDup (map fst a) -> NoDup (map fst (Js.spread a b)).
Proof.
  unfold Js.spread. revert a.
  induction b as [|[k v] b IH]; intros a Ha; [exact Ha|].
  cbn. apply IH. now apply NoDup_set_key.
Qed.

Lemma set_key_head (k k0 : string) (v v0 : A) kv :
  exists v', Js.set_key k v ((k0, v0) :: kv) = (k0, v') :: Js.set_key k v kv
             \/ (k = k0 /\ Js.set_key k v ((k0, v0) :: kv) = (k0, v') :: kv).
Proof.
  cbn. destruct (String.eqb_spec k k0) as [->|]; eauto.
Qed.

Lemma spread_keeps_head (k0 : string) (v0 : A) a b :
  exists v' rest, Js.spread ((k0, v0) :: a) b = (k0, v') :: rest.
Proof.
  unfold Js.spread. revert v0 a.
  induction b as [|[k v] b IH]; intros v0 a; [eauto|].
  cbn [fold_left fst snd Js.set_key].
  destruct (String.eqb_spec k k0) as [->|]; apply IH.
Qed.

End spread_order.

Section mock_contact_mechanisms.

Import mock_moqui mock_session.

Lemma response_is_stored (key : string) (id : json) (p : platform)
    (more fields : list (string * json)) :
  NoDup (map fst ((key, id) :: more)) ->
  Js.spread [(key, id)] (stamped p (Js.spread ((key, id) :: more) fields))
  = stamped p (Js.spread ((key, id) :: more) fields).
Proof.
  intros Hnd. unfold stamped.
  pose proof (NoDup_spread
                (Js.spread ((key, id) :: more) fields)
                [("createdDate", JStr (now1 p)); ("lastUpdatedStamp", JStr (now2 p))]
                (NoDup_spread _ fields Hnd)) as Hkeys.
  destruct (spread_keeps_head key id more fields) as (v1 & rest1 & H1).
  rewrite H1 in *.
  destruct (spread_keeps_head key v1 rest1
              [("createdDate", JStr (now1 p)); ("lastUpdatedStamp", JStr (now2 p))])
    as (v2 & rest2 & H2).
  rewrite H2 in *. now apply spread_head.
Qed.

(** X7.  A contact mechanism created for a known party, with a body that
    has no [partyId] of its own, is answered 201 with the [partyId] of
    the path; the listing of the mechanisms of the party right after
    answers 200 with a list that contains it and that holds mechanisms
    of that party only. *)
Theorem contact_mechanism_is_listed (p p' : platform) (st : state)
    (rq rq' : request) (partyId : string) :
  path rq = POST_contactMechs partyId ->
  known st partyId = true ->
  Js.assoc "partyId" (body rq) = None ->
  path rq' = GET_contactMechs partyId ->
  let created := route_handler p st rq in
  status (fst created) = 201
  /\ (payload (fst created)).["partyId"] = Some (JStr partyId)
  /\ exists listed,
       route_handler p' (snd created) rq'
       = (mkResponse 200 (JArr listed), snd created)
       /\ In (payload (fst created)) listed
       /\ Forall (fun cm => cm.["partyId"] = Some (JStr partyId)) listed.
Proof.
  intros Hpost Hknown Hbody Hget created. subst created.
  unfold route_handler. rewrite Hpost, Hget. unfold create_contactMech.
  rewrite Hknown. cbn [fst snd status payload].
  rewrite response_is_stored by (apply (bool_decide_unpack _); vm_compute; reflexivity).
  assert (Hparty :
    (JObj (stamped p (Js.spread [("contactMechId", JStr (new_id "CM" p));
                                 ("partyId", JStr partyId)] (body rq)))).["partyId"]
    = Some (JStr partyId)).
  { cbn [Prop_access.get_opt]. unfold stamped.
    rewrite assoc_spread_absent by reflexivity.
    rewrite assoc_spread_absent by exact Hbody.
    cbn. reflexivity. }
  split; [reflexivity|]. split; [exact Hparty|].
  unfold list_contactMechs. cbn [contactMechs].
  eexists. split; [reflexivity|]. split.
  - apply filter_In. split; [apply set_key_In|].
    rewrite Hparty. cbn. apply String.eqb_refl.
  - apply Forall_forall. intros cm Hcm%list_elem_of_In%filter_In.
    destruct Hcm as [_ Hcm]. destruct (cm.["partyId"]) as [[| | |s| |]|];
      try discriminate. cbn in Hcm. now apply String.eqb_eq in Hcm as ->.
Qed.

Lemma contact_mechanism_is_listed_witness :
  let p := demo_platform "3b241101-e2bb-4255-8caf-4136c566a962" in
  let p' := demo_platform "9f0c2d4e-7a1b-4c3d-8e5f-0a1b2c3d4e5f" in
  let st := snd (handle p initial (mkRequest admin POST_persons [] [])) in
  let rq := mkRequest admin (POST_contactMechs "PERSON_3B241101E2") []
              [("contactMechTypeEnumId", JStr "CmtEmailAddress");
               ("infoString", JStr "jane@x.com")] in
  let rq' := mkRequest admin (GET_contactMechs "PERSON_3B241101E2") [] [] in
  exists mech listed,
    fst (handle p' st rq) = mkResponse 201 mech
    /\ mech.["infoString"] = Some (JStr "jane@x.com")
    /\ fst (handle p' (snd (handle p' st rq)) rq') = mkResponse 200 (JArr listed)
    /\ In mech listed.
Proof.
  cbv zeta.
  destruct (contact_mechanism_is_listed
              (demo_platform "9f0c2d4e-7a1b-4c3d-8e5f-0a1b2c3d4e5f")
              (demo_platform "9f0c2d4e-7a1b-4c3d-8e5f-0a1b2c3d4e5f")
              (snd (handle (demo_platform "3b241101-e2bb-4255-8caf-4136c566a962")
                      initial (mkRequest admin POST_persons [] [])))
              (mkRequest admin (POST_contactMechs "PERSON_3B241101E2") []
                 [("contactMechTypeEnumId", JStr "CmtEmailAddress");
                  ("infoString", JStr "jane@x.com")])
              (mkRequest admin (GET_contactMechs "PERSON_3B241101E2") [] [])
              "PERSON_3B241101E2" eq_refl eq_refl eq_refl eq_refl)
    as (_ & _ & listed & Hlist & Hin & _).
  eexists _, listed. split; [reflexivity|]. split; [reflexivity|].
  split; [exact (f_equal fst Hlist)|exact Hin].
Defined.

End mock_contact_mechanisms.
(** * More of the version-control adapter *)

Lemma filter_calls_cons ev l :
  filter (fun ev => Trace.is_call ev = true) (ev :: l)
  = if Trace.is_call ev
    then ev :: filter (fun ev => Trace.is_call ev = true) l
    else filter (fun ev => Trace.is_call ev = true) l.
Proof.
  rewrite filter_cons.
  destruct (Trace.is_call ev); [now rewrite decide_True|now rewrite decide_False].
Qed.

(** The calls among the events a computation appended. *)
Ltac calls :=
  rewrite <- ?app_assoc, drop_app_length;
  cbn [app]; rewrite ?filter_calls_cons, ?filter_nil; cbn [Trace.is_call].

Lemma Buffer_from_throws v e :
  GiteaService.Buffer_from v = Throw e -> response_status e = None.
Proof. destruct v as [[]|]; cbn; intros [=]; now subst. Qed.

Section repository.

Import GiteaService GiteaRequests.

Context (E : Env) (s : St).

(** X8.  [ensureRepository] leaves the index store alone and makes one or
    two calls: the lookup of the repository, and the creation only when
    the lookup was rejected with the status 404.  It returns [true] when
    the lookup or the creation succeeds and throws the rejection of the
    lookup (another status than 404) or of the creation. *)
Theorem ensureRepository_creates_only_after_404 :
  let run := ensureRepository E s in
  store (snd run) = store s /\
  match calls_of ensureRepository E s with
  | [EHttp rq (Ret _)] => rq = repository_lookup E /\ fst run = Ret true
  | [EHttp rq (Throw e)] =>
      rq = repository_lookup E /\ response_status e <> Some 404
      /\ fst run = Throw e
  | [EHttp rq (Throw e); EHttp rq' reply] =>
      rq = repository_lookup E /\ response_status e = Some 404
      /\ rq' = repository_creation E
      /\ fst run = match reply with
                   | Ret _ => Ret true
                   | Throw createError => Throw createError
                   end
  | _ => False
  end.
Proof.
  unfold calls_of, ensureRepository. run. on_reply; run.
  - calls. auto.
  - case_bool_decide as Hstatus; run.
    + on_reply; run; calls; auto 6.
    + calls. auto.
Qed.

(** X9.  [getFileContent] makes exactly one call, the lookup of the file on
    the branch, and leaves the index store alone.  It returns [null] when
    the data of the answer has the status 404 or the request was
    rejected with 404, throws every other rejection, and for an
    answer that is an object with a string content returns the decoded
    content with the [sha] and the [size] of the answer. *)
Theorem getFileContent_of_missing_file (filePath branch : string) :
  let rq := file_lookup E filePath branch in
  let reply := respond E (trace s) rq in
  let run := getFileContent filePath branch E s in
  calls_of (getFileContent filePath branch) E s = [EHttp rq reply]
  /\ store (snd run) = store s
  /\ (file_is_missing reply = true -> fst run = Ret None)
  /\ (forall e, reply = Throw e -> file_is_missing reply = false ->
                fst run = Throw e)
  /\ (forall fields content,
        reply = Ret (JObj fields) -> file_is_missing reply = false ->
        Js.assoc "content" fields = Some (JStr content) ->
        fst run = Ret (Some (mkFile (base64_decode E content)
                               (Js.assoc "sha" fields)
                               (Js.assoc "size" fields)))).
Proof.
  cbv zeta. unfold calls_of, getFileContent, file_lookup, contents_url. run.
  on_reply; run.
  - destruct data as [| | | | |fields];
      cbn [Prop_access.get Prop_access.get_opt file_is_missing Js.is_num];
      run; rewrite ?bool_decide_eq_false_2 by discriminate;
      cbn [Buffer_from]; run; rewrite ?bool_decide_eq_false_2 by discriminate;
      run.
    1-5: calls; repeat split; try discriminate; intros e [=].
    destruct (Js.is_num (Js.assoc "status" fields) 404) eqn:Hstatus; run.
    + calls. repeat split; try discriminate.
    + destruct (Buffer_from (Js.assoc "content" fields)) as [encoded|e] eqn:Hc;
        run.
      * calls. repeat split; try discriminate.
        intros fields' content [= <-] _ Hcontent. rewrite Hcontent in Hc.
        now injection Hc as <-.
      * case_bool_decide; run; calls; repeat split; try discriminate;
          intros fields' content [= <-] _ Hcontent; rewrite Hcontent in Hc;
          discriminate Hc.
  - cbn [file_is_missing]. case_bool_decide as Hstatus; run; calls.
    + repeat split; try discriminate.
    + repeat split; try discriminate. now intros e [= <-] _.
Qed.

(** X10.  [commitFile] looks the file up first and leaves the index store
    alone.  When the file is missing it POSTs the message, the encoded
    content and the branch; when the lookup returned the file it PUTs
    the same data with the [sha] of the lookup; the outcome of that
    second call is the outcome of [commitFile].  When the lookup ends
    otherwise (another rejection, an answer that cannot be decoded)
    there is no second call and [commitFile] throws. *)
Theorem commitFile_updates_or_creates (filePath content message branch : string) :
  let lookup := file_lookup E filePath branch in
  let fresh := commitData E content message branch in
  let commit := commitFile filePath (Js.str content) message branch in
  store (snd (commit E s)) = store s /\
  match calls_of commit E s with
  | [EHttp rq reply] =>
      rq = lookup /\ file_is_missing reply = false
      /\ exists e, fst (commit E s) = Throw e
  | [EHttp rq reply; EHttp rq' reply'] =>
      rq = lookup /\ fst (commit E s) = reply'
      /\ if file_is_missing reply then
           rq' = mkRequest Gitea POST (contents_url E filePath) (Js.obj fresh)
         else
           exists fields,
             reply = Ret (JObj fields)
             /\ rq' = mkRequest Gitea PUT (contents_url E filePath)
                        (Js.obj (Js.set_key "sha" (Js.assoc "sha" fields) fresh))
  | _ => False
  end.
Proof.
  cbv zeta.
  unfold calls_of, commitFile, getFileContent, file_lookup, contents_url, commitData.
  run. on_reply; run.
  - destruct data as [| | | | |fields];
      cbn [Prop_access.get Prop_access.get_opt file_is_missing Js.is_num];
      run; rewrite ?bool_decide_eq_false_2 by discriminate;
      cbn [Buffer_from]; run; rewrite ?bool_decide_eq_false_2 by discriminate;
      run.
    1-5: calls; repeat split; eauto.
    destruct (Js.is_num (Js.assoc "status" fields) 404) eqn:Hstatus; run.
    + cbn [Buffer_from Js.str]. run. on_reply; run; calls;
        cbn [file_is_missing Prop_access.get_opt]; rewrite Hstatus; auto.
    + destruct (Buffer_from (Js.assoc "content" fields)) as [encoded|e] eqn:Hc;
        run.
      * cbn [Buffer_from Js.str sha]. run. on_reply; run; calls;
          cbn [file_is_missing Prop_access.get_opt]; rewrite Hstatus;
          repeat split; eauto.
      * rewrite bool_decide_eq_false_2
          by (rewrite (Buffer_from_throws _ _ Hc); discriminate).
        run. calls. cbn [file_is_missing Prop_access.get_opt].
        rewrite Hstatus. repeat split; eauto.
  - case_bool_decide as Hstatus; run.
    + cbn [Buffer_from Js.str]. run. on_reply; run; calls;
        cbn [file_is_missing]; rewrite bool_decide_eq_true_2 by exact Hstatus;
        auto.
    + calls. cbn [file_is_missing].
      rewrite bool_decide_eq_false_2 by exact Hstatus. repeat split; eauto.
Qed.

End repository.
(** * The submission of a contact *)

Lemma traced_run {A} (P : event -> Prop) (m : M A) (E : Env) (s : St) :
  traced P m ->
  exists o new st,
    m E s = (o, mkSt (trace s ++ new) st)
    /\ Forall P new
    /\ (Forall not_store new -> st = store s).
Proof.
  intros Hm. destruct (Hm E s) as (new & Hadd & HP & Hst).
  destruct (m E s) as [o [tr st]]. unfold Trace.added in Hadd.
  cbn [snd trace store] in *. subst tr. eauto 6.
Qed.

Lemma filter_store_calls_cons ev l :
  filter (fun ev => Trace.is_store_call ev = true) (ev :: l)
  = if Trace.is_store_call ev
    then ev :: filter (fun ev => Trace.is_store_call ev = true) l
    else filter (fun ev => Trace.is_store_call ev = true) l.
Proof.
  rewrite filter_cons.
  destruct (Trace.is_store_call ev);
    [now rewrite decide_True|now rewrite decide_False].
Qed.

Lemma no_store_calls new :
  Forall not_store new ->
  filter (fun ev => Trace.is_store_call ev = true) new = [].
Proof.
  induction 1 as [|ev new Hev _ IH]; [reflexivity|].
  rewrite filter_store_calls_cons, Hev. exact IH.
Qed.

Section transform_traces.

Import cdmModels GiteaService GiteaCommit.

Lemma transformToCdmContact_pure formData userId E s :
  snd (transformToCdmContact formData userId E s) = s.
Proof.
  unfold transformToCdmContact, validateCdmContact. run.
  destruct (Joi.validate _ _ _ _ _ _) as [[|d details] value]; now destruct s.
Qed.

Lemma ensureRepository_not_store : traced not_store ensureRepository.
Proof. unfold ensureRepository. traced_auto. Qed.

Lemma createBranch_not_store b base : traced not_store (createBranch b base).
Proof. unfold createBranch, createBranch_try. traced_auto. Qed.

Lemma getFileContent_not_store f b : traced not_store (getFileContent f b).
Proof. unfold getFileContent. traced_auto. Qed.

Lemma commitFile_not_store f c m b : traced not_store (commitFile f c m b).
Proof.
  unfold commitFile. repeat traced_step; try apply getFileContent_not_store;
    traced_auto.
Qed.

Lemma createPullRequest_not_store t h b d :
  traced not_store (createPullRequest t h b d).
Proof. unfold createPullRequest. traced_auto. Qed.

Lemma deleteBranch_not_store b : traced not_store (deleteBranch b).
Proof. unfold deleteBranch. traced_auto. Qed.

Lemma generateBranchName_not_store t i : traced not_store (generateBranchName t i).
Proof. unfold generateBranchName. traced_auto. Qed.

Lemma commitCdmData_not_store contactData metadata :
  traced not_store (commitCdmData contactData metadata).
Proof.
  unfold commitCdmData, commitCdmData_try, generateCdmFileStructure.
  repeat first
    [ apply ensureRepository_not_store
    | apply createBranch_not_store
    | apply commitFile_not_store
    | apply createPullRequest_not_store
    | apply deleteBranch_not_store
    | apply generateBranchName_not_store
    | traced_step ];
    traced_auto.
Qed.

End transform_traces.
Section first_violation.

Import Joi.

Context (E : Env) (p : prefs) (Hearly : abortEarly p = true).







End first_violation.

Section post_contacts.

Import Joi dataRoutes.

Lemma request_id_run header E s :
  exists requestId, request_id header E s = (Ret requestId, s).
Proof.
  unfold request_id. destruct (Js.truthy_str header); run; eauto.
Qed.



End post_contacts.
Section post_contacts_outcomes.

Import Joi dataRoutes.

Lemma store_calls_app a b : store_calls (a ++ b) = (store_calls a ++ store_calls b)%list.
Proof. apply filter_app. Qed.

Lemma store_calls_none new : Forall not_store new -> store_calls new = [].
Proof. apply no_store_calls. Qed.

(** X12.  [POST /api/data/contacts] never throws.  It answers 201 only
    after exactly one call to the index store, a fulfilled indexing of
    the CDM record under its [contactId]; otherwise it answers 400 or 500
    with the index store unchanged, after no call to the store or one
    rejected indexing. *)
Theorem post_contacts_answers (E : Env) (s : St) (header : option string)
    (body : list (string * jsv)) :
  exists res new st,
    post_contacts header body E s = (Ret res, mkSt (trace s ++ new) st)
    /\ ((status res = 201
         /\ exists cdmContact r,
              store_calls new
              = [EOs (IndexDoc (contactsIndex (cfg E))
                        (OpenSearchService.doc_id cdmContact.["contactId"])
                        cdmContact) (Ret r)])
        \/ ((status res = 400 \/ status res = 500)
            /\ st = store s
            /\ (store_calls new = []
                \/ exists cdmContact e,
                     store_calls new
                     = [EOs (IndexDoc (contactsIndex (cfg E))
                               (OpenSearchService.doc_id cdmContact.["contactId"])
                               cdmContact) (Throw e)]))).
Proof.
  unfold post_contacts.
  unfold bind at 1, Date_now at 1, observe at 1. unfold bind at 1.
  destruct (request_id_run header E s) as (requestId & ->).
  unfold bind at 1, logger.info at 1, emit at 1. cbn [trace store].
  unfold try_catch.
  unfold bind at 1, ask at 1. unfold bind at 1, observe at 1.
  unfold bind at 1, now_iso at 1. cbn [trace store]. change (id E) with E.
  destruct (validate E _ _ contactSubmissionSchema body default_prefs)
    as [[|detail details] validatedData].
  2:{ run. eexists _, [_], _. split; [reflexivity|]. right.
      split; [now left|]. split; [reflexivity|]. now left. }
  unfold bind at 1.
  match goal with
  | |- context [cdmModels.transformToCdmContact ?d ?u E ?s1] =>
      pose proof (transformToCdmContact_pure d u E s1) as Hpure;
      destruct (cdmModels.transformToCdmContact d u E s1) as [[cdmContact|e] s2]
  end; cbn [snd] in Hpure; subst s2.
  2:{ run. eexists _, [_; _], _. rewrite <- app_assoc.
      split; [reflexivity|]. right.
      split; [now right|]. split; [reflexivity|]. now left. }
  unfold bind at 1, logger.info at 1, emit at 1. cbn [trace store].
  unfold bind at 1.
  match goal with
  | |- context [GiteaCommit.commitCdmData ?c ?m E ?s1] =>
      destruct (traced_run not_store (GiteaCommit.commitCdmData c m) E s1
                  (commitCdmData_not_store c m))
        as (o & new1 & st1 & -> & Hnew1 & Hst1)
  end.
  specialize (Hst1 Hnew1). cbn [store trace] in Hst1. subst st1.
  cbn [trace].
  destruct o as [gitResult|e].
  2:{ run. eexists _, _, _. rewrite <- !app_assoc.
      split; [reflexivity|]. right.
      split; [now right|]. split; [reflexivity|]. left.
      cbn [app]. unfold store_calls. rewrite !filter_store_calls_cons.
      cbn [Trace.is_store_call]. rewrite filter_app, (no_store_calls _ Hnew1).
      reflexivity. }
  unfold bind at 1, lift at 1.
  destruct (Prop_access.get _ "html_url") as [pullRequestUrl|e].
  2:{ run. eexists _, _, _. rewrite <- !app_assoc.
      split; [reflexivity|]. right.
      split; [now right|]. split; [reflexivity|]. left.
      cbn [app]. unfold store_calls. rewrite !filter_store_calls_cons.
      cbn [Trace.is_store_call]. rewrite filter_app, (no_store_calls _ Hnew1).
      reflexivity. }
  unfold bind at 1, logger.info at 1, emit at 1. cbn [trace store].
  unfold OpenSearchService.indexContact. run. unfold opensearch. cbn [trace store].
  destruct (os_fault E _ _) as [e|].
  - run. eexists _, _, _. rewrite <- !app_assoc.
    split; [reflexivity|]. right.
    split; [now right|]. split; [reflexivity|]. right.
    exists cdmContact, e.
    cbn [app]. unfold store_calls. rewrite !filter_store_calls_cons.
    cbn [Trace.is_store_call]. rewrite filter_app, (no_store_calls _ Hnew1).
    cbn [app]. rewrite !filter_store_calls_cons. cbn [Trace.is_store_call].
    reflexivity.
  - cbn [Store.step].
    destruct (OpenSearchService.doc_id _) as [d|] eqn:Hid; run;
      eexists _, _, _; rewrite <- !app_assoc;
      (split; [reflexivity|]); left; (split; [reflexivity|]);
      exists cdmContact; eexists; rewrite Hid;
      cbn [app]; unfold store_calls; rewrite !filter_store_calls_cons;
      cbn [Trace.is_store_call]; rewrite filter_app, (no_store_calls _ Hnew1);
      cbn [app]; rewrite !filter_store_calls_cons; cbn [Trace.is_store_call];
      reflexivity.
Qed.

End post_contacts_outcomes.
Section validation_modes.

Import Joi.

Context (E : Env) (p p' : prefs) (Hconvert : convert p = convert p').





End validation_modes.
Section accepted_submission.

Import Joi cdmModels dataRoutes.

Context (E : Env) (body : list (string * jsv)) (u n : string).

(** The value of a key in the body of the submission. *)
Let field (k : string) : jsv := default None (Js.assoc k body).






End accepted_submission.

Section accepted_submission_run.

Import Joi cdmModels dataRoutes.


End accepted_submission_run.
(** * The test route of the webhooks *)

Section post_test.

Import webhookController webhookTest OpenSearchService.

Lemma extract_test_contact E s :
  extractContactDataFromPR testWebhook_pull_request E s
  = (Ret (Some (JObj [("fullName", JStr "Test User");
                      ("emailAddress", JStr "test@example.com");
                      ("company", JStr "Test Corp");
                      ("contactId", JNull)])), s).
Proof. destruct s. vm_compute. reflexivity. Qed.

(** An update without an id fails and leaves the store as it was. *)
Lemma updateContact_without_id updateData E s :
  exists e new,
    updateContact (Some JNull) updateData E s
    = (Throw e, mkSt (trace s ++ new) (store s)).
Proof.
  unfold updateContact. run. unfold opensearch. cbn [trace store doc_id].
  destruct (os_fault E _ _) as [e|]; cbn [Store.step]; run;
    eexists _, _; rewrite <- ?app_assoc; reflexivity.
Qed.

(** X14.  [POST /api/webhooks/test] never succeeds: in every environment,
    whatever Moqui and the index store answer, the route returns 500
    with [success: false] and leaves the index store unchanged.  The
    body of its test pull request has no [Contact ID] line, so there is
    no record to update. *)
Theorem post_test_never_succeeds (E : Env) (s : St) :
  exists res new,
    post_test E s = (Ret res, mkSt (trace s ++ new) (store s))
    /\ status res = 500
    /\ (payload res).["success"] = Some (JBool false).
Proof.
  unfold post_test, handlePullRequestMerged.
  unfold try_catch at 1. unfold bind at 1.
  unfold bind at 1, logger.info at 1, emit at 1.
  unfold try_catch at 1. unfold bind at 1.
  rewrite extract_test_contact.
  unfold bind at 1, logger.debug at 1, emit at 1. cbn [trace store].
  unfold bind at 1.
  match goal with
  | |- context [MoquiService.createContact ?c E ?s1] =>
      destruct (createContact_returns c E s1) as (result & calls & -> & _)
  end.
  cbn [trace store].
  destruct (MoquiService.success result).
  - unfold bind at 1, logger.info at 1, emit at 1. cbn [trace store].
    unfold bind at 1, now_iso at 1. cbn [trace store].
    unfold bind at 1. cbn [Prop_access.get_opt Js.assoc String.eqb Ascii.eqb Bool.eqb].
    match goal with
    | |- context [updateContact (Some JNull) ?d E ?s1] =>
        destruct (updateContact_without_id d E s1) as (e & new & ->)
    end.
    run. eexists _, _. rewrite <- !app_assoc. repeat split.
  - run. eexists _, _. rewrite <- !app_assoc. repeat split.
Qed.

End post_test.
(** * More of the Moqui adapter *)

Section moqui_maintenance.

Import MoquiService MoquiMaintenance.

Context (E : Env) (s : St).

(** X15.  [deleteContact] of the Moqui adapter deletes nothing: it makes
    one call, a PUT of the status [PtyDisabled] to the person, never
    throws and leaves the index store alone; it reports success with the
    party id when the call is fulfilled and the message of the rejection
    otherwise. *)
Theorem deleteContact_disables (moquiPartyId : jsv) :
  let disable :=
    mkRequest Moqui PUT (person_url moquiPartyId)
      (JObj [("statusId", JStr "PtyDisabled")]) in
  let reply := respond E (trace s ++ [ELog Info "Deleting contact in Moqui"])
                 disable in
  let run := deleteContact moquiPartyId E s in
  calls_of (deleteContact moquiPartyId) E s = [EHttp disable reply]
  /\ store (snd run) = store s
  /\ fst run
     = Ret (match reply with
            | Ret _ =>
                mkReport true moquiPartyId (Some "Contact disabled in Moqui") None
            | Throw e => mkReport false None None (Some (message e))
            end).
Proof.
  cbv zeta. unfold calls_of, deleteContact. run.
  on_reply; run; calls; auto.
Qed.

(** X16.  [updateContact] of the Moqui adapter never throws and leaves the
    index store alone.  Without a usable [fullName] it makes no call and
    reports the failure; otherwise it makes one PUT to the person with
    the names, the party type and the status only, and reports success
    or the message of the rejection. *)
Theorem updateContact_sends_the_name_only (moquiPartyId : jsv) (contactData : json) :
  let run := MoquiMaintenance.updateContact moquiPartyId contactData E s in
  store (snd run) = store s /\
  match transformToMoquiParty contactData with
  | Throw e =>
      calls_of (MoquiMaintenance.updateContact moquiPartyId contactData) E s = []
      /\ fst run = Ret (mkReport false None None (Some (message e)))
  | Ret p =>
      exists reply,
        calls_of (MoquiMaintenance.updateContact moquiPartyId contactData) E s
        = [EHttp (mkRequest Moqui PUT (person_url moquiPartyId)
                    (JObj [("firstName", JStr (firstName p));
                           ("lastName", JStr (lastName p));
                           ("partyTypeEnumId", JStr "PtyPerson");
                           ("statusId", JStr (statusId p))])) reply]
        /\ fst run
           = Ret (match reply with
                  | Ret _ =>
                      mkReport true moquiPartyId
                        (Some "Contact updated successfully in Moqui") None
                  | Throw e => mkReport false None None (Some (message e))
                  end)
  end.
Proof.
  cbv zeta. unfold calls_of, MoquiMaintenance.updateContact. run.
  destruct (transformToMoquiParty contactData) as [p|e] eqn:Hparty; run.
  - assert (partyTypeEnumId p = "PtyPerson") as ->.
    { unfold transformToMoquiParty in Hparty.
      destruct (as_string _ _); [|discriminate]. now injection Hparty as <-. }
    on_reply; run; calls; eauto.
  - calls. auto.
Qed.

End moqui_maintenance.
Section name_split.

Import MoquiService.

Lemma split_nonempty sep s : Str.split sep s <> [].
Proof.
  destruct s as [|c s]; cbn; [discriminate|].
  destruct (Ascii.eqb c sep); [discriminate|]. now destruct (Str.split sep s).
Qed.

Local Transparent String.append.

(** Joining the parts of a split gives the string back. *)
Lemma join_split (sep : ascii) (s : string) :
  Js.join (String sep EmptyString) (Str.split sep s) = s.
Proof.
  induction s as [|c s IH]; [reflexivity|].
  cbn [Str.split]. destruct (Ascii.eqb_spec c sep) as [->|Hc].
  - pose proof (split_nonempty sep s).
    destruct (Str.split sep s) as [|w ws] eqn:Hsplit; [done|].
    change (Js.join (String sep "") ("" :: w :: ws))
      with (String sep (Js.join (String sep "") (w :: ws))).
    now rewrite IH.
  - pose proof (split_nonempty sep s).
    destruct (Str.split sep s) as [|w ws] eqn:Hsplit; [done|].
    rewrite <- IH. now destruct ws.
Qed.

Lemma split_head_clean (sep : ascii) (s : string) :
  ~ In sep (list_ascii_of_string (default "" (head (Str.split sep s)))).
Proof.
  induction s as [|c s IH]; cbn; [tauto|].
  destruct (Ascii.eqb_spec c sep) as [->|Hc]; cbn; [tauto|].
  pose proof (split_nonempty sep s).
  destruct (Str.split sep s) as [|w ws]; [done|]. cbn in *. intuition.
Qed.

Local Opaque String.append.

(** X17.  For a contact whose [fullName] is a string, the first name that
    [transformToMoquiParty] returns has no space, and the two names give
    the trimmed [fullName] back: either the last name is empty and the
    first name is the trimmed [fullName], or the trimmed [fullName] is
    the first name, a space and the last name. *)
Theorem name_split_is_lossless (contactData : json) (fullName : string) :
  contactData.["fullName"] = Some (JStr fullName) ->
  exists p,
    transformToMoquiParty contactData = Ret p
    /\ ~ In " "%char (list_ascii_of_string (firstName p))
    /\ ((Str.trim fullName = firstName p /\ lastName p = "")
        \/ Str.trim fullName = firstName p +:+ " " +:+ lastName p).
Proof.
  intros Hname. unfold transformToMoquiParty. rewrite Hname. cbn [as_string].
  eexists. split; [reflexivity|]. cbn [firstName lastName].
  split; [apply split_head_clean|].
  pose proof (join_split " " (Str.trim fullName)) as Hjoin.
  pose proof (split_nonempty " " (Str.trim fullName)).
  destruct (Str.split " " (Str.trim fullName)) as [|first rest]; [done|].
  cbn [head tail default from_option id].
  destruct rest as [|second rest]; [left; split; [now rewrite <- Hjoin|reflexivity]|].
  right. now rewrite <- Hjoin.
Qed.

Lemma name_split_is_lossless_witness :
  exists p,
    transformToMoquiParty (JObj [("fullName", JStr "  Flane weld flane ")]) = Ret p
    /\ firstName p = "Flane" /\ lastName p = "weld flane".
Proof.
  destruct (name_split_is_lossless
              (JObj [("fullName", JStr "  Flane weld flane ")])
              "  Flane weld flane " eq_refl) as (p & Hp & _ & _).
  exists p. split; [exact Hp|].
  vm_compute in Hp. injection Hp as <-. split; reflexivity.
Defined.

End name_split.
Section person_rejected.

Import MoquiService.

(** X18.  When Moqui rejects the creation of the person, [createContact]
    makes no further call, does not throw, leaves the index store
    unchanged and returns a failure with the message of the rejection. *)
Theorem createContact_stops_at_rejected_person (E : Env) (s : St)
    (contactData : json) (p : party) (e : exn) :
  transformToMoquiParty contactData = Ret p ->
  respond E (trace s ++ [ELog Info "Creating contact in Moqui"])
    (persons_request p) = Throw e ->
  calls_of (createContact contactData) E s = [EHttp (persons_request p) (Throw e)]
  /\ fst (createContact contactData E s)
     = Ret (mkResult false None (Some (message e)) None)
  /\ store (snd (createContact contactData E s)) = store s.
Proof.
  intros Hparty Hperson.
  assert (Hrun : createContact contactData E s
    = (Ret (mkResult false None (Some (message e)) None),
       mkSt (trace s ++ [ELog Info "Creating contact in Moqui";
                         EHttp (persons_request p) (Throw e);
                         ELog Err "Failed to create contact in Moqui"])
         (store s))).
  { unfold createContact, createContact_try.
    unfold try_catch, bind at 1, lift at 1. rewrite Hparty.
    unfold bind at 1, logger.info at 1, emit at 1. cbn [trace store].
    unfold bind at 1, post at 1, http, bind at 1, settle at 1. cbn [trace store].
    fold (persons_request p). rewrite Hperson. run.
    now rewrite <- !app_assoc. }
  unfold calls_of. rewrite Hrun. cbn [fst snd trace store]. calls. auto.
Qed.

Lemma createContact_stops_at_rejected_person_witness :
  let E := Demo.platform Demo.down Demo.no_fault in
  exists result,
    fst (createContact Demo.jane E Demo.start) = Ret result
    /\ success result = false
    /\ length (calls_of (createContact Demo.jane) E Demo.start) = 1%nat.
Proof.
  cbv zeta.
  destruct (createContact_stops_at_rejected_person
              (Demo.platform Demo.down Demo.no_fault) Demo.start Demo.jane
              (mkParty "Jane" "Roe" "PtyPerson" "PtyEnabled")
              (Demo.rejected 500 "/persons") eq_refl eq_refl)
    as (Hcalls & Hrun & _).
  eexists. split; [exact Hrun|]. split; [reflexivity|]. now rewrite Hcalls.
Defined.

End person_rejected.
(** * The index adapter: a record filed, then updated *)

Section indexed_then_updated.

Import Store OpenSearchService.

Context (E : Env).

Lemma indexContact_files (s : St) (fields : list (string * json)) (id : string) :
  Js.assoc "contactId" fields = Some (JStr id) ->
  os_fault E (trace s)
    (IndexDoc (contactsIndex (cfg E)) (Some id) (JObj fields)) = None ->
  let ix := index_for_write (store s) (contactsIndex (cfg E)) in
  indexContact (JObj fields) E s
  = (Ret (JObj [("_id", JStr id)]),
     mkSt (trace s
           ++ [EOs (IndexDoc (contactsIndex (cfg E)) (Some id) (JObj fields))
                 (Ret (JObj [("_id", JStr id)]));
               ELog Info ("Contact indexed: " +:+ id)])
       (<[contactsIndex (cfg E) :=
            mkIndex (mappings ix) (<[id := JObj fields]> (docs ix)) (auto_docs ix)]>
          (store s))).
Proof.
  intros Hid Hfault ix. unfold indexContact. run.
  cbn [Prop_access.get_opt]. rewrite Hid.
  cbn [doc_id Js.to_string Js.show]. unfold opensearch.
  cbn [trace store]. rewrite Hfault. cbn [step]. run.
  now rewrite <- !app_assoc.
Qed.

(** X19.  With an index store that can be reached, [indexContact] of a
    record followed by [updateContact] with the [contactId] of the record
    succeeds, and the index then holds under that id the record with the
    update merged in: apart from [modifiedOn], a key of the update has
    its merged value and every other key the value that was indexed. *)
Theorem indexed_contact_can_be_updated (s : St) (fields : list (string * json))
    (id : string) (updateData : list (string * jsv)) :
  (forall history op, os_fault E history op = None) ->
  Js.assoc "contactId" fields = Some (JStr id) ->
  NoDup (map fst updateData) ->
  exists body fields' s',
    (indexContact (JObj fields) ;; updateContact (Some (JStr id)) updateData) E s
    = (Ret body, s')
    /\ (exists ix', store s' !! contactsIndex (cfg E) = Some ix'
                    /\ docs ix' !! id = Some (JObj fields'))
    /\ forall k,
         k <> "modifiedOn" ->
         Js.assoc k fields'
         = match Js.assoc k updateData with
           | Some (Some v) =>
               Some (match Js.assoc k fields with
                     | Some old => merge_json v old
                     | None => v
                     end)
           | _ => Js.assoc k fields
           end.
Proof.
  intros Hreach Hid Hnd.
  pose proof (indexContact_files s fields id Hid (Hreach _ _)) as Hfiled.
  cbv zeta in Hfiled.
  set (s1 := snd (indexContact (JObj fields) E s)).
  destruct (updateContact_patches E s1 id updateData
              (mkIndex
                 (mappings (index_for_write (store s) (contactsIndex (cfg E))))
                 (<[id := JObj fields]>
                    (docs (index_for_write (store s) (contactsIndex (cfg E)))))
                 (auto_docs (index_for_write (store s) (contactsIndex (cfg E)))))
              fields Hnd)
    as (body & fields' & s' & Hrun & Hstore & _ & Hfields).
  - subst s1. rewrite Hfiled. cbn [snd store]. apply lookup_insert_eq.
  - cbn [docs]. apply lookup_insert_eq.
  - apply Hreach.
  - exists body, fields', s'. split.
    + unfold bind. fold s1. rewrite Hfiled. cbn [fst snd].
      subst s1. rewrite Hfiled in Hrun. exact Hrun.
    + split; [|exact Hfields]. eexists. rewrite Hstore.
      split; [apply lookup_insert_eq|]. cbn [docs]. apply lookup_insert_eq.
Qed.

End indexed_then_updated.

Lemma indexed_contact_can_be_updated_witness :
  let E := Demo.platform Demo.up Demo.no_fault in
  exists body fields' s' ix',
    (OpenSearchService.indexContact Demo.jane
     ;; OpenSearchService.updateContact
          (Some (JStr "3b241101-e2bb-4255-8caf-4136c566a962"))
          [("moquiId", Js.str "PERSON_100")]) E Demo.start
    = (Ret body, s')
    /\ store s' !! "contacts" = Some ix'
    /\ Store.docs ix' !! "3b241101-e2bb-4255-8caf-4136c566a962"
       = Some (JObj fields')
    /\ Js.assoc "moquiId" fields' = Some (JStr "PERSON_100")
    /\ Js.assoc "fullName" fields' = Some (JStr "Jane Roe").
Proof.
  cbv zeta.
  assert (Hnd : NoDup (map fst [("moquiId", Js.str "PERSON_100")])).
  { apply (bool_decide_unpack _). vm_compute. reflexivity. }
  destruct (indexed_contact_can_be_updated
              (Demo.platform Demo.up Demo.no_fault) Demo.start
              [("contactId", JStr "3b241101-e2bb-4255-8caf-4136c566a962");
               ("fullName", JStr "Jane Roe");
               ("emailAddress", JStr "jane@x.com");
               ("company", JStr "Acme")]
              "3b241101-e2bb-4255-8caf-4136c566a962"
              [("moquiId", Js.str "PERSON_100")]
              (fun _ _ => eq_refl) eq_refl Hnd)
    as (body & fields' & s' & Hrun & (ix' & Hix & Hdoc) & Hfields).
  exists body, fields', s', ix'.
  split; [exact Hrun|]. split; [exact Hix|]. split; [exact Hdoc|].
  rewrite (Hfields "moquiId"), (Hfields "fullName") by discriminate.
  split; reflexivity.
Defined.
(** * Notifications and the webhook of a deleted repository *)

Section reachable_store.

Import Store OpenSearchService NotificationService webhookController.

Context (E : Env).

Hypothesis reachable : forall history op, os_fault E history op = None.

(** With a store that can be reached, [sendNotification] returns. *)
Lemma sendNotification_returns (notification : list (string * json)) (s : St) :
  exists r s', sendNotification notification E s = (Ret r, s').
Proof.
  unfold sendNotification. run.
  rewrite (opensearch_reachable E reachable). cbn [step]. run.
  unfold sendToConsole. run.
  rewrite (opensearch_reachable E reachable). cbn [step trace store].
  rewrite lookup_insert_eq. cbn [docs]. rewrite lookup_insert_eq.
  run. eauto.
Qed.

(** [ResetContactIndices] leaves no contacts index behind. *)
Lemma ResetContactIndices_deletes (s : St) :
  exists new,
    ResetContactIndices E s
    = (Ret tt, mkSt (trace s ++ new) (delete (contactsIndex (cfg E)) (store s))).
Proof.
  unfold ResetContactIndices. run.
  rewrite (opensearch_reachable E reachable). cbn [step].
  destruct (store s !! contactsIndex (cfg E)) as [ix|] eqn:Hix.
  - rewrite bool_decide_eq_true_2 by eauto. cbn [Js.truthy]. run.
    rewrite (opensearch_reachable E reachable). cbn [step trace store].
    rewrite Hix. run.
    eexists. rewrite <- !app_assoc. reflexivity.
  - rewrite bool_decide_eq_false_2 by (intros [? ?]; discriminate).
    cbn [Js.truthy]. run.
    eexists. rewrite delete_id by done. reflexivity.
Qed.

(** X20.  A webhook with the action [deleted] and a repository, whatever
    its name, is answered 200 when the index store can be reached, and
    the contacts index no longer exists afterwards; every index other
    than the contacts and the notifications is as before. *)
Theorem deleted_repository_erases_contacts (s : St) (r : req) :
  contactsIndex (cfg E) <> notificationsIndex (cfg E) ->
  Js.is_str (parsed r).["action"] "deleted" = true ->
  Js.truthy (parsed r).["repository"] = true ->
  exists res s',
    gitea_handler r E s = (Ret res, s')
    /\ status res = 200
    /\ store s' !! contactsIndex (cfg E) = None
    /\ forall i,
         i <> contactsIndex (cfg E) -> i <> notificationsIndex (cfg E) ->
         store s' !! i = store s !! i.
Proof.
  intros Hdistinct Haction Hrepository.
  unfold gitea_handler. run. rewrite Haction, Hrepository. cbn [andb].
  unfold handleRepositoryDeleted. run.
  match goal with
  | |- context [ResetContactIndices E ?s0] =>
      destruct (ResetContactIndices_deletes s0) as (new & ->)
  end.
  run.
  match goal with
  | |- context [sendNotification ?n E ?s0] =>
      pose proof (sendNotification_frame E n s0) as Hframe;
      destruct (sendNotification_returns n s0) as (sent & s1 & Hsent)
  end.
  rewrite Hsent in Hframe |- *. cbn [snd store] in Hframe. run.
  eexists _, _. split; [reflexivity|]. cbn [status store].
  split; [reflexivity|]. split.
  - rewrite (Hframe _ Hdistinct). apply lookup_delete_eq.
  - intros i Hi Hn. rewrite (Hframe _ Hn). now apply lookup_delete_ne.
Qed.

End reachable_store.

Lemma deleted_repository_erases_contacts_witness :
  let E := Demo.platform Demo.up Demo.no_fault in
  let r :=
    webhookController.mkReq None None
      (JObj [("action", JStr "deleted");
             ("repository", JObj [("id", JNum 12); ("name", JStr "scratch")])]) in
  is_Some (store Demo_index.indexed !! "contacts")
  /\ exists res s',
       webhookController.gitea_handler r E Demo_index.indexed = (Ret res, s')
       /\ status res = 200
       /\ store s' !! "contacts" = None.
Proof.
  cbv zeta. split; [eexists; reflexivity|].
  destruct (deleted_repository_erases_contacts
              (Demo.platform Demo.up Demo.no_fault) (fun _ _ => eq_refl)
              Demo_index.indexed
              (webhookController.mkReq None None
                 (JObj [("action", JStr "deleted");
                        ("repository",
                         JObj [("id", JNum 12); ("name", JStr "scratch")])]))
              ltac:(discriminate) eq_refl eq_refl)
    as (res & s' & Hrun & Hstatus & Hgone & _).
  exists res, s'. auto.
Defined.
Section unrecorded_notification.

Import Store OpenSearchService NotificationService.

Context (E : Env) (s : St) (notification : list (string * json)).

(** X21.  When the first write of a notification fails and the store holds
    no notification under the new id, [sendNotification] does not return
    its failure result: the update of its [catch] block fails as well,
    so [sendNotification] throws.  The index store is unchanged. *)
Theorem sendNotification_rejects_when_unrecorded :
  (forall logs doc,
     only_logs logs ->
     os_fault E (trace s ++ logs)
       (IndexDoc (notificationsIndex (cfg E)) (Some (notification_id E s)) doc)
     <> None) ->
  (forall ix,
     store s !! notificationsIndex (cfg E) = Some ix ->
     docs ix !! notification_id E s = None) ->
  exists e s',
    sendNotification notification E s = (Throw e, s')
    /\ store s' = store s.
Proof.
  intros Hfault Hmissing. unfold sendNotification. run.
  fold (notification_id E s).
  unfold opensearch at 1. cbn [trace store].
  match goal with
  | |- context [os_fault E ?h (IndexDoc ?i ?d ?doc)] =>
      destruct (os_fault E h (IndexDoc i d doc)) as [e|] eqn:Hfirst;
        [|apply Hfault in Hfirst; [done|now repeat constructor]]
  end.
  run. unfold opensearch. cbn [trace store].
  match goal with
  | |- context [os_fault E ?h (UpdateDoc ?i ?d ?doc)] =>
      destruct (os_fault E h (UpdateDoc i d doc)) as [e'|]
  end.
  - eexists _, _. split; reflexivity.
  - cbn [step].
    destruct (store s !! notificationsIndex (cfg E)) as [ix|] eqn:Hix.
    + rewrite (Hmissing ix eq_refl). eexists _, _. split; reflexivity.
    + eexists _, _. split; reflexivity.
Qed.

End unrecorded_notification.

Lemma sendNotification_rejects_when_unrecorded_witness :
  let E := Demo.platform Demo.up Demo_notifications.index_fails in
  exists e s',
    NotificationService.sendNotification
      [("type", JStr "contact_synced"); ("title", JStr "Synced")] E Demo.start
    = (Throw e, s')
    /\ store s' = store Demo.start.
Proof.
  cbv zeta.
  apply (sendNotification_rejects_when_unrecorded
           (Demo.platform Demo.up Demo_notifications.index_fails) Demo.start
           [("type", JStr "contact_synced"); ("title", JStr "Synced")]).
  - intros logs doc _. discriminate.
  - intros ix H. vm_compute in H. discriminate.
Defined.
(** * The Gitea webhook *)

Section gitea_webhook.

Import webhookController.

Context (E : Env) (s : St) (r : req).

(** X22.  A request to [POST /api/webhooks/gitea] whose signature is not
    the HMAC-SHA256 of its raw body under the secret never reaches the
    handler: nothing is called, the index store is unchanged, and the
    request ends with the status 401 or with a RangeError or a TypeError
    of the middleware. *)
Theorem webhook_without_valid_signature_has_no_effect :
  (forall payload,
     rawBody r = Some payload ->
     signature r <> Some (crypto.hmac_hex (WEBHOOK_SECRET (cfg E)) payload)) ->
  exists o logs,
    post_gitea r E s = (o, mkSt (trace s ++ logs) (store s)) /\
    only_logs logs /\
    match o with
    | Ret res => status res = 401
    | Throw e => name e = "RangeError" \/ name e = "TypeError"
    end.
Proof. apply unsigned_webhook_has_no_effect. Qed.

(** X23.  A request to [POST /api/webhooks/gitea] whose signature is the
    hexadecimal HMAC-SHA256 of its raw body under the secret passes the
    middleware: after one debug line the route behaves as its handler. *)
Theorem signed_webhook_reaches_handler (payload : string) :
  rawBody r = Some payload ->
  signature r = Some (crypto.hmac_hex (WEBHOOK_SECRET (cfg E)) payload) ->
  post_gitea r E s
  = gitea_handler r E
      (mkSt (trace s ++ [ELog Debug "Verifying webhook signature"]) (store s)).
Proof.
  intros Hbody Hsig. unfold post_gitea, bind at 1.
  now rewrite (signed_passes E s r payload Hbody Hsig).
Qed.

(** X24.  An event that none of the four branches of the webhook handler
    takes, a pull request closed without a merge for instance, is
    answered 200 with [success: true], the webhook id and the action;
    the handler only logs and the index store is unchanged. *)
Theorem event_without_handler_is_acknowledged :
  dispatched r = false ->
  exists logs,
    gitea_handler r E s
    = (Ret (mkResponse 200
              (Js.obj [("success", Some (JBool true));
                       ("message", Js.str "Webhook processed successfully");
                       ("webhookId", Js.str (webhook_id E s));
                       ("action", (parsed r).["action"])])),
       mkSt (trace s ++ logs) (store s))
    /\ only_logs logs.
Proof.
  unfold dispatched. cbv zeta. intros Hno.
  apply orb_false_elim in Hno as [Hno Hsync].
  apply orb_false_elim in Hno as [Hno Hopened].
  apply orb_false_elim in Hno as [Hdeleted Hclosed].
  unfold gitea_handler. run. rewrite Hdeleted, Hclosed, Hopened, Hsync. run.
  eexists. split; [reflexivity|]. now repeat constructor.
Qed.

End gitea_webhook.

Lemma webhook_without_valid_signature_has_no_effect_witness :
  let E := Demo.platform Demo.up Demo.no_fault in
  let r :=
    webhookController.mkReq
      (Some "0000000000000000000000000000000000000000000000000000000000000000")
      (webhookController.rawBody Demo_webhook.jane_merge)
      (webhookController.parsed Demo_webhook.jane_merge) in
  exists o logs,
    webhookController.post_gitea r E Demo_index.indexed
    = (o, mkSt logs (store Demo_index.indexed))
    /\ only_logs logs
    /\ match o with
       | Ret res => status res = 401
       | Throw e => name e = "RangeError" \/ name e = "TypeError"
       end.
Proof.
  cbv zeta.
  apply (webhook_without_valid_signature_has_no_effect
           (Demo.platform Demo.up Demo.no_fault) Demo_index.indexed).
  intros payload [= <-]. vm_compute. discriminate.
Defined.

Lemma signed_webhook_reaches_handler_witness :
  let E := Demo.platform Demo.up Demo.no_fault in
  let r := Demo_webhook.jane_merge in
  (exists payload,
     webhookController.rawBody r = Some payload
     /\ webhookController.signature r
        = Some (crypto.hmac_hex (WEBHOOK_SECRET (cfg E)) payload))
  /\ webhookController.post_gitea r E Demo_index.indexed
     = webhookController.gitea_handler r E
         (mkSt [ELog Debug "Verifying webhook signature"]
            (store Demo_index.indexed)).
Proof.
  cbv zeta.
  assert (Hsig : webhookController.signature Demo_webhook.jane_merge
                 = Some (crypto.hmac_hex
                           (WEBHOOK_SECRET
                              (cfg (Demo.platform Demo.up Demo.no_fault)))
                           (default "" (webhookController.rawBody
                                          Demo_webhook.jane_merge))))
    by (vm_compute; reflexivity).
  split; [eexists; split; [reflexivity|exact Hsig]|].
  exact (signed_webhook_reaches_handler
           (Demo.platform Demo.up Demo.no_fault) Demo_index.indexed
           Demo_webhook.jane_merge _ eq_refl Hsig).
Defined.

Lemma event_without_handler_is_acknowledged_witness :
  let E := Demo.platform Demo.up Demo.no_fault in
  let r :=
    webhookController.mkReq None None
      (JObj [("action", JStr "closed");
             ("pull_request",
              JObj [("number", JNum 7); ("title", JStr "Add Contact: Jane Roe");
                    ("merged", JBool false)]);
             ("repository", JObj [("name", JStr "cdm-data")])]) in
  exists logs res,
    webhookController.gitea_handler r E Demo_index.indexed
    = (Ret res, mkSt logs (store Demo_index.indexed))
    /\ status res = 200
    /\ only_logs logs.
Proof.
  cbv zeta.
  destruct (event_without_handler_is_acknowledged
              (Demo.platform Demo.up Demo.no_fault) Demo_index.indexed
              (webhookController.mkReq None None
                 (JObj [("action", JStr "closed");
                        ("pull_request",
                         JObj [("number", JNum 7);
                               ("title", JStr "Add Contact: Jane Roe");
                               ("merged", JBool false)]);
                        ("repository", JObj [("name", JStr "cdm-data")])]))
              eq_refl)
    as (logs & Hrun & Hlogs).
  eexists _, _. split; [exact Hrun|]. split; [reflexivity|exact Hlogs].
Defined.
Section opened_pull_request.

Import OpenSearchService NotificationService webhookController.

Context (E : Env).

Lemma traced_keeps_store {A} (m : M A) :
  traced not_store m -> forall s, store (snd (m E s)) = store s.
Proof. intros Hm s. destruct (Hm E s) as (new & _ & Hnew & Hstore). auto. Qed.

Lemma handlePullRequestOpened_frame pullRequest webhookId :
  framed E (fun i => i <> notificationsIndex (cfg E))
    (handlePullRequestOpened pullRequest webhookId).
Proof.
  unfold handlePullRequestOpened.
  apply framed_bind; [apply framed_nothing; reflexivity|intros _].
  apply framed_try_catch; [|intro; apply framed_nothing; reflexivity].
  apply framed_bind.
  - apply framed_nothing, traced_keeps_store, extract_only_logs.
  - intros contactData. apply framed_bind; [apply sendNotification_frame|].
    intro. apply framed_nothing. reflexivity.
Qed.

(** The [catch] of [handlePullRequestOpened] swallows the error. *)
Lemma handlePullRequestOpened_returns pullRequest webhookId s :
  exists s', handlePullRequestOpened pullRequest webhookId E s = (Ret tt, s').
Proof.
  unfold handlePullRequestOpened. run.
  match goal with
  | |- context [match ?m with _ => _ end] => destruct m as [[[]|e] s1]
  end; eauto.
Qed.

(** X25.  A webhook with the action [opened] and a pull request is always
    answered 200 with [success: true], also when the notification cannot
    be sent, since [handlePullRequestOpened] swallows the error.  Only
    the notifications index can change. *)
Theorem opened_pull_request_is_always_acknowledged (s : St) (r : req) :
  Js.is_str (parsed r).["action"] "opened" = true ->
  Js.truthy (parsed r).["pull_request"] = true ->
  exists s',
    gitea_handler r E s
    = (Ret (mkResponse 200
              (Js.obj [("success", Some (JBool true));
                       ("message", Js.str "Webhook processed successfully");
                       ("webhookId", Js.str (webhook_id E s));
                       ("action", (parsed r).["action"])])), s')
    /\ forall i, i <> notificationsIndex (cfg E) -> store s' !! i = store s !! i.
Proof.
  intros Haction Hpull.
  assert (Hdeleted : Js.is_str (parsed r).["action"] "deleted" = false).
  { destruct ((parsed r).["action"]) as [[]|]; try discriminate.
    cbn in Haction |- *. apply String.eqb_eq in Haction as ->. reflexivity. }
  assert (Hclosed : Js.is_str (parsed r).["action"] "closed" = false).
  { destruct ((parsed r).["action"]) as [[]|]; try discriminate.
    cbn in Haction |- *. apply String.eqb_eq in Haction as ->. reflexivity. }
  unfold gitea_handler. run.
  rewrite Hdeleted, Hclosed, Haction, Hpull. cbn [andb].
  match goal with
  | |- context [handlePullRequestOpened ?p ?w E ?s0] =>
      pose proof (handlePullRequestOpened_frame p w s0) as Hframe;
      destruct (handlePullRequestOpened_returns p w s0) as (s1 & Hrun)
  end.
  rewrite Hrun in Hframe |- *. cbn [snd store] in Hframe.
  eexists. split; [reflexivity|]. exact Hframe.
Qed.

End opened_pull_request.

Lemma opened_pull_request_is_always_acknowledged_witness :
  let E := Demo.platform Demo.up Demo_notifications.index_fails in
  let r :=
    webhookController.mkReq None None
      (JObj [("action", JStr "opened");
             ("pull_request", Demo_webhook.jane_pull_request)]) in
  exists res s',
    webhookController.gitea_handler r E Demo_index.indexed = (Ret res, s')
    /\ status res = 200
    /\ store s' !! "contacts" = store Demo_index.indexed !! "contacts".
Proof.
  cbv zeta.
  destruct (opened_pull_request_is_always_acknowledged
              (Demo.platform Demo.up Demo_notifications.index_fails)
              Demo_index.indexed
              (webhookController.mkReq None None
                 (JObj [("action", JStr "opened");
                        ("pull_request", Demo_webhook.jane_pull_request)]))
              eq_refl eq_refl)
    as (s' & Hrun & Hframe).
  eexists _, s'. split; [exact Hrun|]. split; [reflexivity|].
  apply Hframe. discriminate.
Defined.
(** * The pull request, written by the commit and read by the webhook *)

Section regex.

Import Regex.

Local Transparent String.append.

Ltac push_char :=
  repeat change (String ?c ?a +:+ ?s) with (String c (a +:+ s));
  repeat change (EmptyString +:+ ?s) with s.

Lemma group_after_eq p s :
  group_after p s
  = match
      match strip_prefix p s with
      | Some rest =>
          match dot_plus rest with
          | EmptyString => None
          | g => Some g
          end
      | None => None
      end
    with
    | Some g => Some g
    | None =>
        match s with
        | EmptyString => None
        | String _ s' => group_after p s'
        end
    end.
Proof. destruct s; reflexivity. Qed.

Lemma strip_prefix_app p s : strip_prefix p (p +:+ s) = Some s.
Proof.
  induction p as [|a p IH]; [reflexivity|].
  push_char. cbn [strip_prefix]. now rewrite Ascii.eqb_refl.
Qed.

Lemma plain_char_dot c rest :
  plain_char c = true -> at_line_terminator (String c rest) = false.
Proof.
  unfold plain_char, at_line_terminator. cbv zeta.
  destruct (nat_of_ascii c =? 10)%nat; [discriminate|].
  destruct (nat_of_ascii c =? 13)%nat; [discriminate|].
  destruct (nat_of_ascii c =? 226)%nat; [discriminate|]. reflexivity.
Qed.

Lemma plain_char_no_asterisk c : plain_char c = true -> Ascii.eqb "*" c = false.
Proof.
  intros Hc. destruct (Ascii.eqb_spec "*"%char c) as [<-|]; [|reflexivity].
  discriminate.
Qed.

Lemma dot_plus_plain g s :
  forallb plain_char (list_ascii_of_string g) = true ->
  s = "" \/ at_line_terminator s = true ->
  dot_plus (g +:+ s) = g.
Proof.
  intros Hg Hs. induction g as [|c g IH].
  - destruct Hs as [->|Hs]; [reflexivity|].
    destruct s; [reflexivity|]. push_char. cbn [dot_plus]. now rewrite Hs.
  - cbn [list_ascii_of_string forallb] in Hg.
    apply andb_prop in Hg as [Hc Hg].
    push_char. cbn [dot_plus]. rewrite (plain_char_dot c _ Hc).
    now rewrite IH.
Qed.

Lemma group_after_here p g s :
  plain g = true ->
  s = "" \/ at_line_terminator s = true ->
  group_after p (p +:+ g +:+ s) = Some g.
Proof.
  intros Hg Hs. apply andb_prop in Hg as [Hne Hg].
  rewrite group_after_eq, strip_prefix_app, dot_plus_plain by done.
  now destruct g.
Qed.

Lemma strip_prefix_differs p a s :
  differs_within p a = true -> strip_prefix p (a +:+ s) = None.
Proof.
  revert a. induction p as [|x p IH]; intros [|y a] H; try discriminate.
  push_char. cbn [differs_within strip_prefix] in H |- *.
  destruct (Ascii.eqb x y); [now apply IH|reflexivity].
Qed.

Lemma group_after_skip p a s :
  no_match_within p a = true ->
  group_after p (a +:+ s) = group_after p s.
Proof.
  induction a as [|c a IH]; intros H; [reflexivity|].
  cbn [no_match_within] in H. apply andb_prop in H as [Hhere H].
  rewrite group_after_eq, (strip_prefix_differs _ _ _ Hhere).
  push_char. now apply IH.
Qed.

Lemma plain_no_match p g :
  plain g = true -> no_match_within (String "*" p) g = true.
Proof.
  intros Hg. apply andb_prop in Hg as [_ Hg].
  induction g as [|c g IH]; [reflexivity|].
  cbn [list_ascii_of_string forallb] in Hg. apply andb_prop in Hg as [Hc Hg].
  cbn [no_match_within differs_within].
  rewrite (plain_char_no_asterisk c Hc). now apply IH.
Qed.

Lemma text_not_empty c a s : String c a +:+ s <> "".
Proof. push_char. discriminate. Qed.

Lemma line_ends_here s : Str.nl +:+ s = "" \/ at_line_terminator (Str.nl +:+ s) = true.
Proof. right. reflexivity. Qed.

End regex.

Local Opaque String.append.

Section pull_request_round_trip.

Import GiteaCommit webhookController.

Context (E : Env) (s : St).

Ltac skip_text :=
  rewrite group_after_skip by (reflexivity || now apply plain_no_match).

(** X26.  [extractContactDataFromPR] reads back what [commitCdmData] wrote:
    from the title and the body of the pull request it returns the
    [fullName], the [emailAddress] and the [contactId] of the contact,
    when each of them, and the company when there is one, is a text that
    is not empty and holds no line feed, no carriage return, no asterisk
    and no byte 226.  The company is read back as it was written: a
    contact without company comes back with the company [N/A]. *)
Theorem extraction_reads_back_the_pull_request
    (contactData pullRequest : json)
    (id name email company submissionId processedAt : string) :
  contactData.["contactId"] = Some (JStr id) ->
  contactData.["fullName"] = Some (JStr name) ->
  contactData.["emailAddress"] = Some (JStr email) ->
  company = (if Js.truthy contactData.["company"]
             then Js.show contactData.["company"] else "N/A") ->
  plain id = true -> plain name = true -> plain email = true ->
  plain company = true ->
  pullRequest.["title"] = Some (JStr ("Add Contact: " +:+ name)) ->
  pullRequest.["body"]
  = Some (JStr (pull_request_body contactData submissionId processedAt)) ->
  extractContactDataFromPR pullRequest E s
  = (Ret (Some (JObj [("fullName", JStr name);
                      ("emailAddress", JStr email);
                      ("company", JStr company);
                      ("contactId", JStr id)])), s).
Proof.
  intros Hid Hname Hemail Hcompany Pid Pname Pemail Pcompany Htitle Hbody.
  unfold extractContactDataFromPR. run. rewrite Htitle, Hbody.
  cbn [MoquiService.as_string].
  replace ("Add Contact: " +:+ name) with ("Add Contact: " +:+ name +:+ "")
    by now rewrite append_nil_r.
  rewrite group_after_here by (auto). 
  unfold pull_request_body. rewrite Hid, Hname, Hemail, <- Hcompany.
  cbn [Js.show Js.to_string Js.truthy].
  match goal with
  | |- context [negb (String.eqb ?b "")] =>
      destruct (String.eqb_spec b "") as [Hempty|_]
  end.
  { now apply text_not_empty in Hempty. }
  cbn [negb].
  repeat skip_text. rewrite group_after_here by auto using line_ends_here.
  repeat skip_text. rewrite group_after_here by auto using line_ends_here.
  repeat skip_text. rewrite group_after_here by auto using line_ends_here.
  reflexivity.
Qed.

End pull_request_round_trip.

Lemma extraction_reads_back_the_pull_request_witness :
  let E := Demo.platform Demo.up Demo.no_fault in
  let contactData :=
    JObj [("contactId", JStr "3b241101-e2bb-4255-8caf-4136c566a962");
          ("fullName", JStr "Jane Roe");
          ("emailAddress", JStr "jane@x.com")] in
  let pullRequest :=
    JObj [("number", JNum 7);
          ("title", JStr ("Add Contact: " +:+ "Jane Roe"));
          ("body",
           JStr (GiteaCommit.pull_request_body contactData
                   "1735689600000-4fzyo82mv" "2025-01-01T00:00:00.000Z"))] in
  webhookController.extractContactDataFromPR pullRequest E Demo.start
  = (Ret (Some (JObj [("fullName", JStr "Jane Roe");
                      ("emailAddress", JStr "jane@x.com");
                      ("company", JStr "N/A");
                      ("contactId",
                       JStr "3b241101-e2bb-4255-8caf-4136c566a962")])),
     Demo.start).
Proof.
  cbv zeta.
  exact (extraction_reads_back_the_pull_request
           (Demo.platform Demo.up Demo.no_fault) Demo.start
           (JObj [("contactId", JStr "3b241101-e2bb-4255-8caf-4136c566a962");
                  ("fullName", JStr "Jane Roe");
                  ("emailAddress", JStr "jane@x.com")])
           (JObj [("number", JNum 7);
                  ("title", JStr ("Add Contact: " +:+ "Jane Roe"));
                  ("body",
                   JStr (GiteaCommit.pull_request_body
                           (JObj [("contactId",
                                   JStr "3b241101-e2bb-4255-8caf-4136c566a962");
                                  ("fullName", JStr "Jane Roe");
                                  ("emailAddress", JStr "jane@x.com")])
                           "1735689600000-4fzyo82mv"
                           "2025-01-01T00:00:00.000Z"))])
           _ _ _ "N/A" _ _
           eq_refl eq_refl eq_refl eq_refl eq_refl eq_refl eq_refl eq_refl
           eq_refl eq_refl).
Defined.
(** * GET /api/data/reset/contacts *)

Section reset_contacts.

Import Store OpenSearchService dataRoutes.

Context (E : Env) (s : St).

(** X27.  [GET /api/data/reset/contacts] never throws: it answers 201 and
    the contacts index is gone while every other index is untouched, or
    it answers 500 with the index store unchanged, which happens only
    when a call to the store failed. *)
Theorem reset_contacts_route :
  exists res s',
    get_reset_contacts E s = (Ret res, s')
    /\ ((status res = 201
         /\ store s' = delete (contactsIndex (cfg E)) (store s))
        \/ (status res = 500 /\ store s' = store s
            /\ exists history op, os_fault E history op <> None)).
Proof.
  unfold get_reset_contacts, ResetContactIndices. run.
  unfold opensearch at 1. cbn [trace store].
  destruct (os_fault E (trace s) (IndicesExists (contactsIndex (cfg E))))
    as [e|] eqn:Hexists.
  { run. eexists _, _. split; [reflexivity|]. right.
    repeat split. exists (trace s), (IndicesExists (contactsIndex (cfg E))).
    now rewrite Hexists. }
  cbn [step].
  destruct (store s !! contactsIndex (cfg E)) as [ix|] eqn:Hix.
  - rewrite bool_decide_eq_true_2 by eauto. cbn [Js.truthy]. run.
    unfold opensearch. cbn [trace store].
    match goal with
    | |- context [os_fault E ?h (IndicesDelete ?i)] =>
        destruct (os_fault E h (IndicesDelete i)) as [e|] eqn:Hdelete
    end.
    + run. eexists _, _. split; [reflexivity|]. right.
      repeat split. eexists _, _. now rewrite Hdelete.
    + cbn [step]. rewrite Hix. run.
      eexists _, _. split; [reflexivity|]. left. split; reflexivity.
  - rewrite bool_decide_eq_false_2 by (intros [? ?]; discriminate).
    cbn [Js.truthy]. run.
    eexists _, _. split; [reflexivity|]. left.
    split; [reflexivity|]. cbn [store]. now rewrite delete_id.
Qed.

End reset_contacts.
